(** * Article-checker worker: request admission, fact-check engine, orchestration

    A shallow embedding of the webhook worker (the [checkRateLimit],
    [validateRequest] and [fetch] functions of the worker module), of
    [BraveSearchService] and of [GitHubService.extractPRDetails], with the
    properties of the design document stated and proved over it.

    Conventions.
    - A JavaScript string is a [string]; one [ascii] stands for one code unit,
      so the model carries the code units below 256 and [String.length] is
      the [.length] of the source.  Emoji in message templates are carried as
      their bytes; no length is taken of them.
    - An awaited promise that settles is a value of [Res]: [Ok] when it
      resolves, [Throw] when it rejects.  A promise that stays pending is
      modelled where the source guards against it, at the content fetch
      that races a timer; every other awaited call is taken to settle.
      Functions that touch the key-value store or GitHub thread a [World].
    - What the store holds under a key is a JSON value ([Worker.Json]), of
      which the limiter only asks whether it is an array; the elements are
      then compared by JavaScript's [>], with its conversions.
    - Collaborators outside the repository (the clock, the key-value store's
      availability, the signature check, the HTTP backends) are fields of a
      record of oracles, so every theorem quantifies over their behaviour. *)

From Stdlib Require Import ZArith Lia String Ascii List Bool.
From stdpp Require Import base option list strings gmap pretty.

Local Open Scope string_scope.
Local Open Scope Z_scope.

(** ** JavaScript values shared by all modules *)

(** What a [catch] clause receives: an [Error] object with its message, or
    some other thrown value. *)
Inductive JsExn : Type :=
  | JsError (message : string)
  | JsOther.

Inductive Res (A : Type) : Type :=
  | Ok (a : A)
  | Throw (e : JsExn).
Arguments Ok {A} a.
Arguments Throw {A} e.

Definition res_bind {A B} (r : Res A) (k : A -> Res B) : Res B :=
  match r with
  | Ok a => k a
  | Throw e => Throw e
  end.

(** [Promise.all (xs.map f)]: the results in the order of [xs] when every
    promise resolves, a rejection as soon as one rejects.  Which rejection
    wins when several reject is a matter of timing; the model reports the
    first one in list order. *)
Fixpoint promise_all {A B} (f : A -> Res B) (xs : list A) : Res (list B) :=
  match xs with
  | [] => Ok []
  | x :: rest =>
      match f x, promise_all f rest with
      | Ok b, Ok bs => Ok (b :: bs)
      | Throw e, _ => Throw e
      | Ok _, Throw e => Throw e
      end
  end.

Module JsString.

(** [s.split(sep)] for a separator of one character: the pieces between
    the separators, empty pieces included. *)
Fixpoint split (sep : ascii) (s : string) : list string :=
  match s with
  | EmptyString => [EmptyString]
  | String c rest =>
      if Ascii.eqb c sep then EmptyString :: split sep rest
      else match split sep rest with
           | [] => [String c EmptyString]
           | piece :: pieces => String c piece :: pieces
           end
  end.

(** White space and line terminators of [String.prototype.trim] among the
    code units below 256: TAB, LF, VT, FF, CR, SP, NBSP. *)
Definition is_whitespace (c : ascii) : bool :=
  let n := nat_of_ascii c in
  ((9 <=? n) && (n <=? 13))%nat || (n =? 32)%nat || (n =? 160)%nat.

Fixpoint trimStart (s : string) : string :=
  match s with
  | EmptyString => EmptyString
  | String c rest => if is_whitespace c then trimStart rest else s
  end.

Fixpoint trimEnd (s : string) : string :=
  match s with
  | EmptyString => EmptyString
  | String c rest =>
      match trimEnd rest with
      | EmptyString => if is_whitespace c then EmptyString
                       else String c EmptyString
      | t => String c t
      end
  end.

Definition trim (s : string) : string := trimEnd (trimStart s).

Fixpoint startsWith (p s : string) : bool :=
  match p, s with
  | EmptyString, _ => true
  | String a p', String b s' => Ascii.eqb a b && startsWith p' s'
  | String _ _, EmptyString => false
  end.

(** [s.includes(p)] *)
Fixpoint includes (p s : string) : bool :=
  startsWith p s ||
  match s with
  | EmptyString => false
  | String _ rest => includes p rest
  end.

(** [s.replace(/pat/g, rep)] for a literal pattern: leftmost occurrences,
    not overlapping.  [skip] counts the characters of a match still to be
    passed over. *)
Fixpoint replaceAll_from (skip : nat) (pat rep s : string) : string :=
  match s with
  | EmptyString => EmptyString
  | String c rest =>
      match skip with
      | S k => replaceAll_from k pat rep rest
      | O =>
          if (negb (String.eqb pat EmptyString)) && startsWith pat s
          then rep +:+ replaceAll_from (Nat.pred (String.length pat)) pat rep rest
          else String c (replaceAll_from O pat rep rest)
      end
  end.

Definition replaceAll (pat rep s : string) : string :=
  replaceAll_from O pat rep s.

(** How many times [c] occurs in [s]. *)
Fixpoint count_char (c : ascii) (s : string) : nat :=
  match s with
  | EmptyString => O
  | String a rest =>
      if Ascii.eqb a c then S (count_char c rest) else count_char c rest
  end.

(** [xs.join(sep)] *)
Fixpoint join (sep : string) (xs : list string) : string :=
  match xs with
  | [] => EmptyString
  | [x] => x
  | x :: rest => x +:+ sep +:+ join sep rest
  end.

End JsString.

(** ** services/brave-search.ts *)

Module BraveSearch.
Import JsString.

Record Reference := { ref_title : string; ref_url : string }.

(** [SearchResult] *)
Record SearchResult := { claim : string; references : list Reference }.

Record BraveSearchResult :=
  { title : string; url : string; description : string }.

Record WebItem :=
  { web_title : string; web_url : string; web_description : string }.

Record NewsItem :=
  { news_title : string; news_url : string; news_description : string;
    news_age : string; news_hostname : string }.

Record FaqItem :=
  { faq_title : string; faq_url : string;
    faq_question : string; faq_answer : string }.

(** [BraveAPIResponse]; an absent optional member is [None].  An entry of
    [mixed.main] is represented by its [type] string. *)
Record BraveAPIResponse :=
  { web : option (list WebItem);
    news : option (list NewsItem);
    faq : option (list FaqItem);
    mixed : option (list string) }.

(** What [fetch] resolves to, as far as [searchBrave] reads it. *)
Record HttpResponse :=
  { ok : bool; statusText : string; json : Res BraveAPIResponse }.

Section WithBackend.

(** The search backend: the outcome of the GET request issued for a
    query (the URL is a function of the query). *)
Variable fetch : string -> Res HttpResponse.

Definition searchBrave (query : string) : Res BraveAPIResponse :=
  res_bind (fetch query) (fun response =>
    if negb (ok response)
    then Throw (JsError ("Brave search failed: " +:+ statusText response))
    else json response).

Definition removeStrong (text : string) : string :=
  replaceAll "&#x27;" "'"
    (replaceAll "</strong>" "" (replaceAll "<strong>" "" text)).

(** The variables of the loop in [processSearchResults]. *)
Record Cursor :=
  { webIndex : nat; newsIndex : nat; faqIndex : nat;
    results : list BraveSearchResult }.

(** The [switch] on [item.type]: one iteration's body. *)
Definition visit (webResults : list WebItem) (newsResults : list NewsItem)
    (faqResults : list FaqItem) (item : string) (st : Cursor) : Cursor :=
  if String.eqb item "web" then
    match webResults !! webIndex st with
    | Some result =>
        {| webIndex := S (webIndex st); newsIndex := newsIndex st;
           faqIndex := faqIndex st;
           results := results st ++
             [{| title := web_title result; url := web_url result;
                 description := removeStrong (web_description result) |}] |}
    | None => st
    end
  else if String.eqb item "news" then
    match newsResults !! newsIndex st with
    | Some result =>
        {| webIndex := webIndex st; newsIndex := S (newsIndex st);
           faqIndex := faqIndex st;
           results :=
             if (5 <=? String.length (news_description result))%nat
             then results st ++
               [{| title := news_title result +:+ " (" +:+ news_age result
                            +:+ " - " +:+ news_hostname result +:+ ")";
                   url := news_url result;
                   description := removeStrong (news_description result) |}]
             else results st |}
    | None => st
    end
  else if String.eqb item "faq" then
    match faqResults !! faqIndex st with
    | Some result =>
        {| webIndex := webIndex st; newsIndex := newsIndex st;
           faqIndex := S (faqIndex st);
           results := results st ++
             [{| title := faq_title result; url := faq_url result;
                 description := "Q: " +:+ faq_question result +:+
                   String "010" ("A: " +:+ faq_answer result) |}] |}
    | None => st
    end
  else st.

(** [for (const item of ordering)] with its [break]. *)
Fixpoint scan (webResults : list WebItem) (newsResults : list NewsItem)
    (faqResults : list FaqItem) (ordering : list string) (st : Cursor)
    : Cursor :=
  match ordering with
  | [] => st
  | item :: rest =>
      if (5 <=? length (results st))%nat then st
      else scan webResults newsResults faqResults rest
             (visit webResults newsResults faqResults item st)
  end.

Definition processSearchResults (query : string)
    : Res (list BraveSearchResult) :=
  res_bind (searchBrave query) (fun response =>
    let ordering := default [] (mixed response) in
    let webResults := default [] (web response) in
    let newsResults := default [] (news response) in
    let faqResults := default [] (faq response) in
    Ok (results (scan webResults newsResults faqResults ordering
          {| webIndex := O; newsIndex := O; faqIndex := O;
             results := [] |}))).

(** The predicate of the [filter] in [factCheck]. *)
Definition substantial (s : string) : bool :=
  (20 <=? String.length s)%nat && (5 <=? length (split " " s))%nat.

(** The [claims] constant of [factCheck]. *)
Definition extractClaims (content : string) : list string :=
  take 3 (List.filter substantial (map trim (split "." content))).

Definition resolveClaim (c : string) : Res SearchResult :=
  res_bind (processSearchResults c) (fun searchResults =>
    Ok {| claim := c;
          references :=
            map (fun result => {| ref_title := title result;
                                  ref_url := url result |})
                searchResults |}).

Definition factCheck (content : string) : Res (list SearchResult) :=
  res_bind (promise_all resolveClaim (extractClaims content))
    (fun results =>
       Ok (List.filter
             (fun result => (0 <? length (references result))%nat)
             results)).

End WithBackend.

(** The extraction rule as the design document words it: a trimmed
    sentence qualifies when it has at least 20 characters and at least 5
    white-space delimited tokens. *)
Fixpoint tokens_from (cur : string) (s : string) : list string :=
  match s with
  | EmptyString =>
      match cur with EmptyString => [] | _ => [cur] end
  | String c rest =>
      if is_whitespace c
      then match cur with
           | EmptyString => tokens_from EmptyString rest
           | _ => cur :: tokens_from EmptyString rest
           end
      else tokens_from (cur +:+ String c EmptyString) rest
  end.

Definition tokens (s : string) : list string := tokens_from EmptyString s.

Definition spec_substantial (s : string) : bool :=
  (20 <=? String.length s)%nat && (5 <=? length (tokens s))%nat.

Definition spec_extractClaims (content : string) : list string :=
  take 3 (List.filter spec_substantial (map trim (split "." content))).

End BraveSearch.

(** ** services/github.ts *)

Module GitHub.
Import JsString.

Record PRDetails := { owner : string; repo : string; number : Z }.

(** The longest prefix whose characters satisfy [p], and what follows. *)
Fixpoint span (p : ascii -> bool) (s : string) : string * string :=
  match s with
  | EmptyString => (EmptyString, EmptyString)
  | String c rest =>
      if p c then let '(run, tail) := span p rest in (String c run, tail)
      else (EmptyString, s)
  end.

Fixpoint drop_chars (n : nat) (s : string) : string :=
  match n, s with
  | O, _ => s
  | S k, String _ rest => drop_chars k rest
  | S _, EmptyString => EmptyString
  end.

Definition not_slash (c : ascii) : bool := negb (Ascii.eqb c "/").

(** [\d] *)
Definition is_digit (c : ascii) : bool :=
  let n := nat_of_ascii c in ((48 <=? n) && (n <=? 57))%nat.

(** The pattern [repos\/([^/]+)\/([^/]+)\/pulls\/(\d+)] matched at the
    head of [s]: the three groups.  Each [+] is greedy, and no shorter
    run can be followed by the literal the pattern wants next, so the
    longest run decides. *)
Definition match_here (s : string) : option (string * string * string) :=
  if startsWith "repos/" s then
    let '(g1, s1) := span not_slash (drop_chars 6 s) in
    if String.eqb g1 EmptyString then None
    else match s1 with
         | String "/" s2 =>
             let '(g2, s3) := span not_slash s2 in
             if String.eqb g2 EmptyString then None
             else if startsWith "/pulls/" s3 then
               let '(g3, _) := span is_digit (drop_chars 7 s3) in
               if String.eqb g3 EmptyString then None
               else Some (g1, g2, g3)
             else None
         | _ => None
         end
  else None.

(** [prUrl.match(...)]: the leftmost position where the pattern matches. *)
Fixpoint regex_match (s : string) : option (string * string * string) :=
  match match_here s with
  | Some groups => Some groups
  | None =>
      match s with
      | EmptyString => None
      | String _ rest => regex_match rest
      end
  end.

(** [parseInt(digits, 10)] on a run of decimal digits (as an exact
    integer). *)
Definition parseInt (digits : string) : Z :=
  fold_left
    (fun acc c => 10 * acc + (Z.of_nat (nat_of_ascii c) - 48))
    (list_ascii_of_string digits) 0.

Definition extractPRDetails (prUrl : string) : Res PRDetails :=
  match regex_match prUrl with
  | None => Throw (JsError "Invalid PR URL format")
  | Some (g1, g2, g3) =>
      Ok {| owner := g1; repo := g2; number := parseInt g3 |}
  end.

Fixpoint all_chars (p : ascii -> bool) (s : string) : bool :=
  match s with
  | EmptyString => true
  | String c rest => p c && all_chars p rest
  end.

(** The shape the pattern describes, read off the expected format
    [.../repos/owner/repo/pulls/number]: somewhere in [s], [repos/], an
    owner and a repository name without slash, [/pulls/], digits. *)
Definition has_pr_shape (s : string) : Prop :=
  exists before o r n after,
    s = before +:+ "repos/" +:+ o +:+ "/" +:+ r +:+ "/pulls/" +:+ n +:+ after
    /\ o <> EmptyString /\ r <> EmptyString /\ n <> EmptyString
    /\ all_chars not_slash o = true
    /\ all_chars not_slash r = true
    /\ all_chars is_digit n = true.

End GitHub.

(** ** The worker module: rate limiter, validator, handler *)

Module Worker.
Import JsString.

(** *** Values *)

Record Response :=
  { status : Z; body : string; headers : list (string * string) }.

(** The request as the worker reads it: [headers.get] by lower-case name
    and the raw body text. *)
Record Request :=
  { req_headers : gmap string string; req_body : string }.

(** [Env] without its store binding, which lives in the [World]. *)
Record Env :=
  { GITHUB_TOKEN : string;
    ANTHROPIC_API_KEY : string;
    BRAVE_SEARCH_API_KEY : string;
    GITHUB_WEBHOOK_SECRET : string }.

#[local] Unset Elimination Schemes.

(** A JSON value, as [kv.get] with [type: "json"] hands it back.  Numbers
    are integers, as the seconds this worker writes are. *)
Inductive Json : Type :=
  | JNull
  | JBool (b : bool)
  | JNum (z : Z)
  | JStr (s : string)
  | JArr (items : list Json)
  | JObj (fields : list (string * Json)).
#[local] Set Elimination Schemes.

(** What is kept under a key of the store: a value that parses to an
    array, with its elements of whatever kind; a value that parses to
    something that is no array; a value that does not parse. *)
Inductive Stored : Type :=
  | Array (items : list Json)
  | NotAnArray
  | NotJson.

(** The array of the numbers [times], which is what this worker writes. *)
Definition Timestamps (times : list Z) : Stored := Array (map JNum times).

Record Comment :=
  { c_owner : string; c_repo : string; c_issue : Z; c_body : string }.

(** Calls that leave the worker, in the order they are issued. *)
Inductive Call : Type :=
  | CallKvGet (key : string)
  | CallKvPut (key : string) (value : list Json) (expirationTtl : Z)
  | CallVerify (secret payload signature : string)
  | CallCreateComment (c : Comment)
  | CallGetPRContent (owner repo : string) (number : Z)
  | CallAnalyze (content : string)
  | CallFactCheck (content : string).

Record World :=
  { kv : gmap string Stored;
    posted : list Comment;
    calls : list Call }.

(** The payload after [JSON.parse] and the cast to [WebhookEvent]: the
    shape with both an [issue] and a [comment] member, or another one. *)
Record PullRequestRef := { pr_url : option string }.

Record Issue :=
  { issue_number : Z; pull_request : option PullRequestRef }.

Record CommentInfo := { comment_body : string; created_at : string }.

Inductive WebhookEvent : Type :=
  | IssueCommentEvent (action : string) (issue : Issue)
      (comment : CommentInfo)
  | OtherEvent.

(** The content fetch seen from the 30000 ms timer it races against. *)
Inductive FetchOutcome : Type :=
  | SettledInTime (r : Res string)
  | StillPending.

(** The collaborators, as oracles.
    - [Date_now]: [Date.now()] as the limiter reads it, in milliseconds;
    - [runtime_greater value n]: [value > n] as the JavaScript runtime
      evaluates it for a stored element that is an array, or a string other
      than a run of decimal digits; the conversion to a number may throw;
    - [kv_get_fails key], [kv_put_fails key]: the error with which the
      store rejects a read or a write of [key], if it does;
    - [verify secret payload signature]: [verify] of
      [@octokit/webhooks-methods], which resolves to a boolean or rejects;
    - [JSON_parse]: [JSON.parse] and the cast to [WebhookEvent]; it throws
      on a body that is no JSON text, or no object (the [in] test throws);
    - [getPRContent], [analyzeArticle]: the methods of the GitHub and Claude
      services;
    - [brave_fetch]: the search backend behind [BraveSearchService];
    - [github_post c]: whether GitHub accepts the comment [c];
    - [Date_now_report]: [Date.now()] when the report is composed;
    - [Date_getTime s]: [new Date(s).getTime()], [None] for [NaN]. *)
Record Services :=
  { Date_now : Z;
    runtime_greater : Json -> Z -> Res bool;
    kv_get_fails : string -> option JsExn;
    kv_put_fails : string -> option JsExn;
    verify : string -> string -> string -> Res bool;
    JSON_parse : string -> Res WebhookEvent;
    getPRContent : string -> string -> Z -> FetchOutcome;
    analyzeArticle : string -> Res string;
    brave_fetch : string -> Res BraveSearch.HttpResponse;
    github_post : Comment -> Res unit;
    Date_now_report : Z;
    Date_getTime : string -> option Z }.

(** *** State and exceptions *)

Definition M (A : Type) : Type := World -> Res A * World.

Definition ret {A} (a : A) : M A := fun w => (Ok a, w).

Definition throw {A} (e : JsExn) : M A := fun w => (Throw e, w).

Definition bind {A B} (m : M A) (k : A -> M B) : M B :=
  fun w =>
    match m w with
    | (Ok a, w') => k a w'
    | (Throw e, w') => (Throw e, w')
    end.

(** [try { m } catch (e) { handler e }]; what [m] did before it threw
    stays done. *)
Definition try_catch {A} (m : M A) (handler : JsExn -> M A) : M A :=
  fun w =>
    match m w with
    | (Ok a, w') => (Ok a, w')
    | (Throw e, w') => handler e w'
    end.

Definition lift {A} (r : Res A) : M A := fun w => (r, w).

Definition log_call (c : Call) (w : World) : World :=
  {| kv := kv w; posted := posted w; calls := (calls w ++ [c])%list |}.

Definition add_posted (c : Comment) (w : World) : World :=
  {| kv := kv w; posted := (posted w ++ [c])%list; calls := calls w |}.

Definition record (c : Call) : M unit := fun w => (Ok tt, log_call c w).

Notation "'let*' x ':=' m 'in' k" := (bind m (fun x => k))
  (at level 10, x name, m at level 100, k at level 200).

Notation "m1 ';;;' m2" := (bind m1 (fun _ => m2))
  (at level 100, right associativity).

Definition RATE_LIMIT_MAX_REQUESTS : Z := 100.
Definition RATE_LIMIT_WINDOW_SIZE : Z := 3600.

Section WithServices.

Variable svc : Services.

(** *** The key-value store *)

(** [kv.get(key, { type: "json" })]: [None] is [null]. *)
Definition kv_get (key : string) : M (option Stored) :=
  record (CallKvGet key) ;;;
  match kv_get_fails svc key with
  | Some e => throw e
  | None =>
      fun w =>
        match kv w !! key with
        | Some NotJson => (Throw (JsError "Unexpected token"), w)
        | stored => (Ok stored, w)
        end
  end.

(** [kv.put(key, JSON.stringify(value), { expirationTtl })] *)
Definition kv_put (key : string) (value : list Json) (expirationTtl : Z)
    : M unit :=
  record (CallKvPut key value expirationTtl) ;;;
  match kv_put_fails svc key with
  | Some e => throw e
  | None =>
      fun w => (Ok tt, {| kv := <[key := Array value]> (kv w);
                          posted := posted w; calls := calls w |})
  end.

(** [time > windowStart] for one stored element; [windowStart] is a
    number.  A number, [null] and a boolean compare by value, and so does
    a string that is a run of decimal digits.  An object first needs a
    primitive value: its own member named [toString], which coming from
    JSON is never callable, makes that conversion throw a [TypeError];
    without one the object reads as the text [[object Object]], which is
    no number, and the comparison is [false].  Arrays and the other
    strings are converted by the runtime. *)
Definition greater_than (time : Json) (windowStart : Z) : Res bool :=
  match time with
  | JNull => Ok (windowStart <? 0)
  | JBool b => Ok (windowStart <? (if b then 1 else 0))
  | JNum z => Ok (windowStart <? z)
  | JStr s =>
      if negb (String.eqb s EmptyString) && GitHub.all_chars GitHub.is_digit s
      then Ok (windowStart <? GitHub.parseInt s)
      else runtime_greater svc time windowStart
  | JArr _ => runtime_greater svc time windowStart
  | JObj fields =>
      if existsb (fun field => String.eqb (fst field) "toString") fields
      then Throw (JsError "Cannot convert object to primitive value")
      else Ok false
  end.

(** [requests.filter((time) => time > windowStart)]: the elements are
    tested in order, and the first test that throws ends the filter. *)
Fixpoint keep_greater (windowStart : Z) (requests : list Json)
    : Res (list Json) :=
  match requests with
  | [] => Ok []
  | time :: rest =>
      res_bind (greater_than time windowStart) (fun keep =>
      res_bind (keep_greater windowStart rest) (fun kept =>
      Ok (if keep then time :: kept else kept)))
  end.

(** *** checkRateLimit *)

Definition checkRateLimit (ip : string) : M bool :=
  try_catch
    (let now := Date_now svc / 1000 in
     let windowStart := now - RATE_LIMIT_WINDOW_SIZE in
     let key := "ratelimit:" +:+ ip in
     let* requests :=
       try_catch
         (let* storedRequests := kv_get key in
          ret (match storedRequests with
               | Some (Array items) => items
               | _ => []
               end))
         (fun _ => ret [])
     in
     let* kept := lift (keep_greater windowStart requests) in
     let validRequests := (kept ++ [JNum now])%list in
     try_catch
       (kv_put key validRequests RATE_LIMIT_WINDOW_SIZE)
       (fun _ => ret tt) ;;;
     ret (RATE_LIMIT_MAX_REQUESTS <? Z.of_nat (length validRequests)))
    (fun _ => ret false).

(** *** validateRequest *)

Definition requiredEnvVars : list string :=
  ["GITHUB_TOKEN"; "ANTHROPIC_API_KEY"; "BRAVE_SEARCH_API_KEY";
   "GITHUB_WEBHOOK_SECRET"].

(** [env[key]] for the keys above. *)
Definition env_get (env : Env) (key : string) : string :=
  if String.eqb key "GITHUB_TOKEN" then GITHUB_TOKEN env
  else if String.eqb key "ANTHROPIC_API_KEY" then ANTHROPIC_API_KEY env
  else if String.eqb key "BRAVE_SEARCH_API_KEY"
       then BRAVE_SEARCH_API_KEY env
  else if String.eqb key "GITHUB_WEBHOOK_SECRET"
       then GITHUB_WEBHOOK_SECRET env
  else EmptyString.

(** Truthiness of a string. *)
Definition truthy (s : string) : bool := negb (String.eqb s EmptyString).

(** Truthiness of a string or [null]. *)
Definition truthy_opt (o : option string) : bool :=
  match o with
  | Some s => truthy s
  | None => false
  end.

Definition call_verify (secret payload signature : string) : M bool :=
  record (CallVerify secret payload signature) ;;;
  lift (verify svc secret payload signature).

(** [request.headers.get("cf-connecting-ip") || "unknown"] *)
Definition clientIP (request : Request) : string :=
  match req_headers request !! "cf-connecting-ip" with
  | Some ip => if truthy ip then ip else "unknown"
  | None => "unknown"
  end.

Definition validateRequest (request : Request) (env : Env)
    : M (option Response) :=
  let missingEnvVars :=
    List.filter (fun key => negb (truthy (env_get env key)))
      requiredEnvVars in
  if (0 <? length missingEnvVars)%nat then
    ret (Some {| status := 500;
                 body := "Missing required environment variables";
                 headers := [] |})
  else
    let* isOverLimit := checkRateLimit (clientIP request) in
    if isOverLimit : bool then
      ret (Some {| status := 429;
                   body := "Rate limit exceeded";
                   headers :=
                     [("Retry-After", pretty RATE_LIMIT_WINDOW_SIZE)] |})
    else
      let signature := req_headers request !! "x-hub-signature-256" in
      match signature with
      | Some sig =>
          if truthy sig then
            let rawBody := req_body request in
            let* isValid :=
              call_verify (GITHUB_WEBHOOK_SECRET env) rawBody sig in
            if isValid : bool then ret None
            else ret (Some {| status := 401;
                              body := "Invalid signature";
                              headers := [] |})
          else ret (Some {| status := 401; body := "No signature";
                            headers := [] |})
      | None => ret (Some {| status := 401; body := "No signature";
                             headers := [] |})
      end.

(** *** Text of the comments and of the JSON error body *)

Definition nl : string := String "010" EmptyString.

Definition hex_digit (n : nat) : ascii :=
  ascii_of_nat (if (n <? 10)%nat then 48 + n else 87 + n).

(** One character inside a JSON string literal, as [JSON.stringify]
    writes it. *)
Definition json_escape_char (c : ascii) : string :=
  let n := nat_of_ascii c in
  if (n =? 34)%nat then String "\" (String "034" EmptyString)
  else if (n =? 92)%nat then String "\" (String "\" EmptyString)
  else if (n =? 8)%nat then "\b"
  else if (n =? 9)%nat then "\t"
  else if (n =? 10)%nat then "\n"
  else if (n =? 12)%nat then "\f"
  else if (n =? 13)%nat then "\r"
  else if (n <? 32)%nat then
    "\u00" +:+ String (hex_digit (n / 16)) (String (hex_digit (n mod 16)) EmptyString)
  else String c EmptyString.

Fixpoint json_escape (s : string) : string :=
  match s with
  | EmptyString => EmptyString
  | String c rest => json_escape_char c +:+ json_escape rest
  end.

Definition json_quote (s : string) : string :=
  String "034" (json_escape s +:+ String "034" EmptyString).

(** [JSON.stringify({ error: message })] *)
Definition JSON_stringify_error (message : string) : string :=
  "{" +:+ json_quote "error" +:+ ":" +:+ json_quote message +:+ "}".

Definition processing_text : string :=
  "⏳ Processing article check request...".

Definition analysis_placeholder : string :=
  "*Error: Could not generate analysis*".

Definition render_reference (ref : BraveSearch.Reference) : string :=
  "- [" +:+ BraveSearch.ref_title ref +:+ "](" +:+
  BraveSearch.ref_url ref +:+ ")".

Definition render_result (result : BraveSearch.SearchResult) : string :=
  nl +:+ "**Claim:** " +:+ BraveSearch.claim result +:+ nl +:+
  "**References:**" +:+ nl +:+
  join nl (map render_reference (BraveSearch.references result)) +:+ nl.

(** [Date.now() - new Date(created_at).getTime()], printed. *)
Definition processing_time (created : string) : string :=
  match Date_getTime svc created with
  | Some t => pretty (Date_now_report svc - t)
  | None => "NaN"
  end.

(** The report template. *)
Definition report (analysis : string)
    (factChecking : list BraveSearch.SearchResult) (created : string)
    : string :=
  "## Article Check Results" +:+ nl +:+ nl +:+
  "### AI Analysis" +:+ nl +:+
  (if truthy analysis then analysis else analysis_placeholder) +:+
  nl +:+ nl +:+
  "### Fact Checking Results" +:+ nl +:+
  (if (0 <? length factChecking)%nat
   then join nl (map render_result factChecking)
   else "*No claims to fact check*") +:+
  nl +:+ nl +:+ "---" +:+ nl +:+
  "*This check was performed automatically by the Article Checker bot.*"
  +:+ nl +:+
  "*Processing time: " +:+ processing_time created +:+ "ms*".

Definition error_text (errorMessage : string) : string :=
  "❌ Error checking article:" +:+ nl +:+ "```" +:+ nl +:+
  errorMessage +:+ nl +:+ "```" +:+ nl +:+
  "Please try again later or contact support if the issue persists.".

(** *** Calls to the services *)

(** [githubService.createComment(...)], awaited. *)
Definition createComment (o r : string) (issueNumber : Z) (text : string)
    : M unit :=
  let c := {| c_owner := o; c_repo := r; c_issue := issueNumber;
              c_body := text |} in
  record (CallCreateComment c) ;;;
  match github_post svc c with
  | Ok _ => fun w => (Ok tt, add_posted c w)
  | Throw e => throw e
  end.

(** [ctx.waitUntil(promise)]: the work is started, its outcome is not
    looked at.  The model runs it at the point where it is started. *)
Definition waitUntil (task : M unit) : M unit :=
  try_catch task (fun _ => ret tt).

(** [Promise.race] of the content fetch and the 30000 ms timer. *)
Definition fetchContent (o r : string) (n : Z) : M string :=
  record (CallGetPRContent o r n) ;;;
  match getPRContent svc o r n with
  | SettledInTime outcome => lift outcome
  | StillPending => throw (JsError "Timeout")
  end.

Definition call_analyzeArticle (content : string) : M string :=
  record (CallAnalyze content) ;;;
  lift (analyzeArticle svc content).

Definition call_factCheck (content : string)
    : M (list BraveSearch.SearchResult) :=
  record (CallFactCheck content) ;;;
  lift (BraveSearch.factCheck (brave_fetch svc) content).

(** *** The handler *)

(** The [try] block inside [fetch]: acknowledge, fetch the content,
    analyse, fact-check, compose, publish. *)
Definition pipeline (issue : Issue) (comment : CommentInfo)
    (prDetails : GitHub.PRDetails) : M Response :=
  waitUntil
    (createComment (GitHub.owner prDetails) (GitHub.repo prDetails)
       (issue_number issue) processing_text) ;;;
  let* content :=
    fetchContent (GitHub.owner prDetails) (GitHub.repo prDetails)
      (GitHub.number prDetails) in
  let* analysis := call_analyzeArticle content in
  let* factChecking := call_factCheck content in
  let text := report analysis factChecking (created_at comment) in
  createComment (GitHub.owner prDetails) (GitHub.repo prDetails)
    (issue_number issue) text ;;;
  ret {| status := 200; body := "Article check completed";
         headers := [("Content-Type", "application/json")] |}.

(** [error instanceof Error ? error.message : "Unknown error"] *)
Definition errorMessage_of (error : JsExn) : string :=
  match error with
  | JsError message => message
  | JsOther => "Unknown error"
  end.

(** Its [catch] block. *)
Definition on_failure (issue : Issue) (prDetails : GitHub.PRDetails)
    (error : JsExn) : M Response :=
  let errorMessage := errorMessage_of error in
  createComment (GitHub.owner prDetails) (GitHub.repo prDetails)
    (issue_number issue) (error_text errorMessage) ;;;
  ret {| status := 500; body := JSON_stringify_error errorMessage;
         headers := [("Content-Type", "application/json")] |}.

(** The inner [try]/[catch] of [fetch]. *)
Definition articleCheck (issue : Issue) (comment : CommentInfo)
    (prDetails : GitHub.PRDetails) : M Response :=
  try_catch (pipeline issue comment prDetails) (on_failure issue prDetails).

Definition event_processed : Response :=
  {| status := 200; body := "Event processed"; headers := [] |}.

Definition internal_server_error : Response :=
  {| status := 500; body := JSON_stringify_error "Internal server error";
     headers := [("Content-Type", "application/json")] |}.

Definition fetch (request : Request) (env : Env) : M Response :=
  try_catch
    (let* validationError := validateRequest request env in
     match validationError with
     | Some response => ret response
     | None =>
         let rawBody := req_body request in
         let* payload := lift (JSON_parse svc rawBody) in
         match payload with
         | IssueCommentEvent action issue comment =>
             if String.eqb action "created" then
               match pull_request issue with
               | Some pull =>
                   if truthy (comment_body comment)
                      && includes "/articlecheck" (comment_body comment)
                   then
                     let prUrl := pr_url pull in
                     if negb (truthy_opt prUrl) then
                       ret {| status := 400; body := "Invalid PR URL";
                              headers := [] |}
                     else
                       let* prDetails :=
                         lift (GitHub.extractPRDetails
                                 (default EmptyString prUrl)) in
                       articleCheck issue comment prDetails
                   else ret event_processed
               | None => ret event_processed
               end
             else ret event_processed
         | OtherEvent => ret event_processed
         end
     end)
    (fun _ => ret internal_server_error).

(** A request that passes validation (leaving the world [validated]) and
    whose payload is a created comment carrying the trigger token, on an
    issue that is a pull request with the non-empty URL [prUrl]. *)
Definition triggers (request : Request) (env : Env) (w validated : World)
    (issue : Issue) (comment : CommentInfo) (prUrl : string) : Prop :=
  validateRequest request env w = (Ok None, validated) /\
  JSON_parse svc (req_body request)
    = Ok (IssueCommentEvent "created" issue comment) /\
  (exists pull, pull_request issue = Some pull /\ pr_url pull = Some prUrl) /\
  includes "/articlecheck" (comment_body comment) = true /\
  prUrl <> EmptyString.

End WithServices.

Definition empty_world : World := {| kv := ∅; posted := []; calls := [] |}.

End Worker.

(** ** Concrete collaborators, after the repository's test set-up *)

Module Fixtures.
Import Worker.

Definition env : Env :=
  {| GITHUB_TOKEN := "test-token";
     ANTHROPIC_API_KEY := "test-key";
     BRAVE_SEARCH_API_KEY := "test-key";
     GITHUB_WEBHOOK_SECRET := "test-secret" |}.


Definition issue (prUrl : string) : Issue :=
  {| issue_number := 123;
     pull_request := Some {| pr_url := Some prUrl |} |}.

Definition comment : CommentInfo :=
  {| comment_body := "/articlecheck";
     created_at := "2024-01-10T00:00:00.000Z" |}.

Definition pr_event (prUrl : string) : WebhookEvent :=
  IssueCommentEvent "created" (issue prUrl) comment.

Definition details : GitHub.PRDetails :=
  {| GitHub.owner := "owner"; GitHub.repo := "repo"; GitHub.number := 123 |}.

Definition good_url : string :=
  "https://api.github.com/repos/owner/repo/pulls/123".

Definition request (signature : string) : Request :=
  {| req_headers :=
       {[ "x-hub-signature-256" := signature;
          "x-github-event" := "issue_comment";
          "cf-connecting-ip" := "1.2.3.4" ]};
     req_body := "{}" |}.

Definition search_hit : BraveSearch.HttpResponse :=
  {| BraveSearch.ok := true;
     BraveSearch.statusText := "OK";
     BraveSearch.json :=
       Ok {| BraveSearch.web :=
               Some [{| BraveSearch.web_title := "Test Result";
                        BraveSearch.web_url := "https://test.com";
                        BraveSearch.web_description := "A matching result" |}];
             BraveSearch.news := None;
             BraveSearch.faq := None;
             BraveSearch.mixed := Some ["web"] |} |}.

Definition search_nothing : BraveSearch.HttpResponse :=
  {| BraveSearch.ok := true;
     BraveSearch.statusText := "OK";
     BraveSearch.json :=
       Ok {| BraveSearch.web := Some [];
             BraveSearch.news := None;
             BraveSearch.faq := None;
             BraveSearch.mixed := None |} |}.

Definition search_down : BraveSearch.HttpResponse :=
  {| BraveSearch.ok := false;
     BraveSearch.statusText := "Internal Server Error";
     BraveSearch.json := Throw JsOther |}.

(** Every collaborator answers; the payload is a trigger comment on the
    pull request at [prUrl]. *)
Definition services (prUrl : string) : Services :=
  {| Date_now := 1704844800123;
     runtime_greater := fun _ _ => Ok false;
     kv_get_fails := fun _ => None;
     kv_put_fails := fun _ => None;
     verify := fun _ _ signature => Ok (String.eqb signature "sha256=valid");
     JSON_parse := fun _ => Ok (pr_event prUrl);
     getPRContent := fun _ _ _ => SettledInTime (Ok "Test content");
     analyzeArticle := fun _ => Ok "Test analysis";
     brave_fetch := fun _ => Ok search_hit;
     github_post := fun _ => Ok tt;
     Date_now_report := 1704844802000;
     Date_getTime := fun _ => Some 1704844800000 |}.

(** The same with the store out of reach. *)
Definition services_store_down : Services :=
  {| Date_now := 1704844800123;
     runtime_greater := runtime_greater (services good_url);
     kv_get_fails := fun _ => Some (JsError "KV unavailable");
     kv_put_fails := fun _ => Some (JsError "KV unavailable");
     verify := verify (services good_url);
     JSON_parse := JSON_parse (services good_url);
     getPRContent := getPRContent (services good_url);
     analyzeArticle := analyzeArticle (services good_url);
     brave_fetch := brave_fetch (services good_url);
     github_post := github_post (services good_url);
     Date_now_report := 1704844802000;
     Date_getTime := Date_getTime (services good_url) |}.

(** The content fetch outlasts the 30000 ms timer; [post] decides which
    comments GitHub accepts. *)
Definition services_slow_fetch (post : Comment -> Res unit) : Services :=
  {| Date_now := 1704844800123;
     runtime_greater := runtime_greater (services good_url);
     kv_get_fails := fun _ => None;
     kv_put_fails := fun _ => None;
     verify := verify (services good_url);
     JSON_parse := JSON_parse (services good_url);
     getPRContent := fun _ _ _ => StillPending;
     analyzeArticle := analyzeArticle (services good_url);
     brave_fetch := brave_fetch (services good_url);
     github_post := post;
     Date_now_report := 1704844802000;
     Date_getTime := Date_getTime (services good_url) |}.

Definition article : string :=
  "Bitcoin fell sharply after the exchange was hacked today.".

Definition article_checked : list BraveSearch.SearchResult :=
  [{| BraveSearch.claim :=
        "Bitcoin fell sharply after the exchange was hacked today";
      BraveSearch.references :=
        [{| BraveSearch.ref_title := "Test Result";
            BraveSearch.ref_url := "https://test.com" |}] |}].

(** The analysis backend answers as [analysis] says, the search backend
    as [search] says. *)
Definition services_backends (analysis : Res string)
    (search : Res BraveSearch.HttpResponse) : Services :=
  {| Date_now := 1704844800123;
     runtime_greater := runtime_greater (services good_url);
     kv_get_fails := fun _ => None;
     kv_put_fails := fun _ => None;
     verify := verify (services good_url);
     JSON_parse := JSON_parse (services good_url);
     getPRContent := fun _ _ _ => SettledInTime (Ok article);
     analyzeArticle := fun _ => analysis;
     brave_fetch := fun _ => search;
     github_post := fun _ => Ok tt;
     Date_now_report := 1704844802000;
     Date_getTime := Date_getTime (services good_url) |}.

(** Two sentences that qualify as claims. *)
Definition two_claims : string :=
  "Bitcoin fell sharply after the exchange was hacked today. The weather was quite pleasant in the morning hours.".

(** A backend that knows about the hack only. *)
Definition search_selective (query : string)
    : Res BraveSearch.HttpResponse :=
  if JsString.includes "hacked" query then Ok search_hit
  else Ok search_nothing.

(** A backend that is down for every query but those about the hack. *)
Definition search_flaky (query : string) : Res BraveSearch.HttpResponse :=
  if JsString.includes "hacked" query then Ok search_hit
  else Ok search_down.

(** Ten web results, all of them ranked (the "limit results to 5" case of
    the test suite). *)
Definition search_many : BraveSearch.HttpResponse :=
  {| BraveSearch.ok := true;
     BraveSearch.statusText := "OK";
     BraveSearch.json :=
       Ok {| BraveSearch.web :=
               Some (replicate 10
                       {| BraveSearch.web_title := "Web Result";
                          BraveSearch.web_url := "https://test.com";
                          BraveSearch.web_description := "A web result" |});
             BraveSearch.news := None;
             BraveSearch.faq := None;
             BraveSearch.mixed := Some (replicate 10 "web") |} |}.

Definition test_reference : BraveSearch.Reference :=
  {| BraveSearch.ref_title := "Test Result";
     BraveSearch.ref_url := "https://test.com" |}.

(** A store holding 101 requests of 100 seconds ago for the client. *)
Definition busy_world : World :=
  {| kv := {[ "ratelimit:1.2.3.4" :=
                Timestamps (replicate 101 (1704844800 - 100)) ]};
     posted := [];
     calls := [] |}.

(** A store holding, for the client, an array of 101 strings of digits
    where numbers are expected. *)
Definition numeric_strings_world : World :=
  {| kv := {[ "ratelimit:1.2.3.4" :=
                Array (replicate 101 (JStr "9999999999")) ]};
     posted := [];
     calls := [] |}.

(** A store holding, for the client, 101 requests of 100 seconds ago
    followed by an object with a member named [toString]. *)
Definition poisoned_world : World :=
  {| kv := {[ "ratelimit:1.2.3.4" :=
                Array (map JNum (replicate 101 (1704844800 - 100)) ++
                       [JObj [("toString", JNum 1)]]) ]};
     posted := [];
     calls := [] |}.

End Fixtures.

(** ** services/github.ts: the content of a pull request *)

Module GitHubPR.
Import JsString.

(** A file of [pulls.listFiles], as far as [getPRContent] reads it. *)
Record PullFile :=
  { filename : string; file_status : string; sha : string }.

(** [s.endsWith(suffix)]: some tail of [s] is [suffix]. *)
Fixpoint endsWith (suffix s : string) : bool :=
  String.eqb s suffix ||
  match s with
  | EmptyString => false
  | String _ rest => endsWith suffix rest
  end.

Definition nl2 : string := String "010" (String "010" EmptyString).

Section WithOctokit.

(** [octokit.pulls.listFiles]: the [data] of the answer, or a rejection. *)
Variable listFiles : string -> string -> Z -> Res (list PullFile).

(** [octokit.repos.getContent] for owner, repo, path and ref: the [content]
    member of the answer's [data] when there is one and it is a string
    ([None] otherwise), or a rejection. *)
Variable getContent :
  string -> string -> string -> string -> Res (option string).

(** [Buffer.from(text, 'base64').toString('utf-8')] *)
Variable base64_to_utf8 : string -> string.

(** The predicate of the [filter] on the files. *)
Definition isMarkdownChange (file : PullFile) : bool :=
  (String.eqb (file_status file) "added" ||
   String.eqb (file_status file) "modified") &&
  endsWith ".md" (filename file).

(** The function mapped over the markdown files. *)
Definition fileContent (owner repo : string) (file : PullFile) : Res string :=
  res_bind (getContent owner repo (filename file) (sha file)) (fun data =>
    match data with
    | Some content => Ok (base64_to_utf8 content)
    | None => Ok EmptyString
    end).

Definition getPRContent (owner repo : string) (pullNumber : Z) : Res string :=
  res_bind (listFiles owner repo pullNumber) (fun files =>
    let markdownFiles := List.filter isMarkdownChange files in
    if (length markdownFiles =? 0)%nat then
      Throw (JsError "No markdown files found in the PR")
    else
      res_bind (promise_all (fileContent owner repo) markdownFiles)
        (fun contents => Ok (join nl2 contents))).

End WithOctokit.

End GitHubPR.

(** ** services/claude.ts *)

Module Claude.

(** What [fetch] resolves to, as far as [analyzeArticle] reads it: the
    status, [await response.text()], and the [text] members of the
    [content] array of [await response.json()]. *)
Record HttpReply :=
  { ok : bool; statusText : string;
    text : Res string; json : Res (list string) }.

Definition nl : string := String "010" EmptyString.

(** The prompt template. *)
Definition prompt (content : string) : string :=
  nl +:+
  "      You are a quality assurance bot for a crypto attack wiki. Please analyze the following article content and provide feedback on:" +:+ nl +:+
  "      1. Factual accuracy and completeness" +:+ nl +:+
  "      2. Technical accuracy of descriptions" +:+ nl +:+
  "      3. Writing style and clarity" +:+ nl +:+
  "      4. Compliance with wiki standards" +:+ nl +:+
  "      5. Any missing critical information" +:+ nl +:+
  nl +:+
  "      Article content:" +:+ nl +:+
  "      " +:+ content +:+ nl +:+
  nl +:+
  "      Please provide your analysis in a clear, structured format suitable for a GitHub comment." +:+ nl +:+
  "    ".

Section WithApi.

(** The messages endpoint: the outcome of the POST request carrying the
    prompt (model, token limit and temperature are constants). *)
Variable post : string -> Res HttpReply.

Definition analyzeArticle (content : string) : Res string :=
  res_bind (post (prompt content)) (fun response =>
    if negb (ok response) then
      res_bind (text response) (fun errorText =>
        Throw (JsError ("Claude API error: " +:+ statusText response +:+
                        " - " +:+ errorText)))
    else
      res_bind (json response) (fun blocks =>
        match blocks with
        | first :: _ => Ok first
        | [] =>
            Throw (JsError
              "Cannot read properties of undefined (reading 'text')")
        end)).

End WithApi.

End Claude.

(** ** Runs of the worker *)

Module Runs.
Import Worker.

(** The same collaborators at another reading of the limiter's clock. *)
Definition at_time (svc : Services) (now_ms : Z) : Services :=
  {| Date_now := now_ms;
     runtime_greater := runtime_greater svc;
     kv_get_fails := kv_get_fails svc;
     kv_put_fails := kv_put_fails svc;
     verify := verify svc;
     JSON_parse := JSON_parse svc;
     getPRContent := getPRContent svc;
     analyzeArticle := analyzeArticle svc;
     brave_fetch := brave_fetch svc;
     github_post := github_post svc;
     Date_now_report := Date_now_report svc;
     Date_getTime := Date_getTime svc |}.

(** One call of [checkRateLimit] after the other for the same client, at
    the given clock readings; the decisions in order, and the world left. *)
Fixpoint admit_each (svc : Services) (ip : string) (times : list Z)
    (w : World) : list (Res bool) * World :=
  match times with
  | [] => ([], w)
  | t :: rest =>
      let '(decision, w1) := checkRateLimit (at_time svc t) ip w in
      let '(decisions, w2) := admit_each svc ip rest w1 in
      (decision :: decisions, w2)
  end.

(** The calls the validator may issue. *)
Definition is_admission_call (c : Call) : bool :=
  match c with
  | CallKvGet _ | CallKvPut _ _ _ | CallVerify _ _ _ => true
  | _ => false
  end.

(** The worker wired to the GitHub and Claude services of the repository:
    the content fetch always settles before the timer with what
    [getPRContent] gives, the analysis is what [analyzeArticle] gives. *)
Definition wired (svc : Services)
    (listFiles : string -> string -> Z -> Res (list GitHubPR.PullFile))
    (getContent : string -> string -> string -> string -> Res (option string))
    (base64_to_utf8 : string -> string)
    (post : string -> Res Claude.HttpReply) : Services :=
  {| Date_now := Date_now svc;
     runtime_greater := runtime_greater svc;
     kv_get_fails := kv_get_fails svc;
     kv_put_fails := kv_put_fails svc;
     verify := verify svc;
     JSON_parse := JSON_parse svc;
     getPRContent := fun owner repo number =>
       SettledInTime
         (GitHubPR.getPRContent listFiles getContent base64_to_utf8
            owner repo number);
     analyzeArticle := Claude.analyzeArticle post;
     brave_fetch := brave_fetch svc;
     github_post := github_post svc;
     Date_now_report := Date_now_report svc;
     Date_getTime := Date_getTime svc |}.

End Runs.

(** ** Further concrete collaborators *)

Module Scenarios.
Import Worker.

(** The set-up of [Fixtures.services] with another verifier and another
    payload parser. *)
Definition services_with
    (verifier : string -> string -> string -> Res bool)
    (parser : string -> Res WebhookEvent) : Services :=
  {| Date_now := 1704844800123;
     runtime_greater := runtime_greater (Fixtures.services Fixtures.good_url);
     kv_get_fails := fun _ => None;
     kv_put_fails := fun _ => None;
     verify := verifier;
     JSON_parse := parser;
     getPRContent := getPRContent (Fixtures.services Fixtures.good_url);
     analyzeArticle := analyzeArticle (Fixtures.services Fixtures.good_url);
     brave_fetch := brave_fetch (Fixtures.services Fixtures.good_url);
     github_post := github_post (Fixtures.services Fixtures.good_url);
     Date_now_report := 1704844802000;
     Date_getTime := Date_getTime (Fixtures.services Fixtures.good_url) |}.

Definition accept_valid (secret payload signature : string) : Res bool :=
  Ok (String.eqb signature "sha256=valid").

(** A verifier that rejects instead of answering. *)
Definition verifier_throws (secret payload signature : string) : Res bool :=
  Throw (JsError "secret, eventPayload & signature required").

(** A comment on a pull request that does not carry the trigger token. *)
Definition chatter : WebhookEvent :=
  IssueCommentEvent "created" (Fixtures.issue Fixtures.good_url)
    {| comment_body := "Looks good to me";
       created_at := "2024-01-10T00:00:00.000Z" |}.

(** The set-up of [Fixtures.services] where GitHub refuses the
    acknowledgment and accepts every other comment. *)
Definition services_ack_refused : Services :=
  {| Date_now := 1704844800123;
     runtime_greater := runtime_greater (Fixtures.services Fixtures.good_url);
     kv_get_fails := fun _ => None;
     kv_put_fails := fun _ => None;
     verify := accept_valid;
     JSON_parse := fun _ => Ok (Fixtures.pr_event Fixtures.good_url);
     getPRContent := fun _ _ _ => SettledInTime (Ok Fixtures.article);
     analyzeArticle := fun _ => Ok "Test analysis";
     brave_fetch := fun _ => Ok Fixtures.search_hit;
     github_post := fun c =>
       if String.eqb (c_body c) processing_text
       then Throw (JsError "Bad credentials") else Ok tt;
     Date_now_report := 1704844802000;
     Date_getTime := fun _ => Some 1704844800000 |}.

(** A pull request with one added markdown file, one removed markdown file
    and one modified source file. *)
Definition changed_files : list GitHubPR.PullFile :=
  [{| GitHubPR.filename := "attacks/2024-01-bridge.md";
      GitHubPR.file_status := "added"; GitHubPR.sha := "a1" |};
   {| GitHubPR.filename := "attacks/old.md";
      GitHubPR.file_status := "removed"; GitHubPR.sha := "b2" |};
   {| GitHubPR.filename := "scripts/build.ts";
      GitHubPR.file_status := "modified"; GitHubPR.sha := "c3" |}].

(** A pull request that only removes a markdown file and touches an
    upper-case [.MD] file. *)
Definition no_markdown_changes : list GitHubPR.PullFile :=
  [{| GitHubPR.filename := "attacks/old.md";
      GitHubPR.file_status := "removed"; GitHubPR.sha := "b2" |};
   {| GitHubPR.filename := "README.MD";
      GitHubPR.file_status := "modified"; GitHubPR.sha := "d4" |}].

(** A contents endpoint that answers every path with the same text. *)
Definition content_of (owner repo path ref : string) : Res (option string) :=
  Ok (Some "QXJ0aWNsZQ==").

(** A decoder that knows this one text. *)
Definition decode (text : string) : string :=
  if String.eqb text "QXJ0aWNsZQ==" then "Article" else EmptyString.

(** A messages endpoint that is overloaded. *)
Definition claude_overloaded (prompt : string) : Res Claude.HttpReply :=
  Ok {| Claude.ok := false;
        Claude.statusText := "Service Unavailable";
        Claude.text := Ok "upstream overloaded";
        Claude.json := Throw JsOther |}.

(** A messages endpoint that answers with two content blocks. *)
Definition claude_answers (prompt : string) : Res Claude.HttpReply :=
  Ok {| Claude.ok := true;
        Claude.statusText := "OK";
        Claude.text := Ok EmptyString;
        Claude.json := Ok ["The article is sound."; "Second block"] |}.

End Scenarios.

(** * Properties *)

(** ** Promises *)

Section PromiseAll.
Context {A B : Type} (f : A -> Res B).

Lemma promise_all_ok xs ys :
  promise_all f xs = Ok ys -> Forall2 (fun x y => f x = Ok y) xs ys.
Proof.
  revert ys. induction xs as [|x xs IH]; intros ys H; simpl in H.
  - injection H as <-. constructor.
  - destruct (f x) as [b|e] eqn:Hx; [|discriminate].
    destruct (promise_all f xs) as [bs|e] eqn:Hxs; [|discriminate].
    injection H as <-. constructor; auto.
Qed.

Lemma promise_all_throw xs x e :
  x ∈ xs -> f x = Throw e -> exists e', promise_all f xs = Throw e'.
Proof.
  induction 1 as [x xs | x y xs Hin IH]; intros Hx; simpl.
  - rewrite Hx. eauto.
  - destruct (f y) as [b|e1]; [|eauto].
    destruct (IH Hx) as [e' ->]. eauto.
Qed.

End PromiseAll.

(** ** Strings *)

(** [split] yields one piece more than there are separators. *)
Lemma split_length sep s :
  length (JsString.split sep s) = S (JsString.count_char sep s).
Proof.
  induction s as [|c s IH]; simpl; [reflexivity|].
  destruct (Ascii.eqb c sep); simpl.
  - now rewrite IH.
  - destruct (JsString.split sep s) eqn:E; simpl in *; [discriminate|exact IH].
Qed.

Lemma List_filter_as_Prop {A} (f : A -> bool) (P : A -> Prop)
    `{!forall x, Decision (P x)} (l : list A) :
  (forall x, f x = true <-> P x) -> List.filter f l = filter P l.
Proof.
  intros Hf. induction l as [|x l IH]; simpl; [reflexivity|].
  rewrite filter_cons. destruct (f x) eqn:Hx.
  - rewrite decide_True by (apply Hf, Hx). now rewrite IH.
  - rewrite decide_False; [exact IH|].
    intros HP. apply Hf in HP. congruence.
Qed.

Lemma substantial_spec s :
  BraveSearch.substantial s = true <->
  (20 <= String.length s /\ 4 <= JsString.count_char " " s)%nat.
Proof.
  unfold BraveSearch.substantial.
  rewrite andb_true_iff, !Nat.leb_le, split_length. lia.
Qed.

(** ** Fact-check engine *)

Section FactCheck.
Import BraveSearch.
Variable fetch : string -> Res HttpResponse.

Lemma visit_results_length web news faq item st :
  (length (results (visit web news faq item st)) <= S (length (results st)))%nat.
Proof.
  unfold visit.
  repeat match goal with
         | |- context [if ?b then _ else _] => destruct b
         | |- context [match ?o with Some _ => _ | None => _ end] =>
             destruct o
         end; simpl; rewrite ?length_app; simpl; lia.
Qed.

(** The loop never leaves more than five results behind. *)
Lemma scan_results_length web news faq ordering st :
  (length (results st) <= 5)%nat ->
  (length (results (scan web news faq ordering st)) <= 5)%nat.
Proof.
  revert st. induction ordering as [|item rest IH]; intros st Hst;
    cbn [scan].
  - exact Hst.
  - destruct (5 <=? length (results st))%nat eqn:Hfull; [exact Hst|].
    apply IH. apply Nat.leb_gt in Hfull.
    pose proof (visit_results_length web news faq item st). lia.
Qed.

Lemma processSearchResults_length query rs :
  processSearchResults fetch query = Ok rs -> (length rs <= 5)%nat.
Proof.
  unfold processSearchResults, res_bind.
  destruct (searchBrave fetch query) as [response|e]; [|discriminate].
  intros H. injection H as <-.
  apply scan_results_length. simpl. lia.
Qed.

Lemma extractClaims_length content : (length (extractClaims content) <= 3)%nat.
Proof. unfold extractClaims. rewrite length_take. lia. Qed.

Lemma resolveClaim_ok c r :
  resolveClaim fetch c = Ok r ->
  claim r = c /\
  exists found, processSearchResults fetch c = Ok found /\
    references r =
      map (fun result => {| ref_title := title result;
                            ref_url := url result |}) found.
Proof.
  unfold resolveClaim, res_bind.
  destruct (processSearchResults fetch c) as [found|e]; [|discriminate].
  intros H. injection H as <-. simpl. eauto.
Qed.

(** What a resolved [factCheck] returns: the resolutions of the extracted
    claims, in order, less those without references. *)
Lemma factCheck_ok content rs :
  factCheck fetch content = Ok rs ->
  exists resolved,
    Forall2 (fun c r => resolveClaim fetch c = Ok r)
      (extractClaims content) resolved /\
    rs = List.filter (fun r => (0 <? length (references r))%nat) resolved.
Proof.
  unfold factCheck, res_bind.
  destruct (promise_all _ _) as [resolved|e] eqn:Hall; [|discriminate].
  intros H. injection H as <-.
  exists resolved. split; [|reflexivity].
  now apply promise_all_ok.
Qed.

Lemma searchBrave_not_ok query response :
  fetch query = Ok response -> ok response = false ->
  searchBrave fetch query =
    Throw (JsError ("Brave search failed: " +:+ statusText response)).
Proof. intros Hq Hok. unfold searchBrave, res_bind. now rewrite Hq, Hok. Qed.

End FactCheck.

(** *** Claim extraction *)

(** C6, as worded, fails: the source counts the pieces of a split on single
    space characters, not white-space delimited tokens.  Three words set
    apart by runs of spaces are kept by the source and fail the worded rule;
    eight words set on lines of their own pass the worded rule and are
    dropped by the source. *)
Lemma extractClaims_not_token_rule :
  BraveSearch.extractClaims "Bitcoin  fell   sharply"
    = ["Bitcoin  fell   sharply"]
  /\ BraveSearch.spec_extractClaims "Bitcoin  fell   sharply" = []
  /\ BraveSearch.tokens "Bitcoin  fell   sharply"
    = ["Bitcoin"; "fell"; "sharply"]
  /\ BraveSearch.extractClaims
       (JsString.join (String "010" "")
          ["Bitcoin"; "fell"; "sharply"; "after"; "the hack was found"])
    = []
  /\ BraveSearch.spec_extractClaims
       (JsString.join (String "010" "")
          ["Bitcoin"; "fell"; "sharply"; "after"; "the hack was found"])
    = [JsString.join (String "010" "")
          ["Bitcoin"; "fell"; "sharply"; "after"; "the hack was found"]].
Proof. vm_compute. repeat split; reflexivity. Qed.

(** C6 (amended).  The claims of [factCheck] are the pieces of the text
    between periods, trimmed, kept when the trimmed piece has at least 20
    characters and at least 4 space characters (so that splitting it on
    single spaces gives at least 5 pieces), the first 3 of them in the order
    of the text; the sample text yields its one long sentence. *)
Theorem extractClaims_rule (content : string) :
  BraveSearch.extractClaims content =
    take 3
      (filter (fun s => (20 <= String.length s)%nat /\
                        (4 <= JsString.count_char " " s)%nat)
         (map JsString.trim (JsString.split "." content)))
  /\ (forall s, (4 <= JsString.count_char " " s)%nat <->
                (5 <= length (JsString.split " " s))%nat)
  /\ BraveSearch.extractClaims
       "Short. This is a longer and more substantial claim that should be included."
     = ["This is a longer and more substantial claim that should be included"].
Proof.
  split; [|split].
  - unfold BraveSearch.extractClaims. f_equal.
    apply List_filter_as_Prop. intros s. apply substantial_spec.
  - intros s. rewrite split_length. lia.
  - vm_compute. reflexivity.
Qed.

(** *** Results of a fact check *)

(** C7.  Whatever the text and the search backend, no entry of the list
    that [factCheck] returns has an empty list of references, and a claim
    whose search leaves no result has no entry. *)
Theorem factCheck_no_empty_references
    (fetch : string -> Res BraveSearch.HttpResponse) (content : string)
    (rs : list BraveSearch.SearchResult) :
  BraveSearch.factCheck fetch content = Ok rs ->
  Forall (fun r => BraveSearch.references r <> []) rs /\
  (forall c, BraveSearch.processSearchResults fetch c = Ok [] ->
             forall r, r ∈ rs -> BraveSearch.claim r <> c).
Proof.
  intros H. apply factCheck_ok in H as (resolved & Hres & ->).
  split.
  - apply Forall_forall. intros r Hr.
    apply list_elem_of_In, filter_In in Hr as [_ Hr].
    apply Nat.ltb_lt in Hr. intros E. rewrite E in Hr. simpl in Hr. lia.
  - intros c Hc r Hr Hclaim.
    apply list_elem_of_In, filter_In in Hr as [Hr Hne].
    apply list_elem_of_In in Hr.
    destruct (proj1 (list_elem_of_lookup _ _) Hr) as [i Hi].
    destruct (Forall2_lookup_r _ _ _ _ _ Hres Hi) as (c' & _ & Hc').
    apply resolveClaim_ok in Hc' as (Hcl & found & Hfound & Hrefs).
    rewrite Hclaim in Hcl. subst c'.
    rewrite Hc in Hfound. injection Hfound as <-.
    rewrite Hrefs in Hne. discriminate.
Qed.

Lemma factCheck_no_empty_references_witness :
  Forall (fun r => BraveSearch.references r <> [])
    [{| BraveSearch.claim :=
          "Bitcoin fell sharply after the exchange was hacked today";
        BraveSearch.references := [Fixtures.test_reference] |}]
  /\ (forall c,
        BraveSearch.processSearchResults Fixtures.search_selective c = Ok [] ->
        forall r,
          r ∈ [{| BraveSearch.claim :=
                    "Bitcoin fell sharply after the exchange was hacked today";
                  BraveSearch.references := [Fixtures.test_reference] |}] ->
          BraveSearch.claim r <> c).
Proof.
  apply (factCheck_no_empty_references Fixtures.search_selective
           Fixtures.two_claims).
  vm_compute. reflexivity.
Defined.

(** C8.  When the text yields a claim whose search query comes back with a
    non-success status, [factCheck] rejects: no list is returned, the
    resolutions of the other claims included. *)
Theorem factCheck_query_failure_fails_batch
    (fetch : string -> Res BraveSearch.HttpResponse) (content : string)
    (c : string) (response : BraveSearch.HttpResponse) :
  c ∈ BraveSearch.extractClaims content ->
  fetch c = Ok response ->
  BraveSearch.ok response = false ->
  (exists e, BraveSearch.factCheck fetch content = Throw e) /\
  (forall rs, BraveSearch.factCheck fetch content <> Ok rs).
Proof.
  intros Hc Hq Hok.
  assert (Hthrow : exists e,
             promise_all (BraveSearch.resolveClaim fetch)
               (BraveSearch.extractClaims content) = Throw e).
  { eapply promise_all_throw; [exact Hc|].
    unfold BraveSearch.resolveClaim, BraveSearch.processSearchResults, res_bind.
    rewrite (searchBrave_not_ok fetch c response Hq Hok). reflexivity. }
  destruct Hthrow as [e He].
  unfold BraveSearch.factCheck, res_bind. rewrite He.
  split; [eauto | discriminate].
Qed.

Lemma factCheck_query_failure_fails_batch_witness :
  (exists e,
     BraveSearch.factCheck Fixtures.search_flaky Fixtures.two_claims = Throw e)
  /\ (forall rs,
        BraveSearch.factCheck Fixtures.search_flaky Fixtures.two_claims
        <> Ok rs).
Proof.
  apply (factCheck_query_failure_fails_batch Fixtures.search_flaky
           Fixtures.two_claims
           "The weather was quite pleasant in the morning hours"
           Fixtures.search_down).
  - vm_compute. right. left.
  - vm_compute. reflexivity.
  - reflexivity.
Defined.

(** C9.  At most 3 claims are extracted from any text, a search leaves at
    most 5 results, and so a returned list has at most 3 entries of at most
    5 references each. *)
Theorem factCheck_output_bounds
    (fetch : string -> Res BraveSearch.HttpResponse) (content : string) :
  (length (BraveSearch.extractClaims content) <= 3)%nat /\
  (forall query found,
      BraveSearch.processSearchResults fetch query = Ok found ->
      (length found <= 5)%nat) /\
  (forall rs,
      BraveSearch.factCheck fetch content = Ok rs ->
      (length rs <= 3)%nat /\
      Forall (fun r => (length (BraveSearch.references r) <= 5)%nat) rs).
Proof.
  split; [apply extractClaims_length|].
  split; [intros query found; apply processSearchResults_length|].
  intros rs H. apply factCheck_ok in H as (resolved & Hres & ->).
  split.
  - pose proof (Forall2_length _ _ _ Hres) as Hlen.
    pose proof (extractClaims_length content).
    pose proof (List.filter_length_le
                  (fun r => (0 <? length (BraveSearch.references r))%nat)
                  resolved).
    lia.
  - apply Forall_forall. intros r Hr.
    apply list_elem_of_In, filter_In in Hr as [Hr _].
    apply list_elem_of_In in Hr.
    destruct (proj1 (list_elem_of_lookup _ _) Hr) as [i Hi].
    destruct (Forall2_lookup_r _ _ _ _ _ Hres Hi) as (c' & _ & Hc').
    apply resolveClaim_ok in Hc' as (_ & found & Hfound & ->).
    rewrite length_map. eapply processSearchResults_length, Hfound.
Qed.

Lemma factCheck_output_bounds_witness :
  (length (BraveSearch.extractClaims Fixtures.two_claims) <= 3)%nat /\
  (exists found,
      BraveSearch.processSearchResults (fun _ => Ok Fixtures.search_many)
        "test query" = Ok found /\
      length found = 5%nat /\ (length found <= 5)%nat) /\
  (exists rs,
      BraveSearch.factCheck (fun _ => Ok Fixtures.search_many)
        Fixtures.two_claims = Ok rs /\
      length rs = 2%nat /\
      (length rs <= 3)%nat /\
      Forall (fun r => (length (BraveSearch.references r) <= 5)%nat) rs).
Proof.
  destruct (factCheck_output_bounds (fun _ => Ok Fixtures.search_many)
              Fixtures.two_claims) as (Hclaims & Hfound & Hrs).
  split; [exact Hclaims|]. split.
  - eexists. split; [vm_compute; reflexivity|].
    split; [reflexivity|].
    apply (Hfound "test query"). vm_compute. reflexivity.
  - eexists. split; [vm_compute; reflexivity|].
    split; [reflexivity|].
    apply Hrs. vm_compute. reflexivity.
Defined.

(** ** Rate limiter *)

Section RateLimiter.
Import Worker.
Variable svc : Services.

Lemma truthy_false s : truthy s = false <-> s = EmptyString.
Proof.
  unfold truthy. rewrite negb_false_iff. apply String.eqb_eq.
Qed.

Lemma truthy_true s : truthy s = true <-> s <> EmptyString.
Proof.
  unfold truthy. rewrite negb_true_iff. apply String.eqb_neq.
Qed.

(** The filter on an array of numbers keeps those later than
    [windowStart], and never throws. *)
Lemma keep_greater_numbers windowStart times :
  keep_greater svc windowStart (map JNum times)
  = Ok (map JNum (List.filter (fun time => windowStart <? time) times)).
Proof.
  induction times as [|time times IH]; [reflexivity|].
  cbn [map keep_greater greater_than res_bind List.filter].
  rewrite IH. cbn [res_bind]. now destruct (windowStart <? time).
Qed.

(** When no test throws, the filter keeps the elements whose test is
    true, in their order. *)
Lemma keep_greater_filter windowStart requests kept :
  keep_greater svc windowStart requests = Ok kept ->
  kept = List.filter
           (fun time => match greater_than svc time windowStart with
                        | Ok keep => keep
                        | Throw _ => false
                        end) requests.
Proof.
  revert kept. induction requests as [|time rest IH]; intros kept.
  - cbn [keep_greater]. now intros [= <-].
  - cbn [keep_greater List.filter].
    destruct (greater_than svc time windowStart) as [keep|e];
      cbn [res_bind]; [|discriminate].
    destruct (keep_greater svc windowStart rest) as [kept'|e];
      cbn [res_bind]; [|discriminate].
    rewrite <- (IH kept' eq_refl).
    intros [= <-]. reflexivity.
Qed.

(** The filter throws when the test of one element does. *)
Lemma keep_greater_throws windowStart requests time e :
  time ∈ requests -> greater_than svc time windowStart = Throw e ->
  exists e', keep_greater svc windowStart requests = Throw e'.
Proof.
  intros Hin Hthrow.
  induction Hin as [time rest | time other rest _ IH]; cbn [keep_greater].
  - rewrite Hthrow. cbn [res_bind]. eauto.
  - destruct (greater_than svc other windowStart) as [keep|e'];
      cbn [res_bind]; [|eauto].
    destruct (IH Hthrow) as [e' ->]. cbn [res_bind]. eauto.
Qed.

(** One run of the limiter, whatever the store holds and does.  When the
    filter goes through: the decision, the two store calls and what is
    left in the store.  When a test throws: an allow after the read
    alone. *)
Lemma checkRateLimit_cases ip w :
  let key := "ratelimit:" +:+ ip in
  let now := Date_now svc / 1000 in
  let requests :=
    match kv_get_fails svc key, kv w !! key with
    | None, Some (Array items) => items
    | _, _ => []
    end in
  checkRateLimit svc ip w =
    match keep_greater svc (now - RATE_LIMIT_WINDOW_SIZE) requests with
    | Ok kept =>
        let validRequests := (kept ++ [JNum now])%list in
        (Ok (RATE_LIMIT_MAX_REQUESTS <? Z.of_nat (length validRequests)),
         {| kv := match kv_put_fails svc key with
                  | None => <[key := Array validRequests]> (kv w)
                  | Some _ => kv w
                  end;
            posted := posted w;
            calls := (calls w ++
                      [CallKvGet key;
                       CallKvPut key validRequests RATE_LIMIT_WINDOW_SIZE])%list
         |})
    | Throw _ => (Ok false, log_call (CallKvGet key) w)
    end.
Proof.
  intros key now requests.
  unfold checkRateLimit. cbv zeta.
  fold key now. subst requests.
  unfold kv_get, kv_put, try_catch, bind, record, ret, throw, lift, log_call.
  destruct (kv_get_fails svc key) as [e|];
    [| cbn [kv posted calls]; destruct (kv w !! key) as [[items| |]|] ];
    cbv beta iota; cbn [kv posted calls];
    match goal with
    | |- context [keep_greater svc ?ws ?l] =>
        destruct (keep_greater svc ws l) as [kept|e'']
    end;
    try reflexivity;
    destruct (kv_put_fails svc key) as [e'|];
    cbv beta iota; cbn [kv posted calls]; rewrite <- ?app_assoc;
    reflexivity.
Qed.

(** One run of the limiter always ends in a decision; it posts nothing
    and calls the store alone: a read, then at most one write. *)
Lemma checkRateLimit_shape ip w :
  exists decision limited puts,
    checkRateLimit svc ip w = (Ok decision, limited)
    /\ posted limited = posted w
    /\ calls limited = (calls w ++ CallKvGet ("ratelimit:" +:+ ip) :: puts)%list
    /\ (puts = [] \/
        exists value,
          puts = [CallKvPut ("ratelimit:" +:+ ip) value
                    RATE_LIMIT_WINDOW_SIZE]).
Proof.
  rewrite checkRateLimit_cases. cbv zeta.
  destruct (keep_greater _ _ _) as [kept|e]; do 3 eexists;
    (split; [reflexivity|]); (split; [reflexivity|]);
    (split; [reflexivity|]); eauto.
Qed.

(** One run of the limiter when what it reads is the numbers [times]
    (none when the read fails or finds no array): the decision, the two
    store calls it issues and what it leaves in the store. *)
Lemma checkRateLimit_run ip w times :
  let key := "ratelimit:" +:+ ip in
  let now := Date_now svc / 1000 in
  let validRequests :=
    (List.filter (fun time => now - RATE_LIMIT_WINDOW_SIZE <? time) times
     ++ [now])%list in
  match kv_get_fails svc key, kv w !! key with
  | None, Some (Array items) => items
  | _, _ => []
  end = map JNum times ->
  checkRateLimit svc ip w =
    (Ok (RATE_LIMIT_MAX_REQUESTS <? Z.of_nat (length validRequests)),
     {| kv := match kv_put_fails svc key with
              | None => <[key := Timestamps validRequests]> (kv w)
              | Some _ => kv w
              end;
        posted := posted w;
        calls := (calls w ++
                  [CallKvGet key;
                   CallKvPut key (map JNum validRequests)
                     RATE_LIMIT_WINDOW_SIZE])%list
     |}).
Proof.
  intros key now validRequests Hread.
  rewrite checkRateLimit_cases. cbv zeta. fold key now.
  rewrite Hread, keep_greater_numbers.
  subst validRequests. unfold Timestamps.
  rewrite !map_app, !length_app, length_map. reflexivity.
Qed.

Lemma length_filter_replicate (f : Z -> bool) n x :
  f x = true -> length (List.filter f (replicate n x)) = n.
Proof.
  intros Hx. induction n as [|n IH]; simpl; [reflexivity|].
  rewrite Hx. simpl. now rewrite IH.
Qed.

Lemma List_filter_none {A} (f : A -> bool) l :
  Forall (fun x => f x = false) l -> List.filter f l = [].
Proof.
  induction 1 as [|x l Hx _ IH]; simpl; [reflexivity|].
  now rewrite Hx.
Qed.


(** With every secret present the validator goes on to the limiter. *)
Lemma validateRequest_configured request env w :
  Forall (fun key => env_get env key <> EmptyString) requiredEnvVars ->
  validateRequest svc request env w =
    bind (checkRateLimit svc (clientIP request))
      (fun isOverLimit =>
         if isOverLimit : bool then
           ret (Some {| status := 429; body := "Rate limit exceeded";
                        headers :=
                          [("Retry-After", pretty RATE_LIMIT_WINDOW_SIZE)] |})
         else
           match req_headers request !! "x-hub-signature-256" with
           | Some sig =>
               if truthy sig then
                 bind (call_verify svc (GITHUB_WEBHOOK_SECRET env)
                         (req_body request) sig)
                   (fun isValid =>
                      if isValid : bool then ret None
                      else ret (Some {| status := 401;
                                        body := "Invalid signature";
                                        headers := [] |}))
               else ret (Some {| status := 401; body := "No signature";
                                 headers := [] |})
           | None => ret (Some {| status := 401; body := "No signature";
                                  headers := [] |})
           end) w.
Proof.
  intros Henv. unfold validateRequest.
  rewrite List_filter_none; [reflexivity|].
  eapply Forall_impl; [exact Henv|].
  intros key Hkey. cbv beta. apply negb_false_iff, truthy_true, Hkey.
Qed.

(** What the limiter reads from a store whose array for the client, if
    there is one, holds numbers. *)
Lemma stored_numbers ip w :
  let key := "ratelimit:" +:+ ip in
  (forall items, kv w !! key = Some (Array items) ->
                 exists times, items = map JNum times) ->
  exists read,
    match kv_get_fails svc key, kv w !! key with
    | None, Some (Array items) => items
    | _, _ => []
    end = map JNum read
    /\ (forall time, time ∈ read ->
          exists times, kv w !! key = Some (Timestamps times)
                        /\ time ∈ times).
Proof.
  intros key Hnumbers.
  destruct (kv_get_fails svc key);
    [exists []; split; [reflexivity | intros ? []%elem_of_nil]|].
  destruct (kv w !! key) as [[items| |]|];
    try (exists []; split; [reflexivity | intros ? []%elem_of_nil]).
  destruct (Hnumbers items eq_refl) as [times ->].
  exists times. split; [reflexivity|]. intros time Htime. now exists times.
Qed.

End RateLimiter.

(** The filter asks nothing of the collaborators but the runtime's
    comparison. *)
Lemma keep_greater_ext (svc' svc : Worker.Services) windowStart requests :
  (forall value n, Worker.runtime_greater svc' value n
                   = Worker.runtime_greater svc value n) ->
  Worker.keep_greater svc' windowStart requests
  = Worker.keep_greater svc windowStart requests.
Proof.
  intros Hruntime. induction requests as [|time rest IH]; [reflexivity|].
  cbn [Worker.keep_greater]. rewrite IH.
  destruct time; cbn [Worker.greater_than]; rewrite ?Hruntime; reflexivity.
Qed.

(** C1.  With the client's stored timestamps read from the store, the
    limiter denies exactly when the number of stored timestamps later than
    [now - windowSize], plus one for the request at hand, exceeds
    [maxRequests]; a denial is answered with status 429 and a [Retry-After]
    header of 3600; 101 stored timestamps of 100 seconds ago are denied. *)
Theorem rate_limit_threshold (svc : Worker.Services) (ip : string)
    (w : Worker.World) (times : list Z) :
  let key := "ratelimit:" +:+ ip in
  let now := Worker.Date_now svc / 1000 in
  let inWindow :=
    filter (fun time => now - Worker.RATE_LIMIT_WINDOW_SIZE < time) times in
  let tooMany :=
    {| Worker.status := 429; Worker.body := "Rate limit exceeded";
       Worker.headers := [("Retry-After", "3600")] |} in
  Worker.kv_get_fails svc key = None ->
  Worker.kv w !! key = Some (Worker.Timestamps times) ->
  (fst (Worker.checkRateLimit svc ip w) = Ok true <->
     Worker.RATE_LIMIT_MAX_REQUESTS < Z.of_nat (length inWindow) + 1)
  /\ (fst (Worker.checkRateLimit svc ip w) = Ok false <->
        Z.of_nat (length inWindow) + 1 <= Worker.RATE_LIMIT_MAX_REQUESTS)
  /\ (forall request env,
        Worker.clientIP request = ip ->
        Forall (fun name => Worker.env_get env name <> EmptyString)
          Worker.requiredEnvVars ->
        (fst (Worker.checkRateLimit svc ip w) = Ok true ->
           fst (Worker.validateRequest svc request env w) = Ok (Some tooMany))
        /\ (times = replicate 101 (now - 100) ->
              fst (Worker.validateRequest svc request env w)
              = Ok (Some tooMany)))
  /\ Worker.RATE_LIMIT_MAX_REQUESTS = 100
  /\ Worker.RATE_LIMIT_WINDOW_SIZE = 3600.
Proof.
  intros key now inWindow tooMany Hget Hkv.
  pose proof (checkRateLimit_run svc ip w times) as Hrun. cbv zeta in Hrun.
  fold key now in Hrun. rewrite Hget, Hkv in Hrun.
  specialize (Hrun eq_refl).
  assert (Hcount :
    Z.of_nat (length (List.filter
                        (fun time => now - Worker.RATE_LIMIT_WINDOW_SIZE <? time)
                        times ++ [now])%list)
    = Z.of_nat (length inWindow) + 1).
  { rewrite length_app. simpl. subst inWindow.
    rewrite (List_filter_as_Prop _
               (fun time => now - Worker.RATE_LIMIT_WINDOW_SIZE < time)).
    - lia.
    - intros x. apply Z.ltb_lt. }
  rewrite Hcount in Hrun.
  assert (Hdeny : fst (Worker.checkRateLimit svc ip w) = Ok true <->
            Worker.RATE_LIMIT_MAX_REQUESTS < Z.of_nat (length inWindow) + 1).
  { rewrite Hrun. simpl fst. rewrite <- Z.ltb_lt.
    split; [intros [= ->]; reflexivity | intros ->; reflexivity]. }
  assert (Hanswer : forall request env,
            Worker.clientIP request = ip ->
            Forall (fun name => Worker.env_get env name <> EmptyString)
              Worker.requiredEnvVars ->
            fst (Worker.checkRateLimit svc ip w) = Ok true ->
            fst (Worker.validateRequest svc request env w)
            = Ok (Some tooMany)).
  { intros request env Hip Henv Hover.
    rewrite validateRequest_configured by exact Henv.
    unfold Worker.bind. rewrite Hip.
    destruct (Worker.checkRateLimit svc ip w) as [[b|e] w'];
      simpl in Hover; [|discriminate].
    injection Hover as ->. reflexivity. }
  split; [exact Hdeny|]. split; [|split; [|split; reflexivity]].
  - rewrite Hrun. simpl fst. rewrite <- Z.ltb_ge.
    split; [intros [= ->]; reflexivity | intros ->; reflexivity].
  - intros request env Hip Henv. split; [now apply Hanswer|].
    intros ->. apply Hanswer; [exact Hip | exact Henv |].
    apply Hdeny. subst inWindow.
    rewrite <- (List_filter_as_Prop
                  (fun time => now - Worker.RATE_LIMIT_WINDOW_SIZE <? time)
                  (fun time => now - Worker.RATE_LIMIT_WINDOW_SIZE < time))
      by (intros x; apply Z.ltb_lt).
    rewrite length_filter_replicate.
    + unfold Worker.RATE_LIMIT_MAX_REQUESTS. lia.
    + apply Z.ltb_lt. unfold Worker.RATE_LIMIT_WINDOW_SIZE. lia.
Qed.

Lemma rate_limit_threshold_witness :
  fst (Worker.checkRateLimit (Fixtures.services Fixtures.good_url) "1.2.3.4"
         Fixtures.busy_world) = Ok true
  /\ fst (Worker.validateRequest (Fixtures.services Fixtures.good_url)
            (Fixtures.request "sha256=valid") Fixtures.env
            Fixtures.busy_world)
     = Ok (Some {| Worker.status := 429;
                   Worker.body := "Rate limit exceeded";
                   Worker.headers := [("Retry-After", "3600")] |}).
Proof.
  destruct (rate_limit_threshold (Fixtures.services Fixtures.good_url)
              "1.2.3.4" Fixtures.busy_world
              (replicate 101 (1704844800 - 100)))
    as (Hdeny & _ & Hanswer & _).
  - reflexivity.
  - vm_compute. reflexivity.
  - split.
    + apply Hdeny. vm_compute. reflexivity.
    + apply (Hanswer (Fixtures.request "sha256=valid") Fixtures.env).
      * vm_compute. reflexivity.
      * repeat constructor; discriminate.
      * reflexivity.
Defined.

(** C5.  The limiter always comes back with a decision, never with an
    error.  When the read of the client's key fails, or finds nothing, or
    finds a value that is no array or does not parse, it works from the
    empty sequence (it writes back the current request alone) and allows.
    The decision does not depend on whether the write succeeds, and a
    failed write leaves the store as it was.  When the test of a stored
    element throws, the limiter allows, with nothing written.  A stored
    array is otherwise taken as it is, whatever its elements are: the
    filter keeps the elements that compare greater than
    [now - windowSize], and the request is denied exactly when these and
    the request at hand are more than [maxRequests]. *)
Theorem rate_limiter_fails_open (svc : Worker.Services) (ip : string)
    (w : Worker.World) :
  let key := "ratelimit:" +:+ ip in
  let now := Worker.Date_now svc / 1000 in
  let windowStart := now - Worker.RATE_LIMIT_WINDOW_SIZE in
  (exists decision w', Worker.checkRateLimit svc ip w = (Ok decision, w'))
  /\ (is_Some (Worker.kv_get_fails svc key) \/
      Worker.kv w !! key = Some Worker.NotAnArray \/
      Worker.kv w !! key = Some Worker.NotJson \/
      Worker.kv w !! key = None ->
      fst (Worker.checkRateLimit svc ip w) = Ok false /\
      Worker.calls (snd (Worker.checkRateLimit svc ip w)) =
        (Worker.calls w ++
         [Worker.CallKvGet key;
          Worker.CallKvPut key [Worker.JNum now]
            Worker.RATE_LIMIT_WINDOW_SIZE])%list)
  /\ (forall svc',
        Worker.Date_now svc' = Worker.Date_now svc ->
        Worker.kv_get_fails svc' key = Worker.kv_get_fails svc key ->
        (forall value n, Worker.runtime_greater svc' value n
                         = Worker.runtime_greater svc value n) ->
        fst (Worker.checkRateLimit svc' ip w)
        = fst (Worker.checkRateLimit svc ip w))
  /\ (is_Some (Worker.kv_put_fails svc key) ->
      Worker.kv (snd (Worker.checkRateLimit svc ip w)) = Worker.kv w)
  /\ (forall items,
        Worker.kv_get_fails svc key = None ->
        Worker.kv w !! key = Some (Worker.Array items) ->
        (forall time e,
            time ∈ items ->
            Worker.greater_than svc time windowStart = Throw e ->
            Worker.checkRateLimit svc ip w
            = (Ok false, Worker.log_call (Worker.CallKvGet key) w))
        /\ (forall kept,
              Worker.keep_greater svc windowStart items = Ok kept ->
              kept = List.filter
                       (fun time =>
                          match Worker.greater_than svc time windowStart with
                          | Ok keep => keep
                          | Throw _ => false
                          end) items
              /\ fst (Worker.checkRateLimit svc ip w)
                 = Ok (Worker.RATE_LIMIT_MAX_REQUESTS
                       <? Z.of_nat (length kept) + 1))).
Proof.
  intros key now windowStart.
  pose proof (checkRateLimit_cases svc ip w) as Hrun. cbv zeta in Hrun.
  fold key now windowStart in Hrun.
  split; [|split; [|split; [|split]]].
  - rewrite Hrun. destruct (Worker.keep_greater _ _ _); eauto.
  - intros Hbad. rewrite Hrun.
    assert (Hnone :
      match Worker.kv_get_fails svc key, Worker.kv w !! key with
      | None, Some (Worker.Array items) => items
      | _, _ => []
      end = []).
    { destruct Hbad as [[e ->] | [-> | [-> | ->]]];
        destruct (Worker.kv_get_fails svc key); reflexivity. }
    rewrite Hnone. split; reflexivity.
  - intros svc' Hnow Hget Hruntime.
    rewrite Hrun, (checkRateLimit_cases svc' ip w). cbv zeta. fold key.
    rewrite Hnow, Hget. fold now windowStart.
    rewrite (keep_greater_ext svc' svc) by exact Hruntime.
    destruct (Worker.keep_greater _ _ _); reflexivity.
  - intros [e He]. rewrite Hrun.
    destruct (Worker.keep_greater _ _ _); [|reflexivity].
    cbn [snd Worker.kv]. now rewrite He.
  - intros items Hget Hkv. rewrite Hget, Hkv in Hrun. split.
    + intros time e Hin Hthrow.
      destruct (keep_greater_throws svc windowStart items time e Hin Hthrow)
        as [e' Hfilter].
      rewrite Hrun, Hfilter. reflexivity.
    + intros kept Hkept. split.
      * exact (keep_greater_filter svc windowStart items kept Hkept).
      * rewrite Hrun, Hkept. cbn [fst]. rewrite length_app. cbn [length].
        do 2 f_equal. lia.
Qed.

Lemma rate_limiter_fails_open_witness :
  (fst (Worker.checkRateLimit Fixtures.services_store_down "1.2.3.4"
          Fixtures.busy_world) = Ok false
   /\ Worker.calls (snd (Worker.checkRateLimit Fixtures.services_store_down
                           "1.2.3.4" Fixtures.busy_world))
      = [Worker.CallKvGet "ratelimit:1.2.3.4";
         Worker.CallKvPut "ratelimit:1.2.3.4" [Worker.JNum 1704844800] 3600]
   /\ Worker.kv (snd (Worker.checkRateLimit Fixtures.services_store_down
                        "1.2.3.4" Fixtures.busy_world))
      = Worker.kv Fixtures.busy_world)
  /\ Worker.checkRateLimit (Fixtures.services Fixtures.good_url) "1.2.3.4"
       Fixtures.poisoned_world
     = (Ok false,
        Worker.log_call (Worker.CallKvGet "ratelimit:1.2.3.4")
          Fixtures.poisoned_world)
  /\ fst (Worker.checkRateLimit (Fixtures.services Fixtures.good_url)
            "1.2.3.4" Fixtures.numeric_strings_world) = Ok true.
Proof.
  split; [|split].
  - destruct (rate_limiter_fails_open Fixtures.services_store_down "1.2.3.4"
                Fixtures.busy_world) as (_ & Hread & _ & Hwrite & _).
    destruct Hread as [Hallow Hcalls].
    + left. eexists. reflexivity.
    + split; [exact Hallow|]. split; [exact Hcalls|].
      apply Hwrite. eexists. reflexivity.
  - destruct (rate_limiter_fails_open (Fixtures.services Fixtures.good_url)
                "1.2.3.4" Fixtures.poisoned_world) as (_ & _ & _ & _ & Harray).
    destruct (Harray (map Worker.JNum (replicate 101 (1704844800 - 100)) ++
                      [Worker.JObj [("toString", Worker.JNum 1)]])%list)
      as [Hthrow _]; [reflexivity | vm_compute; reflexivity |].
    apply (Hthrow (Worker.JObj [("toString", Worker.JNum 1)])
             (JsError "Cannot convert object to primitive value")).
    + apply list_elem_of_In, in_or_app. right. left. reflexivity.
    + reflexivity.
  - destruct (rate_limiter_fails_open (Fixtures.services Fixtures.good_url)
                "1.2.3.4" Fixtures.numeric_strings_world)
      as (_ & _ & _ & _ & Harray).
    destruct (Harray (replicate 101 (Worker.JStr "9999999999")))
      as [_ Hcount]; [reflexivity | vm_compute; reflexivity |].
    destruct (Hcount (replicate 101 (Worker.JStr "9999999999")))
      as [_ Hdecision]; [vm_compute; reflexivity|].
    rewrite Hdecision. vm_compute. reflexivity.
Defined.

(** A stored array of 101 strings of digits is malformed, and is not
    treated as the empty sequence: every string compares greater than
    the start of the window, all of them are counted and the request is
    denied with 429, where the empty sequence gives an allow. *)
Lemma malformed_array_is_counted :
  Worker.kv Fixtures.numeric_strings_world !! "ratelimit:1.2.3.4"
  = Some (Worker.Array (replicate 101 (Worker.JStr "9999999999")))
  /\ fst (Worker.checkRateLimit (Fixtures.services Fixtures.good_url)
            "1.2.3.4" Fixtures.numeric_strings_world) = Ok true
  /\ fst (Worker.validateRequest (Fixtures.services Fixtures.good_url)
            (Fixtures.request "sha256=valid") Fixtures.env
            Fixtures.numeric_strings_world)
     = Ok (Some {| Worker.status := 429;
                   Worker.body := "Rate limit exceeded";
                   Worker.headers := [("Retry-After", "3600")] |})
  /\ fst (Worker.checkRateLimit (Fixtures.services Fixtures.good_url)
            "1.2.3.4" Worker.empty_world) = Ok false.
Proof.
  repeat split; vm_compute; reflexivity.
Qed.

(** ** Request validator *)



(** ** Handler *)

Section Handler.
Import Worker.
Variable svc : Services.

Lemma includes_nonempty p s :
  JsString.includes p s = true -> p <> EmptyString -> s <> EmptyString.
Proof.
  intros Hinc Hp ->. destruct p; [congruence | discriminate].
Qed.

(** What [fetch] does with a triggering request: the reference is taken
    from the URL outside the inner [try], then the inner [try]/[catch] runs;
    whatever either throws ends in the outer [catch]. *)
Lemma fetch_triggered request env w validated issue comment prUrl :
  triggers svc request env w validated issue comment prUrl ->
  fetch svc request env w =
    match GitHub.extractPRDetails prUrl with
    | Throw _ => (Ok (internal_server_error), validated)
    | Ok prDetails =>
        match articleCheck svc issue comment prDetails validated with
        | (Ok response, w') => (Ok response, w')
        | (Throw _, w') => (Ok (internal_server_error), w')
        end
    end.
Proof.
  intros (Hvalid & Hparse & (pull & Hpull & Hurl) & Htoken & Hne).
  unfold fetch, try_catch at 1, bind at 1. rewrite Hvalid.
  unfold bind at 1, lift at 1. rewrite Hparse.
  rewrite String.eqb_refl, Hpull, Htoken, Hurl.
  assert (Hbody : truthy (comment_body comment) = true).
  { apply truthy_true. eapply includes_nonempty; [exact Htoken|discriminate]. }
  rewrite Hbody. cbn [andb truthy_opt default].
  apply truthy_true in Hne. rewrite Hne. cbn [negb].
  unfold bind, lift, ret, id.
  destruct (GitHub.extractPRDetails prUrl) as [prDetails|e]; reflexivity.
Qed.

Lemma startsWith_app p s : JsString.startsWith p (p +:+ s) = true.
Proof.
  induction p as [|c p IH]; simpl; [reflexivity|].
  now rewrite Ascii.eqb_refl, IH.
Qed.

Lemma includes_here p s : JsString.includes p (p +:+ s) = true.
Proof.
  destruct (p +:+ s) eqn:E; simpl; rewrite <- E, startsWith_app; reflexivity.
Qed.

Lemma includes_later p before s :
  JsString.includes p s = true -> JsString.includes p (before +:+ s) = true.
Proof.
  intros H. induction before as [|c before IH]; simpl; [exact H|].
  rewrite IH. apply orb_true_r.
Qed.

Lemma error_text_includes reason :
  JsString.includes reason (error_text reason) = true.
Proof.
  unfold error_text. do 4 apply includes_later. apply includes_here.
Qed.

(** The [catch] block of the inner [try]: the error comment is attempted;
    accepted, the answer is the 500 with the reason; refused, the refusal is
    thrown on. *)
Lemma on_failure_run issue prDetails error w :
  let c := {| c_owner := GitHub.owner prDetails;
              c_repo := GitHub.repo prDetails;
              c_issue := issue_number issue;
              c_body := error_text (errorMessage_of error) |} in
  on_failure svc issue prDetails error w =
    match github_post svc c with
    | Ok _ =>
        (Ok {| status := 500;
               body := JSON_stringify_error (errorMessage_of error);
               headers := [("Content-Type", "application/json")] |},
         add_posted c (log_call (CallCreateComment c) w))
    | Throw e => (Throw e, log_call (CallCreateComment c) w)
    end.
Proof.
  intros c. unfold on_failure, createComment, bind, record, ret, throw.
  fold c. destruct (github_post svc c); reflexivity.
Qed.

(** The [try] block, step by step. *)
Lemma pipeline_run issue comment prDetails w :
  let mk text := {| c_owner := GitHub.owner prDetails;
                    c_repo := GitHub.repo prDetails;
                    c_issue := issue_number issue;
                    c_body := text |} in
  let acknowledged :=
    match github_post svc (mk processing_text) with
    | Ok _ => add_posted (mk processing_text)
                (log_call (CallCreateComment (mk processing_text)) w)
    | Throw _ => log_call (CallCreateComment (mk processing_text)) w
    end in
  let fetching :=
    log_call (CallGetPRContent (GitHub.owner prDetails)
                (GitHub.repo prDetails) (GitHub.number prDetails))
      acknowledged in
  pipeline svc issue comment prDetails w =
    match getPRContent svc (GitHub.owner prDetails) (GitHub.repo prDetails)
            (GitHub.number prDetails) with
    | StillPending => (Throw (JsError "Timeout"), fetching)
    | SettledInTime (Throw e) => (Throw e, fetching)
    | SettledInTime (Ok content) =>
        let analysing := log_call (CallAnalyze content) fetching in
        match analyzeArticle svc content with
        | Throw e => (Throw e, analysing)
        | Ok analysis =>
            let checking := log_call (CallFactCheck content) analysing in
            match BraveSearch.factCheck (brave_fetch svc) content with
            | Throw e => (Throw e, checking)
            | Ok factChecking =>
                let c := mk (report svc analysis factChecking
                               (created_at comment)) in
                match github_post svc c with
                | Throw e => (Throw e, log_call (CallCreateComment c) checking)
                | Ok _ =>
                    (Ok {| status := 200; body := "Article check completed";
                           headers :=
                             [("Content-Type", "application/json")] |},
                     add_posted c (log_call (CallCreateComment c) checking))
                end
            end
        end
    end.
Proof.
  intros mk acknowledged fetching.
  unfold pipeline, waitUntil, fetchContent, call_analyzeArticle,
    call_factCheck, createComment, try_catch, bind, record, lift, ret, throw.
  fold (mk processing_text). subst fetching acknowledged.
  destruct (github_post svc (mk processing_text));
    (destruct (getPRContent svc _ _ _) as [[content|?]|]; [|reflexivity..];
     destruct (analyzeArticle svc content) as [analysis|?]; [|reflexivity];
     destruct (BraveSearch.factCheck (brave_fetch svc) content)
       as [factChecking|?]; [|reflexivity];
     cbv zeta;
     fold (mk (report svc analysis factChecking (created_at comment)));
     destruct (github_post svc (mk (report svc analysis factChecking
                                      (created_at comment))));
     reflexivity).
Qed.

(** Neither the limiter nor the validator posts a comment. *)
Lemma validateRequest_no_comment request env w outcome w' :
  validateRequest svc request env w = (outcome, w') ->
  posted w' = posted w /\
  (forall c, CallCreateComment c ∈ calls w' -> CallCreateComment c ∈ calls w).
Proof.
  unfold validateRequest.
  destruct (0 <? length _)%nat.
  { intros [= _ <-]. auto. }
  destruct (checkRateLimit_shape svc (clientIP request) w)
    as (decision & limited & puts & Hrun & Hposted & Hcalls & Hputs).
  unfold bind at 1. rewrite Hrun.
  assert (Hlimited : posted limited = posted w /\
            (forall c, CallCreateComment c ∈ calls limited ->
                       CallCreateComment c ∈ calls w)).
  { split; [exact Hposted|]. intros c. rewrite Hcalls.
    rewrite elem_of_app, elem_of_cons.
    intros [H | [H | H]]; [exact H | discriminate |].
    destruct Hputs as [-> | [value ->]].
    - now apply elem_of_nil in H.
    - apply list_elem_of_singleton in H. discriminate. }
  clear Hrun Hposted Hcalls Hputs.
  destruct decision; [intros [= _ <-]; exact Hlimited|].
  destruct (req_headers request !! _) as [sig|];
    [|intros [= _ <-]; exact Hlimited].
  destruct (truthy sig); [|intros [= _ <-]; exact Hlimited].
  unfold bind, call_verify, bind, record, lift, ret.
  assert (Hverified : forall c s b g,
            CallCreateComment c ∈ calls (log_call (CallVerify s b g) limited)
            -> CallCreateComment c ∈ calls w).
  { intros c s b g. cbn [log_call calls].
    rewrite elem_of_app, elem_of_cons, elem_of_nil.
    intros [H | [H | []]]; [now apply Hlimited | discriminate]. }
  destruct (verify svc _ _ _) as [[|]|e]; intros [= _ <-];
    (split; [apply Hlimited | intros c; apply Hverified]).
Qed.

End Handler.

(** *** Failure of the pipeline *)

(** C2, as worded, fails in its second half: with the content fetch timing
    out and GitHub refusing the error comment, the answer is the generic
    500 of the outer [catch], not the one carrying the reason; with GitHub
    accepting comments the same request is answered with the reason. *)
Lemma refused_error_comment_hides_reason :
  fst (Worker.fetch
         (Fixtures.services_slow_fetch (fun _ => Throw (JsError "Bad credentials")))
         (Fixtures.request "sha256=valid") Fixtures.env Worker.empty_world)
  = Ok {| Worker.status := 500;
          Worker.body := Worker.JSON_stringify_error "Internal server error";
          Worker.headers := [("Content-Type", "application/json")] |}
  /\ Worker.JSON_stringify_error "Internal server error"
     <> Worker.JSON_stringify_error "Timeout"
  /\ fst (Worker.fetch (Fixtures.services_slow_fetch (fun _ => Ok tt))
            (Fixtures.request "sha256=valid") Fixtures.env
            Worker.empty_world)
     = Ok {| Worker.status := 500;
             Worker.body := Worker.JSON_stringify_error "Timeout";
             Worker.headers := [("Content-Type", "application/json")] |}.
Proof. vm_compute. repeat split; discriminate. Qed.

(** C2 (amended).  When the [try] block of a triggered check fails with
    reason [r], an error comment whose text contains [r] is sent; if GitHub
    accepts it, it is posted and the answer is 500 with the JSON body
    [{error: r}]; if GitHub refuses it, the answer is still a 500, with the
    JSON body [{error: "Internal server error"}].  A content fetch that
    outlasts the timer fails with reason "Timeout". *)
Theorem pipeline_failure_response (svc : Worker.Services)
    (request : Worker.Request) (env : Worker.Env)
    (w validated failed : Worker.World) (issue : Worker.Issue)
    (comment : Worker.CommentInfo) (prUrl : string)
    (prDetails : GitHub.PRDetails) (error : JsExn) :
  let reason := Worker.errorMessage_of error in
  let c := {| Worker.c_owner := GitHub.owner prDetails;
              Worker.c_repo := GitHub.repo prDetails;
              Worker.c_issue := Worker.issue_number issue;
              Worker.c_body := Worker.error_text reason |} in
  let attempted := Worker.log_call (Worker.CallCreateComment c) failed in
  Worker.triggers svc request env w validated issue comment prUrl ->
  GitHub.extractPRDetails prUrl = Ok prDetails ->
  Worker.pipeline svc issue comment prDetails validated
    = (Throw error, failed) ->
  JsString.includes reason (Worker.c_body c) = true
  /\ (Worker.github_post svc c = Ok tt ->
      Worker.fetch svc request env w
      = (Ok {| Worker.status := 500;
               Worker.body := Worker.JSON_stringify_error reason;
               Worker.headers := [("Content-Type", "application/json")] |},
         Worker.add_posted c attempted))
  /\ (forall refusal,
        Worker.github_post svc c = Throw refusal ->
        Worker.fetch svc request env w
        = (Ok {| Worker.status := 500;
                 Worker.body :=
                   Worker.JSON_stringify_error "Internal server error";
                 Worker.headers := [("Content-Type", "application/json")] |},
           attempted))
  /\ (Worker.getPRContent svc (GitHub.owner prDetails)
        (GitHub.repo prDetails) (GitHub.number prDetails)
      = Worker.StillPending ->
      error = JsError "Timeout").
Proof.
  intros reason c attempted Htrig Hurl Hfail.
  split; [apply error_text_includes|].
  pose proof (fetch_triggered svc _ _ _ _ _ _ _ Htrig) as Hfetch.
  rewrite Hurl in Hfetch. unfold Worker.articleCheck, Worker.try_catch in Hfetch.
  rewrite Hfail, on_failure_run in Hfetch. cbv zeta in Hfetch.
  fold reason c attempted in Hfetch.
  split; [|split].
  - intros Hpost. rewrite Hfetch, Hpost. reflexivity.
  - intros refusal Hpost. rewrite Hfetch, Hpost. reflexivity.
  - intros Hslow. rewrite pipeline_run in Hfail. cbv zeta in Hfail.
    rewrite Hslow in Hfail. now injection Hfail as <- _.
Qed.

Lemma pipeline_failure_response_witness :
  let svc := Fixtures.services_slow_fetch (fun _ => Ok tt) in
  let c := {| Worker.c_owner := "owner"; Worker.c_repo := "repo";
              Worker.c_issue := 123;
              Worker.c_body := Worker.error_text "Timeout" |} in
  Worker.fetch svc (Fixtures.request "sha256=valid") Fixtures.env
    Worker.empty_world
  = (Ok {| Worker.status := 500;
           Worker.body := Worker.JSON_stringify_error "Timeout";
           Worker.headers := [("Content-Type", "application/json")] |},
     Worker.add_posted c
       (Worker.log_call (Worker.CallCreateComment c)
          (snd (Worker.pipeline svc (Fixtures.issue Fixtures.good_url)
                  Fixtures.comment Fixtures.details
                  (snd (Worker.validateRequest svc
                          (Fixtures.request "sha256=valid") Fixtures.env
                          Worker.empty_world)))))).
Proof.
  intros svc c.
  destruct (pipeline_failure_response svc (Fixtures.request "sha256=valid")
              Fixtures.env Worker.empty_world
              (snd (Worker.validateRequest svc
                      (Fixtures.request "sha256=valid") Fixtures.env
                      Worker.empty_world))
              (snd (Worker.pipeline svc (Fixtures.issue Fixtures.good_url)
                      Fixtures.comment Fixtures.details
                      (snd (Worker.validateRequest svc
                              (Fixtures.request "sha256=valid") Fixtures.env
                              Worker.empty_world))))
              (Fixtures.issue Fixtures.good_url) Fixtures.comment
              Fixtures.good_url Fixtures.details (JsError "Timeout"))
    as (_ & Hposted & _).
  - split; [vm_compute; reflexivity|].
    split; [reflexivity|].
    split; [eexists; split; reflexivity|].
    split; [vm_compute; reflexivity | discriminate].
  - vm_compute. reflexivity.
  - vm_compute. reflexivity.
  - apply Hposted. reflexivity.
Defined.

(** *** Analysis and fact check *)

(** C3, as worded, fails in its first half: with the analysis backend
    answering with an error while content and search are available, the
    answer is a 500 carrying the error's message, and no comment carrying
    the placeholder is posted. *)
Lemma analysis_failure_fails_pipeline :
  fst (Worker.fetch
         (Fixtures.services_backends
            (Throw (JsError "Claude API error: Service Unavailable - overloaded"))
            (Ok Fixtures.search_hit))
         (Fixtures.request "sha256=valid") Fixtures.env Worker.empty_world)
  = Ok {| Worker.status := 500;
          Worker.body :=
            Worker.JSON_stringify_error
              "Claude API error: Service Unavailable - overloaded";
          Worker.headers := [("Content-Type", "application/json")] |}
  /\ Forall
       (fun c => JsString.includes Worker.analysis_placeholder
                   (Worker.c_body c) = false)
       (Worker.posted
          (snd (Worker.fetch
                  (Fixtures.services_backends
                     (Throw (JsError "Claude API error: Service Unavailable - overloaded"))
                     (Ok Fixtures.search_hit))
                  (Fixtures.request "sha256=valid") Fixtures.env
                  Worker.empty_world))).
Proof. vm_compute. split; [reflexivity | repeat constructor]. Qed.

(** C3 (amended).  For a triggered check whose content fetch succeeds: an
    analysis that comes back empty is replaced in the report by the
    placeholder "*Error: Could not generate analysis*", the report is posted
    and the answer is 200; an analysis call that fails, like a fact check
    that fails, ends the pipeline: the error comment is posted and the
    answer is 500 with the failure's message. *)
Theorem analysis_and_factcheck_outcomes (svc : Worker.Services)
    (request : Worker.Request) (env : Worker.Env)
    (w validated : Worker.World) (issue : Worker.Issue)
    (comment : Worker.CommentInfo) (prUrl : string)
    (prDetails : GitHub.PRDetails) (content : string) :
  let mk text := {| Worker.c_owner := GitHub.owner prDetails;
                    Worker.c_repo := GitHub.repo prDetails;
                    Worker.c_issue := Worker.issue_number issue;
                    Worker.c_body := text |} in
  let failure error :=
    Ok {| Worker.status := 500;
          Worker.body :=
            Worker.JSON_stringify_error (Worker.errorMessage_of error);
          Worker.headers := [("Content-Type", "application/json")] |} in
  let outcome := Worker.fetch svc request env w in
  Worker.triggers svc request env w validated issue comment prUrl ->
  GitHub.extractPRDetails prUrl = Ok prDetails ->
  Worker.getPRContent svc (GitHub.owner prDetails) (GitHub.repo prDetails)
    (GitHub.number prDetails) = Worker.SettledInTime (Ok content) ->
  (forall factChecking,
      Worker.analyzeArticle svc content = Ok EmptyString ->
      BraveSearch.factCheck (Worker.brave_fetch svc) content
        = Ok factChecking ->
      let text := Worker.report svc EmptyString factChecking
                    (Worker.created_at comment) in
      Worker.github_post svc (mk text) = Ok tt ->
      JsString.includes Worker.analysis_placeholder text = true /\
      mk text ∈ Worker.posted (snd outcome) /\
      fst outcome
      = Ok {| Worker.status := 200; Worker.body := "Article check completed";
              Worker.headers := [("Content-Type", "application/json")] |})
  /\ (forall error,
        Worker.analyzeArticle svc content = Throw error ->
        Worker.github_post svc
          (mk (Worker.error_text (Worker.errorMessage_of error))) = Ok tt ->
        mk (Worker.error_text (Worker.errorMessage_of error))
          ∈ Worker.posted (snd outcome) /\
        fst outcome = failure error)
  /\ (forall analysis error,
        Worker.analyzeArticle svc content = Ok analysis ->
        BraveSearch.factCheck (Worker.brave_fetch svc) content
          = Throw error ->
        Worker.github_post svc
          (mk (Worker.error_text (Worker.errorMessage_of error))) = Ok tt ->
        mk (Worker.error_text (Worker.errorMessage_of error))
          ∈ Worker.posted (snd outcome) /\
        fst outcome = failure error).
Proof.
  intros mk failure outcome Htrig Hurl Hcontent.
  pose proof (fetch_triggered svc _ _ _ _ _ _ _ Htrig) as Hfetch.
  rewrite Hurl in Hfetch.
  unfold Worker.articleCheck, Worker.try_catch in Hfetch.
  rewrite pipeline_run in Hfetch. cbv zeta in Hfetch.
  rewrite Hcontent in Hfetch. subst outcome mk failure. cbv beta.
  split; [|split].
  - intros factChecking Hanalysis Hcheck text Hpost. subst text.
    rewrite Hanalysis, Hcheck, Hpost in Hfetch. rewrite Hfetch. cbn [fst snd].
    split; [|split; [|reflexivity]].
    + unfold Worker.report. cbn [Worker.truthy String.eqb negb].
      do 5 apply includes_later. apply includes_here.
    + unfold Worker.add_posted. cbn [Worker.posted].
      apply elem_of_app. right. apply list_elem_of_singleton. reflexivity.
  - intros error Hanalysis Hpost.
    rewrite Hanalysis, on_failure_run in Hfetch. cbv zeta in Hfetch.
    rewrite Hpost in Hfetch. rewrite Hfetch.
    cbn [fst snd]. split; [|reflexivity].
    unfold Worker.add_posted. cbn [Worker.posted].
    apply elem_of_app. right. apply list_elem_of_singleton. reflexivity.
  - intros analysis error Hanalysis Hcheck Hpost.
    rewrite Hanalysis, Hcheck, on_failure_run in Hfetch. cbv zeta in Hfetch.
    rewrite Hpost in Hfetch. rewrite Hfetch.
    cbn [fst snd]. split; [|reflexivity].
    unfold Worker.add_posted. cbn [Worker.posted].
    apply elem_of_app. right. apply list_elem_of_singleton. reflexivity.
Qed.

Lemma analysis_and_factcheck_outcomes_witness :
  (fst (Worker.fetch
          (Fixtures.services_backends (Ok EmptyString)
             (Ok Fixtures.search_hit))
          (Fixtures.request "sha256=valid") Fixtures.env Worker.empty_world)
   = Ok {| Worker.status := 200; Worker.body := "Article check completed";
           Worker.headers := [("Content-Type", "application/json")] |}
   /\ JsString.includes Worker.analysis_placeholder
        (Worker.report
           (Fixtures.services_backends (Ok EmptyString)
              (Ok Fixtures.search_hit))
           EmptyString Fixtures.article_checked
           (Worker.created_at Fixtures.comment)) = true)
  /\ fst (Worker.fetch
            (Fixtures.services_backends
               (Throw (JsError "Claude API error: Bad Gateway - down"))
               (Ok Fixtures.search_hit))
            (Fixtures.request "sha256=valid") Fixtures.env
            Worker.empty_world)
     = Ok {| Worker.status := 500;
             Worker.body :=
               Worker.JSON_stringify_error
                 "Claude API error: Bad Gateway - down";
             Worker.headers := [("Content-Type", "application/json")] |}
  /\ fst (Worker.fetch
            (Fixtures.services_backends (Ok "Looks fine")
               (Ok Fixtures.search_down))
            (Fixtures.request "sha256=valid") Fixtures.env
            Worker.empty_world)
     = Ok {| Worker.status := 500;
             Worker.body :=
               Worker.JSON_stringify_error
                 "Brave search failed: Internal Server Error";
             Worker.headers := [("Content-Type", "application/json")] |}.
Proof.
  assert (Htrig : forall analysis search,
    Worker.triggers (Fixtures.services_backends analysis search)
      (Fixtures.request "sha256=valid") Fixtures.env Worker.empty_world
      (snd (Worker.validateRequest (Fixtures.services_backends analysis search)
              (Fixtures.request "sha256=valid") Fixtures.env
              Worker.empty_world))
      (Fixtures.issue Fixtures.good_url) Fixtures.comment Fixtures.good_url).
  { intros analysis search.
    split; [vm_compute; reflexivity|].
    split; [reflexivity|].
    split; [eexists; split; reflexivity|].
    split; [vm_compute; reflexivity | discriminate]. }
  assert (Hurl : GitHub.extractPRDetails Fixtures.good_url
                 = Ok Fixtures.details) by (vm_compute; reflexivity).
  split; [|split].
  - destruct (analysis_and_factcheck_outcomes _ _ _ _ _ _ _ _ _
                Fixtures.article
                (Htrig (Ok EmptyString) (Ok Fixtures.search_hit)) Hurl eq_refl)
      as (Hempty & _ & _).
    destruct (Hempty Fixtures.article_checked)
      as (Hplaceholder & _ & Hanswer);
      [reflexivity | vm_compute; reflexivity | reflexivity |].
    split; [exact Hanswer | exact Hplaceholder].
  - destruct (analysis_and_factcheck_outcomes _ _ _ _ _ _ _ _ _
                Fixtures.article
                (Htrig (Throw (JsError "Claude API error: Bad Gateway - down"))
                   (Ok Fixtures.search_hit)) Hurl eq_refl)
      as (_ & Hanalysis & _).
    destruct (Hanalysis (JsError "Claude API error: Bad Gateway - down"))
      as [_ Hanswer]; [reflexivity | reflexivity |].
    exact Hanswer.
  - destruct (analysis_and_factcheck_outcomes _ _ _ _ _ _ _ _ _
                Fixtures.article
                (Htrig (Ok "Looks fine") (Ok Fixtures.search_down)) Hurl
                eq_refl)
      as (_ & _ & Hcheck).
    destruct (Hcheck "Looks fine"
                (JsError "Brave search failed: Internal Server Error"))
      as [_ Hanswer];
      [reflexivity | vm_compute; reflexivity | reflexivity |].
    exact Hanswer.
Defined.

(** ** The pull-request URL *)

Section PRUrl.
Import GitHub.

Lemma append_String c s t : String c s +:+ t = String c (s +:+ t).
Proof. reflexivity. Qed.

Lemma append_Empty t : EmptyString +:+ t = t.
Proof. reflexivity. Qed.

Lemma span_spec p s run tail :
  span p s = (run, tail) ->
  s = run +:+ tail /\ all_chars p run = true.
Proof.
  revert run tail. induction s as [|c s IH]; intros run tail; simpl.
  - intros [= <- <-]. auto.
  - destruct (p c) eqn:Hc.
    + destruct (span p s) as [run' tail'] eqn:Hs. intros [= <- <-].
      destruct (IH _ _ eq_refl) as [-> Hall].
      rewrite append_String. simpl. now rewrite Hc, Hall.
    + intros [= <- <-]. auto.
Qed.

Lemma span_stop p run c tail :
  all_chars p run = true -> p c = false ->
  span p (run +:+ String c tail) = (run, String c tail).
Proof.
  intros Hrun Hc. induction run as [|a run IH].
  - rewrite append_Empty. simpl. now rewrite Hc.
  - simpl in Hrun. apply andb_true_iff in Hrun as [Ha Hrun].
    rewrite append_String. simpl. now rewrite Ha, IH.
Qed.

Lemma span_head p c run tail :
  p c = true -> fst (span p (String c run +:+ tail)) <> EmptyString.
Proof.
  intros Hc. rewrite append_String. simpl. rewrite Hc.
  destruct (span p (run +:+ tail)). discriminate.
Qed.

Lemma startsWith_drop p s :
  JsString.startsWith p s = true -> s = p +:+ drop_chars (String.length p) s.
Proof.
  revert s. induction p as [|a p IH]; intros s; simpl; [reflexivity|].
  destruct s as [|b s]; [discriminate|].
  intros H. apply andb_true_iff in H as [Hab Hp].
  apply Ascii.eqb_eq in Hab as ->. rewrite append_String.
  f_equal. apply IH, Hp.
Qed.

Lemma match_here_sound s g1 g2 g3 :
  match_here s = Some (g1, g2, g3) -> has_pr_shape s.
Proof.
  unfold match_here.
  destruct (JsString.startsWith "repos/" s) eqn:Hrepos; [|discriminate].
  apply startsWith_drop in Hrepos.
  destruct (span not_slash (drop_chars 6 s)) as [o s1] eqn:H1.
  destruct (String.eqb o EmptyString) eqn:Ho; [discriminate|].
  destruct s1 as [|c s2]; [discriminate|].
  destruct (Ascii.eqb c "/") eqn:Hc.
  2:{ intros H. exfalso. revert H. clear -Hc.
      destruct c as [[] [] [] [] [] [] [] []]; try discriminate Hc;
        discriminate. }
  apply Ascii.eqb_eq in Hc as ->.
  destruct (span not_slash s2) as [r s3] eqn:H2.
  destruct (String.eqb r EmptyString) eqn:Hr; [discriminate|].
  destruct (JsString.startsWith "/pulls/" s3) eqn:Hpulls; [|discriminate].
  apply startsWith_drop in Hpulls.
  destruct (span is_digit (drop_chars 7 s3)) as [n s4] eqn:H3.
  destruct (String.eqb n EmptyString) eqn:Hn; [discriminate|].
  intros [= <- <- <-].
  apply span_spec in H1 as [E1 A1], H2 as [E2 A2], H3 as [E3 A3].
  exists EmptyString, o, r, n, s4.
  apply String.eqb_neq in Ho, Hr, Hn.
  repeat split; try assumption.
  rewrite append_Empty.
  change (String.length "repos/") with 6%nat in Hrepos.
  change (String.length "/pulls/") with 7%nat in Hpulls.
  rewrite Hrepos at 1. rewrite E1. f_equal. f_equal.
  rewrite !append_String, append_Empty. f_equal.
  rewrite E2. f_equal. rewrite Hpulls at 1. rewrite E3. reflexivity.
Qed.

Lemma match_here_complete o r n after :
  o <> EmptyString -> r <> EmptyString -> n <> EmptyString ->
  all_chars not_slash o = true -> all_chars not_slash r = true ->
  all_chars is_digit n = true ->
  exists g3,
    match_here ("repos/" +:+ o +:+ "/" +:+ r +:+ "/pulls/" +:+ n +:+ after)
    = Some (o, r, g3).
Proof.
  intros Ho Hr Hn Ao Ar An. unfold match_here.
  rewrite startsWith_app.
  change (drop_chars 6 ("repos/" +:+ ?x)) with x.
  change ("/" +:+ ?x) with (String "/" x).
  rewrite (span_stop not_slash o "/") by (exact Ao || reflexivity).
  apply String.eqb_neq in Ho, Hr. rewrite Ho.
  change ("/pulls/" +:+ ?x) with (String "/" ("pulls/" +:+ x)).
  rewrite (span_stop not_slash r "/") by (exact Ar || reflexivity).
  rewrite Hr.
  change (String "/" ("pulls/" +:+ ?x)) with ("/pulls/" +:+ x).
  rewrite startsWith_app.
  change (drop_chars 7 ("/pulls/" +:+ ?x)) with x.
  destruct n as [|d n]; [congruence|].
  simpl in An. apply andb_true_iff in An as [Hd _].
  pose proof (span_head is_digit d n after Hd) as Hhead.
  destruct (span is_digit (String d n +:+ after)) as [g3 rest].
  simpl in Hhead. apply String.eqb_neq in Hhead. rewrite Hhead. eauto.
Qed.

Lemma regex_match_sound s groups :
  regex_match s = Some groups -> has_pr_shape s.
Proof.
  induction s as [|c s IH]; cbn [regex_match].
  - intros H. vm_compute in H. discriminate.
  - destruct (match_here (String c s)) as [[[g1 g2] g3]|] eqn:Hhere.
    + intros _. eapply match_here_sound, Hhere.
    + intros H. destruct (IH H)
        as (before & o & r & n & after & -> & Hshape).
      exists (String c before), o, r, n, after. split; [reflexivity|exact Hshape].
Qed.

Lemma regex_match_complete s :
  has_pr_shape s -> exists groups, regex_match s = Some groups.
Proof.
  intros (before & o & r & n & after & -> & Ho & Hr & Hn & Ao & Ar & An).
  destruct (match_here_complete o r n after Ho Hr Hn Ao Ar An) as [g3 Hhere].
  induction before as [|c before IH].
  - rewrite append_Empty.
    destruct ("repos/" +:+ o +:+ "/" +:+ r +:+ "/pulls/" +:+ n +:+ after)
      eqn:E; cbn [regex_match]; rewrite Hhere; eauto.
  - rewrite append_String. cbn [regex_match].
    destruct (match_here (String c _)); [eauto | exact IH].
Qed.

(** [extractPRDetails] throws exactly on the strings that do not have the
    shape. *)
Lemma extractPRDetails_throws_iff prUrl :
  extractPRDetails prUrl = Throw (JsError "Invalid PR URL format") <->
  ~ has_pr_shape prUrl.
Proof.
  unfold extractPRDetails. split.
  - intros H Hshape. apply regex_match_complete in Hshape as [g Hg].
    rewrite Hg in H. destruct g as [[g1 g2] g3]. discriminate.
  - intros Hno. destruct (regex_match prUrl) as [[[g1 g2] g3]|] eqn:Hm;
      [|reflexivity].
    exfalso. eapply Hno, regex_match_sound, Hm.
Qed.

End PRUrl.

(** C10.  For a request that passes validation and carries a trigger
    comment on a pull request whose URL is not empty and does not have the
    shape [repos/{owner}/{repo}/pulls/{number}]: [extractPRDetails] throws,
    the answer is 500 with the JSON body [{error: "Internal server error"}]
    (so not the 400 of the empty-URL test), the world is as validation left
    it, and no comment was sent to GitHub. *)
Theorem unmatched_pr_url_internal_error (svc : Worker.Services)
    (request : Worker.Request) (env : Worker.Env)
    (w validated : Worker.World) (issue : Worker.Issue)
    (comment : Worker.CommentInfo) (prUrl : string) :
  Worker.triggers svc request env w validated issue comment prUrl ->
  ~ GitHub.has_pr_shape prUrl ->
  GitHub.extractPRDetails prUrl = Throw (JsError "Invalid PR URL format")
  /\ Worker.fetch svc request env w
     = (Ok {| Worker.status := 500;
              Worker.body :=
                Worker.JSON_stringify_error "Internal server error";
              Worker.headers := [("Content-Type", "application/json")] |},
        validated)
  /\ Worker.posted validated = Worker.posted w
  /\ (forall c, Worker.CallCreateComment c ∈ Worker.calls validated ->
                Worker.CallCreateComment c ∈ Worker.calls w).
Proof.
  intros Htrig Hshape.
  apply extractPRDetails_throws_iff in Hshape.
  split; [exact Hshape|]. split.
  - rewrite (fetch_triggered svc _ _ _ _ _ _ _ Htrig), Hshape. reflexivity.
  - destruct Htrig as [Hvalid _].
    exact (validateRequest_no_comment svc _ _ _ _ _ Hvalid).
Qed.

Lemma unmatched_pr_url_internal_error_witness :
  let svc := Fixtures.services "https://invalid-url" in
  let validated :=
    snd (Worker.validateRequest svc (Fixtures.request "sha256=valid")
           Fixtures.env Worker.empty_world) in
  GitHub.extractPRDetails "https://invalid-url"
    = Throw (JsError "Invalid PR URL format")
  /\ Worker.fetch svc (Fixtures.request "sha256=valid") Fixtures.env
       Worker.empty_world
     = (Ok {| Worker.status := 500;
              Worker.body :=
                Worker.JSON_stringify_error "Internal server error";
              Worker.headers := [("Content-Type", "application/json")] |},
        validated)
  /\ Worker.posted validated = []
  /\ (forall c, Worker.CallCreateComment c ∈ Worker.calls validated ->
                Worker.CallCreateComment c ∈ []).
Proof.
  intros svc validated.
  apply (unmatched_pr_url_internal_error svc (Fixtures.request "sha256=valid")
           Fixtures.env Worker.empty_world validated
           (Fixtures.issue "https://invalid-url") Fixtures.comment
           "https://invalid-url").
  - split; [vm_compute; reflexivity|].
    split; [reflexivity|].
    split; [eexists; split; reflexivity|].
    split; [vm_compute; reflexivity | discriminate].
  - apply extractPRDetails_throws_iff. vm_compute. reflexivity.
Defined.

(** The empty URL is the one the 400 answer is for. *)
Example empty_pr_url_is_bad_request :
  fst (Worker.fetch (Fixtures.services EmptyString)
         (Fixtures.request "sha256=valid") Fixtures.env Worker.empty_world)
  = Ok {| Worker.status := 400; Worker.body := "Invalid PR URL";
          Worker.headers := [] |}.
Proof. vm_compute. reflexivity. Qed.

(** The happy path of the test suite: acknowledgment, then report, 200. *)
Example article_check_completes :
  fst (Worker.fetch (Fixtures.services Fixtures.good_url)
         (Fixtures.request "sha256=valid") Fixtures.env Worker.empty_world)
  = Ok {| Worker.status := 200; Worker.body := "Article check completed";
          Worker.headers := [("Content-Type", "application/json")] |}
  /\ map Worker.c_body
       (Worker.posted
          (snd (Worker.fetch (Fixtures.services Fixtures.good_url)
                  (Fixtures.request "sha256=valid") Fixtures.env
                  Worker.empty_world)))
     = [Worker.processing_text;
        Worker.report (Fixtures.services Fixtures.good_url) "Test analysis" []
          "2024-01-10T00:00:00.000Z"].
Proof. vm_compute. split; reflexivity. Qed.

(** * Further properties *)

(** ** The limiter over time and across clients *)

Section LimiterRuns.
Import Worker Runs.

Lemma ratelimit_key_inj ip ip' :
  "ratelimit:" +:+ ip = "ratelimit:" +:+ ip' -> ip = ip'.
Proof. apply (inj (String.app "ratelimit:")). Qed.

(** Requests that all fall within one window length of [lo], on top of a
    record whose entries are no older than [lo]: each request sees every
    earlier one. *)
Lemma admit_each_from svc ip times stored w lo :
  let key := "ratelimit:" +:+ ip in
  kv_get_fails svc key = None ->
  kv_put_fails svc key = None ->
  (kv w !! key = Some (Timestamps stored) \/
   kv w !! key = None /\ stored = []) ->
  Forall (fun x => lo <= x) stored ->
  Forall (fun t => lo <= t / 1000 < lo + RATE_LIMIT_WINDOW_SIZE) times ->
  fst (admit_each svc ip times w)
  = imap (fun i _ =>
            Ok (RATE_LIMIT_MAX_REQUESTS
                <? Z.of_nat (length stored + i + 1))) times
  /\ (times <> [] ->
      kv (snd (admit_each svc ip times w)) !! key
      = Some (Timestamps (stored ++ map (fun t => t / 1000) times)%list)).
Proof.
  intros key Hget Hput Hkv Hstored Htimes.
  revert stored w Hkv Hstored.
  induction Htimes as [|t times Ht _ IH]; intros stored w Hkv Hstored.
  - split; [reflexivity | congruence].
  - cbn [admit_each].
    pose proof (checkRateLimit_run (at_time svc t) ip w stored) as Hrun.
    cbv zeta in Hrun. cbn [at_time Date_now kv_get_fails kv_put_fails] in Hrun.
    fold key in Hrun. rewrite Hget, Hput in Hrun.
    assert (Hread :
      match kv w !! key with
      | Some (Array items) => items
      | _ => []
      end = map JNum stored).
    { destruct Hkv as [-> | [-> ->]]; reflexivity. }
    specialize (Hrun Hread).
    assert (Hkeep :
      List.filter (fun time => t / 1000 - RATE_LIMIT_WINDOW_SIZE <? time)
        stored = stored).
    { clear -Hstored Ht. induction Hstored as [|x l Hx _ IHl];
        simpl; [reflexivity|].
      replace (t / 1000 - RATE_LIMIT_WINDOW_SIZE <? x) with true
        by (symmetry; apply Z.ltb_lt; lia).
      now rewrite IHl. }
    rewrite Hkeep in Hrun. rewrite Hrun.
    set (w1 := {| kv := _; posted := posted w; calls := _ |}).
    destruct (IH (stored ++ [t / 1000])%list w1) as [Hdec Hstore].
    { left. subst w1. cbn [kv]. apply lookup_insert_eq. }
    { apply Forall_app. split; [exact Hstored|].
      constructor; [lia | constructor]. }
    destruct (admit_each svc ip times w1) as [decisions w2] eqn:Hrest.
    cbn [fst snd] in *. split.
    + rewrite Hdec. cbn [imap]. f_equal.
      * rewrite length_app. cbn [length]. do 3 f_equal. lia.
      * apply imap_ext. intros i x _. cbv beta. unfold compose.
        rewrite length_app. cbn [length]. do 3 f_equal. lia.
    + intros _. destruct times as [|t' times'].
      * cbn [admit_each] in Hrest. injection Hrest as _ <-.
        subst w1. cbn [kv map]. apply lookup_insert_eq.
      * rewrite Hstore by discriminate. cbn [map].
        now rewrite <- app_assoc.
Qed.

End LimiterRuns.

(** X1.  For a client without a record and a working store, requests that
    all fall within one window are decided by their rank alone: the first
    100 are allowed, every later one is denied; denied requests are recorded
    like the others. *)
Theorem requests_within_window_by_rank (svc : Worker.Services) (ip : string)
    (times : list Z) (w : Worker.World) (lo : Z) :
  let key := "ratelimit:" +:+ ip in
  Worker.kv_get_fails svc key = None ->
  Worker.kv_put_fails svc key = None ->
  Worker.kv w !! key = None ->
  Forall (fun t => lo <= t / 1000 < lo + Worker.RATE_LIMIT_WINDOW_SIZE)
    times ->
  fst (Runs.admit_each svc ip times w)
  = imap (fun i _ => Ok (bool_decide (100 <= i)%nat)) times
  /\ (times <> [] ->
      Worker.kv (snd (Runs.admit_each svc ip times w)) !! key
      = Some (Worker.Timestamps (map (fun t => t / 1000) times))).
Proof.
  intros key Hget Hput Hkv Htimes.
  destruct (admit_each_from svc ip times [] w lo Hget Hput
              (or_intror (conj Hkv eq_refl)) (Forall_nil_2 _) Htimes)
    as [Hdec Hstore].
  split; [|exact Hstore].
  rewrite Hdec. apply imap_ext. intros i x _. cbn [length Nat.add]. f_equal.
  unfold Worker.RATE_LIMIT_MAX_REQUESTS.
  destruct (100 <? Z.of_nat (i + 1)) eqn:E.
  - apply Z.ltb_lt in E. rewrite bool_decide_eq_true_2; [reflexivity | lia].
  - apply Z.ltb_ge in E. rewrite bool_decide_eq_false_2; [reflexivity | lia].
Qed.

Lemma requests_within_window_by_rank_witness :
  fst (Runs.admit_each (Fixtures.services Fixtures.good_url) "1.2.3.4"
         (replicate 102 1704844800123) Worker.empty_world) !! 99%nat
  = Some (Ok false)
  /\ fst (Runs.admit_each (Fixtures.services Fixtures.good_url) "1.2.3.4"
            (replicate 102 1704844800123) Worker.empty_world) !! 100%nat
     = Some (Ok true).
Proof.
  destruct (requests_within_window_by_rank
              (Fixtures.services Fixtures.good_url) "1.2.3.4"
              (replicate 102 1704844800123) Worker.empty_world 1704844800)
    as [Hdec _].
  - reflexivity.
  - reflexivity.
  - reflexivity.
  - apply Forall_forall. intros t Ht.
    apply elem_of_replicate in Ht as [-> _].
    split; [vm_compute; discriminate | reflexivity].
  - rewrite Hdec. split; reflexivity.
Defined.



(** X3.  Clients do not interfere: serving one client leaves every other
    client's record as it was, and with it the decision the other client
    gets. *)
Theorem checkRateLimit_isolates_clients (svc : Worker.Services)
    (ip other : string) (w : Worker.World) :
  ip <> other ->
  Worker.kv (snd (Worker.checkRateLimit svc ip w)) !! ("ratelimit:" +:+ other)
  = Worker.kv w !! ("ratelimit:" +:+ other)
  /\ fst (Worker.checkRateLimit svc other
            (snd (Worker.checkRateLimit svc ip w)))
     = fst (Worker.checkRateLimit svc other w).
Proof.
  intros Hne.
  assert (Hkeys : "ratelimit:" +:+ ip <> "ratelimit:" +:+ other).
  { intros E. apply Hne, ratelimit_key_inj, E. }
  assert (Hsame :
    Worker.kv (snd (Worker.checkRateLimit svc ip w))
      !! ("ratelimit:" +:+ other)
    = Worker.kv w !! ("ratelimit:" +:+ other)).
  { rewrite checkRateLimit_cases. cbv zeta.
    destruct (Worker.keep_greater _ _ _); [|reflexivity].
    cbn [snd Worker.kv].
    destruct (Worker.kv_put_fails svc _); [reflexivity|].
    now apply lookup_insert_ne. }
  split; [exact Hsame|].
  rewrite (checkRateLimit_cases svc other), (checkRateLimit_cases svc other w).
  cbv zeta. rewrite Hsame.
  destruct (Worker.keep_greater _ _ _); reflexivity.
Qed.

Lemma checkRateLimit_isolates_clients_witness :
  fst (Worker.checkRateLimit (Fixtures.services Fixtures.good_url) "1.2.3.4"
         (snd (Worker.checkRateLimit (Fixtures.services Fixtures.good_url)
                 "5.6.7.8" Fixtures.busy_world)))
  = fst (Worker.checkRateLimit (Fixtures.services Fixtures.good_url)
           "1.2.3.4" Fixtures.busy_world).
Proof.
  apply (checkRateLimit_isolates_clients
           (Fixtures.services Fixtures.good_url) "5.6.7.8" "1.2.3.4"
           Fixtures.busy_world).
  discriminate.
Defined.

(** X4.  Timestamps that have left the window do not count, however many
    there are: a client whose stored timestamps are all at least a window
    old is allowed, and a successful write resets the record to the current
    request. *)
Theorem expired_record_is_forgotten (svc : Worker.Services) (ip : string)
    (w : Worker.World) (times : list Z) :
  let key := "ratelimit:" +:+ ip in
  let now := Worker.Date_now svc / 1000 in
  Worker.kv w !! key = Some (Worker.Timestamps times) ->
  Forall (fun time => time <= now - Worker.RATE_LIMIT_WINDOW_SIZE) times ->
  fst (Worker.checkRateLimit svc ip w) = Ok false
  /\ (Worker.kv_put_fails svc key = None ->
      Worker.kv (snd (Worker.checkRateLimit svc ip w)) !! key
      = Some (Worker.Timestamps [now])).
Proof.
  intros key now Hkv Hold.
  set (read := match Worker.kv_get_fails svc key with
               | Some _ => []
               | None => times
               end).
  rewrite (checkRateLimit_run svc ip w read);
    [|fold key; rewrite Hkv; subst read;
      destruct (Worker.kv_get_fails svc key); reflexivity].
  cbv zeta. fold key now.
  assert (Hnone :
    List.filter (fun time => now - Worker.RATE_LIMIT_WINDOW_SIZE <? time)
      read = []).
  { subst read. destruct (Worker.kv_get_fails svc key); [reflexivity|].
    apply List_filter_none. eapply Forall_impl; [exact Hold|].
    intros x Hx. cbv beta. apply Z.ltb_ge. exact Hx. }
  rewrite Hnone. split; [reflexivity|].
  intros ->. cbn [snd Worker.kv]. apply lookup_insert_eq.
Qed.

Lemma expired_record_is_forgotten_witness :
  fst (Worker.checkRateLimit
         (Runs.at_time (Fixtures.services Fixtures.good_url) 1704848300000)
         "1.2.3.4" Fixtures.busy_world) = Ok false
  /\ Worker.kv (snd (Worker.checkRateLimit
                       (Runs.at_time (Fixtures.services Fixtures.good_url)
                          1704848300000)
                       "1.2.3.4" Fixtures.busy_world)) !! "ratelimit:1.2.3.4"
     = Some (Worker.Timestamps [1704848300]).
Proof.
  destruct (expired_record_is_forgotten
              (Runs.at_time (Fixtures.services Fixtures.good_url)
                 1704848300000)
              "1.2.3.4" Fixtures.busy_world
              (replicate 101 (1704844800 - 100))) as [Hallow Hreset].
  - vm_compute. reflexivity.
  - apply Forall_forall. intros t Ht.
    apply elem_of_replicate in Ht as [-> _]. vm_compute. discriminate.
  - split; [exact Hallow | apply Hreset; reflexivity].
Defined.

(** ** The handler as a whole *)

Section HandlerRuns.
Import Worker Runs.
Variable svc : Services.

(** The validator's answers, and what it leaves behind: no comment, and
    calls to the store and the verifier only. *)
Lemma validateRequest_trace request env w outcome w' :
  validateRequest svc request env w = (outcome, w') ->
  posted w' = posted w
  /\ (exists extra, calls w' = (calls w ++ extra)%list
                    /\ forallb is_admission_call extra = true)
  /\ (forall r, outcome = Ok (Some r) ->
        status r = 401 \/ status r = 429 \/ status r = 500).
Proof.
  unfold validateRequest.
  destruct (0 <? length _)%nat.
  { intros [= <- <-]. split; [reflexivity|]. split.
    - exists []. now rewrite app_nil_r.
    - intros r [= <-]. auto. }
  destruct (checkRateLimit_shape svc (clientIP request) w)
    as (decision & limited & puts & Hrun & Hposted & Hcalls & Hputs).
  assert (Hadm :
    forallb is_admission_call
      (CallKvGet ("ratelimit:" +:+ clientIP request) :: puts) = true).
  { destruct Hputs as [-> | [value ->]]; reflexivity. }
  unfold bind at 1. rewrite Hrun.
  destruct decision.
  { intros [= <- <-]. split; [exact Hposted|]. split.
    - eexists. split; [exact Hcalls | exact Hadm].
    - intros r [= <-]. auto. }
  destruct (req_headers request !! _) as [sig|].
  2:{ intros [= <- <-]. split; [exact Hposted|]. split.
      - eexists. split; [exact Hcalls | exact Hadm].
      - intros r [= <-]. auto. }
  destruct (truthy sig).
  2:{ intros [= <- <-]. split; [exact Hposted|]. split.
      - eexists. split; [exact Hcalls | exact Hadm].
      - intros r [= <-]. auto. }
  unfold bind, call_verify, bind, record, lift, ret, log_call.
  destruct (verify svc _ _ _) as [[|]|e]; intros [= <- <-];
    (split; [exact Hposted|]; split;
     [ eexists; cbn [calls]; rewrite Hcalls, <- app_assoc;
       split; [reflexivity | rewrite forallb_app, Hadm; reflexivity]
     | intros r; try discriminate; intros [= <-]; auto ]).
Qed.

Lemma articleCheck_status issue comment prDetails w r w' :
  articleCheck svc issue comment prDetails w = (Ok r, w') ->
  status r = 200 \/ status r = 500.
Proof.
  unfold articleCheck, try_catch.
  rewrite pipeline_run. cbv zeta.
  destruct (github_post svc _);
    (destruct (getPRContent svc _ _ _) as [[content|?]|];
     [ destruct (analyzeArticle svc content) as [analysis|?];
       [ destruct (BraveSearch.factCheck (brave_fetch svc) content)
           as [factChecking|?];
         [ destruct (github_post svc _) | ] | ] | | ]);
    try (intros [= <- _]; left; reflexivity);
    rewrite on_failure_run; cbv zeta;
    destruct (github_post svc _); try discriminate;
    intros [= <- _]; right; reflexivity.
Qed.

(** What [fetch] does once validation has let the request through. *)
Lemma fetch_validated request env w validated :
  validateRequest svc request env w = (Ok None, validated) ->
  fetch svc request env w =
    match JSON_parse svc (req_body request) with
    | Throw _ => (Ok internal_server_error, validated)
    | Ok OtherEvent => (Ok event_processed, validated)
    | Ok (IssueCommentEvent action issue comment) =>
        if String.eqb action "created" then
          match pull_request issue with
          | None => (Ok event_processed, validated)
          | Some pull =>
              if truthy (comment_body comment)
                 && JsString.includes "/articlecheck" (comment_body comment)
              then
                if negb (truthy_opt (pr_url pull)) then
                  (Ok {| status := 400; body := "Invalid PR URL";
                         headers := [] |}, validated)
                else
                  match GitHub.extractPRDetails
                          (default EmptyString (pr_url pull)) with
                  | Throw _ => (Ok internal_server_error, validated)
                  | Ok prDetails =>
                      match articleCheck svc issue comment prDetails
                              validated with
                      | (Ok response, w') => (Ok response, w')
                      | (Throw _, w') => (Ok internal_server_error, w')
                      end
                  end
              else (Ok event_processed, validated)
          end
        else (Ok event_processed, validated)
    end.
Proof.
  intros Hvalid. unfold fetch, try_catch at 1, bind at 1. rewrite Hvalid.
  unfold bind at 1, lift at 1.
  destruct (JSON_parse svc (req_body request))
    as [[action issue comment|]|e]; try reflexivity.
  destruct (String.eqb action "created"); [|reflexivity].
  destruct (pull_request issue) as [pull|]; [|reflexivity].
  destruct (truthy (comment_body comment) && _); [|reflexivity].
  destruct (negb (truthy_opt (pr_url pull))); [reflexivity|].
  unfold bind, lift.
  destruct (GitHub.extractPRDetails _); reflexivity.
Qed.

End HandlerRuns.

(** X5.  The handler never rejects: with every call it awaits settled,
    whether resolved or rejected, [fetch] resolves to a response (an error
    thrown anywhere inside is answered, not passed on), and the status of
    the response is one of 200, 400, 401, 429 and 500. *)
Theorem fetch_never_rejects (svc : Worker.Services)
    (request : Worker.Request) (env : Worker.Env) (w : Worker.World) :
  exists response w',
    Worker.fetch svc request env w = (Ok response, w')
    /\ Worker.status response ∈ [200; 400; 401; 429; 500].
Proof.
  destruct (Worker.validateRequest svc request env w)
    as [[[rejection|]|e] validated] eqn:Hvalid.
  - exists rejection, validated. split.
    + unfold Worker.fetch, Worker.try_catch, Worker.bind. now rewrite Hvalid.
    + destruct (validateRequest_trace svc _ _ _ _ _ Hvalid) as (_ & _ & Hst).
      destruct (Hst rejection eq_refl) as [-> | [-> | ->]];
        [ do 2 right; left | do 3 right; left | do 4 right; left ].
  - rewrite (fetch_validated svc _ _ _ _ Hvalid).
    destruct (Worker.JSON_parse svc _) as [[action issue comment|]|e].
    2:{ do 2 eexists. split; [reflexivity | left]. }
    2:{ do 2 eexists. split; [reflexivity | do 4 right; left]. }
    destruct (String.eqb action "created");
      [|do 2 eexists; split; [reflexivity | left]].
    destruct (Worker.pull_request issue) as [pull|];
      [|do 2 eexists; split; [reflexivity | left]].
    destruct (_ && _);
      [|do 2 eexists; split; [reflexivity | left]].
    destruct (negb _);
      [do 2 eexists; split; [reflexivity | right; left]|].
    destruct (GitHub.extractPRDetails _) as [prDetails|e];
      [|do 2 eexists; split; [reflexivity | do 4 right; left]].
    destruct (Worker.articleCheck svc issue comment prDetails validated)
      as [[response|e] w'] eqn:Hcheck;
      [|do 2 eexists; split; [reflexivity | do 4 right; left]].
    exists response, w'. split; [reflexivity|].
    destruct (articleCheck_status svc _ _ _ _ _ _ Hcheck) as [-> | ->];
      [left | do 4 right; left].
  - exists Worker.internal_server_error, validated. split.
    + unfold Worker.fetch, Worker.try_catch, Worker.bind. now rewrite Hvalid.
    + do 4 right. left.
Qed.

(** X6.  A request the validator rejects is answered with the validator's
    response as it is; up to then no comment has been posted and the only
    calls issued are those to the store and to the verifier. *)
Theorem validator_rejection_is_the_answer (svc : Worker.Services)
    (request : Worker.Request) (env : Worker.Env) (w w' : Worker.World)
    (rejection : Worker.Response) :
  Worker.validateRequest svc request env w = (Ok (Some rejection), w') ->
  Worker.fetch svc request env w = (Ok rejection, w')
  /\ Worker.posted w' = Worker.posted w
  /\ exists extra,
       Worker.calls w' = (Worker.calls w ++ extra)%list
       /\ forallb Runs.is_admission_call extra = true.
Proof.
  intros Hvalid. split.
  - unfold Worker.fetch, Worker.try_catch, Worker.bind. now rewrite Hvalid.
  - destruct (validateRequest_trace svc _ _ _ _ _ Hvalid) as (Hp & Hc & _).
    split; [exact Hp | exact Hc].
Qed.

Lemma validator_rejection_is_the_answer_witness :
  fst (Worker.fetch (Fixtures.services Fixtures.good_url)
         (Fixtures.request "sha256=invalid") Fixtures.env Worker.empty_world)
  = Ok {| Worker.status := 401; Worker.body := "Invalid signature";
          Worker.headers := [] |}
  /\ Worker.posted
       (snd (Worker.fetch (Fixtures.services Fixtures.good_url)
               (Fixtures.request "sha256=invalid") Fixtures.env
               Worker.empty_world)) = [].
Proof.
  destruct (validator_rejection_is_the_answer
              (Fixtures.services Fixtures.good_url)
              (Fixtures.request "sha256=invalid") Fixtures.env
              Worker.empty_world
              (snd (Worker.validateRequest
                      (Fixtures.services Fixtures.good_url)
                      (Fixtures.request "sha256=invalid") Fixtures.env
                      Worker.empty_world))
              {| Worker.status := 401; Worker.body := "Invalid signature";
                 Worker.headers := [] |}) as (Hfetch & Hposted & _).
  - vm_compute. reflexivity.
  - rewrite Hfetch. split; [reflexivity | exact Hposted].
Defined.

(** X7.  When the signature check itself rejects instead of answering, the
    request is not answered 401: the rejection reaches the outer [catch],
    the answer is the generic 500, and no comment is posted. *)
Theorem verifier_rejection_is_internal_error (svc : Worker.Services)
    (request : Worker.Request) (env : Worker.Env) (w : Worker.World)
    (sig : string) (e : JsExn) :
  Forall (fun name => Worker.env_get env name <> EmptyString)
    Worker.requiredEnvVars ->
  fst (Worker.checkRateLimit svc (Worker.clientIP request) w) = Ok false ->
  Worker.req_headers request !! "x-hub-signature-256" = Some sig ->
  sig <> EmptyString ->
  Worker.verify svc (Worker.GITHUB_WEBHOOK_SECRET env)
    (Worker.req_body request) sig = Throw e ->
  fst (Worker.fetch svc request env w) = Ok Worker.internal_server_error
  /\ Worker.posted (snd (Worker.fetch svc request env w)) = Worker.posted w.
Proof.
  intros Henv Hallow Hheader Hsig Hverify.
  assert (Hvalid : exists w',
             Worker.validateRequest svc request env w = (Throw e, w')).
  { rewrite validateRequest_configured by exact Henv.
    unfold Worker.bind, Worker.call_verify, Worker.bind, Worker.record,
      Worker.lift.
    destruct (Worker.checkRateLimit svc (Worker.clientIP request) w)
      as [[b|e0] w1]; simpl in Hallow; [|discriminate].
    injection Hallow as ->. rewrite Hheader.
    apply truthy_true in Hsig. rewrite Hsig, Hverify. eauto. }
  destruct Hvalid as [w' Hvalid].
  destruct (validateRequest_trace svc _ _ _ _ _ Hvalid) as (Hp & _ & _).
  unfold Worker.fetch, Worker.try_catch, Worker.bind. rewrite Hvalid.
  split; [reflexivity | exact Hp].
Qed.

Lemma verifier_rejection_is_internal_error_witness :
  fst (Worker.fetch
         (Scenarios.services_with Scenarios.verifier_throws
            (fun _ => Ok (Fixtures.pr_event Fixtures.good_url)))
         (Fixtures.request "sha256=valid") Fixtures.env Worker.empty_world)
  = Ok Worker.internal_server_error
  /\ Worker.posted
       (snd (Worker.fetch
               (Scenarios.services_with Scenarios.verifier_throws
                  (fun _ => Ok (Fixtures.pr_event Fixtures.good_url)))
               (Fixtures.request "sha256=valid") Fixtures.env
               Worker.empty_world)) = [].
Proof.
  apply (verifier_rejection_is_internal_error
           (Scenarios.services_with Scenarios.verifier_throws
              (fun _ => Ok (Fixtures.pr_event Fixtures.good_url)))
           (Fixtures.request "sha256=valid") Fixtures.env Worker.empty_world
           "sha256=valid"
           (JsError "secret, eventPayload & signature required")).
  - repeat constructor; discriminate.
  - vm_compute. reflexivity.
  - vm_compute. reflexivity.
  - discriminate.
  - reflexivity.
Defined.

(** X8.  A validated request whose body does not parse is answered with the
    generic 500: the parser's message is not passed on, nothing is posted
    and the world is as validation left it. *)
Theorem malformed_payload_is_internal_error (svc : Worker.Services)
    (request : Worker.Request) (env : Worker.Env)
    (w validated : Worker.World) (e : JsExn) :
  Worker.validateRequest svc request env w = (Ok None, validated) ->
  Worker.JSON_parse svc (Worker.req_body request) = Throw e ->
  Worker.fetch svc request env w
  = (Ok {| Worker.status := 500;
           Worker.body := Worker.JSON_stringify_error "Internal server error";
           Worker.headers := [("Content-Type", "application/json")] |},
     validated)
  /\ Worker.posted validated = Worker.posted w.
Proof.
  intros Hvalid Hparse.
  rewrite (fetch_validated svc _ _ _ _ Hvalid), Hparse.
  split; [reflexivity|].
  apply (validateRequest_trace svc _ _ _ _ _ Hvalid).
Qed.

Lemma malformed_payload_is_internal_error_witness :
  fst (Worker.fetch
         (Scenarios.services_with Scenarios.accept_valid
            (fun _ => Throw (JsError "Unexpected token i in JSON")))
         (Fixtures.request "sha256=valid") Fixtures.env Worker.empty_world)
  = Ok {| Worker.status := 500;
          Worker.body := Worker.JSON_stringify_error "Internal server error";
          Worker.headers := [("Content-Type", "application/json")] |}.
Proof.
  destruct (malformed_payload_is_internal_error
              (Scenarios.services_with Scenarios.accept_valid
                 (fun _ => Throw (JsError "Unexpected token i in JSON")))
              (Fixtures.request "sha256=valid") Fixtures.env
              Worker.empty_world
              (snd (Worker.validateRequest
                      (Scenarios.services_with Scenarios.accept_valid
                         (fun _ => Throw (JsError "Unexpected token i in JSON")))
                      (Fixtures.request "sha256=valid") Fixtures.env
                      Worker.empty_world))
              (JsError "Unexpected token i in JSON")) as [Hfetch _].
  - vm_compute. reflexivity.
  - reflexivity.
  - rewrite Hfetch. reflexivity.
Defined.

(** X9.  A validated event that is no trigger (another kind of event, an
    action other than "created", an issue that is no pull request, or a
    comment without the token) is answered 200 "Event processed", and the
    world is as validation left it: no comment, no fetch, no analysis. *)
Theorem other_events_are_only_acknowledged (svc : Worker.Services)
    (request : Worker.Request) (env : Worker.Env)
    (w validated : Worker.World) (payload : Worker.WebhookEvent) :
  Worker.validateRequest svc request env w = (Ok None, validated) ->
  Worker.JSON_parse svc (Worker.req_body request) = Ok payload ->
  (payload = Worker.OtherEvent \/
   exists action issue comment,
     payload = Worker.IssueCommentEvent action issue comment /\
     (action <> "created" \/
      Worker.pull_request issue = None \/
      JsString.includes "/articlecheck" (Worker.comment_body comment)
      = false)) ->
  Worker.fetch svc request env w
  = (Ok {| Worker.status := 200; Worker.body := "Event processed";
           Worker.headers := [] |}, validated)
  /\ Worker.posted validated = Worker.posted w.
Proof.
  intros Hvalid Hparse Hother.
  split; [|apply (validateRequest_trace svc _ _ _ _ _ Hvalid)].
  rewrite (fetch_validated svc _ _ _ _ Hvalid), Hparse.
  destruct Hother as [-> | (action & issue & comment & -> & Hwhy)];
    [reflexivity|].
  destruct (String.eqb action "created") eqn:Haction; [|reflexivity].
  destruct (Worker.pull_request issue) as [pull|] eqn:Hpull; [|reflexivity].
  destruct Hwhy as [Hne | [Hnone | Htoken]].
  - apply String.eqb_eq in Haction. contradiction.
  - discriminate.
  - rewrite Htoken, andb_false_r. reflexivity.
Qed.

Lemma other_events_are_only_acknowledged_witness :
  Worker.fetch
    (Scenarios.services_with Scenarios.accept_valid
       (fun _ => Ok Scenarios.chatter))
    (Fixtures.request "sha256=valid") Fixtures.env Worker.empty_world
  = (Ok {| Worker.status := 200; Worker.body := "Event processed";
           Worker.headers := [] |},
     snd (Worker.validateRequest
            (Scenarios.services_with Scenarios.accept_valid
               (fun _ => Ok Scenarios.chatter))
            (Fixtures.request "sha256=valid") Fixtures.env
            Worker.empty_world)).
Proof.
  apply (other_events_are_only_acknowledged
           (Scenarios.services_with Scenarios.accept_valid
              (fun _ => Ok Scenarios.chatter))
           (Fixtures.request "sha256=valid") Fixtures.env Worker.empty_world
           _ Scenarios.chatter).
  - vm_compute. reflexivity.
  - reflexivity.
  - right. do 3 eexists. split; [reflexivity|].
    right. right. vm_compute. reflexivity.
Defined.

(** X10.  When content, analysis, fact check and the posting of the report
    all succeed, the answer is 200; the calls go out in the order
    acknowledgment, content, analysis, fact check, report (the analysis is
    asked for before the fact check, both on the fetched content); and the
    comments posted are the acknowledgment, if GitHub took it, then the
    report.  A refused acknowledgment changes nothing else. *)
Theorem completed_check_trace (svc : Worker.Services)
    (request : Worker.Request) (env : Worker.Env)
    (w validated : Worker.World) (issue : Worker.Issue)
    (comment : Worker.CommentInfo) (prUrl : string)
    (prDetails : GitHub.PRDetails) (content analysis : string)
    (factChecking : list BraveSearch.SearchResult) :
  let mk text := {| Worker.c_owner := GitHub.owner prDetails;
                    Worker.c_repo := GitHub.repo prDetails;
                    Worker.c_issue := Worker.issue_number issue;
                    Worker.c_body := text |} in
  let ack := mk Worker.processing_text in
  let final := mk (Worker.report svc analysis factChecking
                     (Worker.created_at comment)) in
  let outcome := Worker.fetch svc request env w in
  Worker.triggers svc request env w validated issue comment prUrl ->
  GitHub.extractPRDetails prUrl = Ok prDetails ->
  Worker.getPRContent svc (GitHub.owner prDetails) (GitHub.repo prDetails)
    (GitHub.number prDetails) = Worker.SettledInTime (Ok content) ->
  Worker.analyzeArticle svc content = Ok analysis ->
  BraveSearch.factCheck (Worker.brave_fetch svc) content = Ok factChecking ->
  Worker.github_post svc final = Ok tt ->
  fst outcome
  = Ok {| Worker.status := 200; Worker.body := "Article check completed";
          Worker.headers := [("Content-Type", "application/json")] |}
  /\ Worker.calls (snd outcome)
     = (Worker.calls validated ++
        [Worker.CallCreateComment ack;
         Worker.CallGetPRContent (GitHub.owner prDetails)
           (GitHub.repo prDetails) (GitHub.number prDetails);
         Worker.CallAnalyze content;
         Worker.CallFactCheck content;
         Worker.CallCreateComment final])%list
  /\ Worker.posted (snd outcome)
     = (Worker.posted validated ++
        match Worker.github_post svc ack with
        | Ok _ => [ack; final]
        | Throw _ => [final]
        end)%list.
Proof.
  intros mk ack final outcome Htrig Hurl Hcontent Hanalysis Hcheck Hpost.
  pose proof (fetch_triggered svc _ _ _ _ _ _ _ Htrig) as Hfetch.
  rewrite Hurl in Hfetch.
  unfold Worker.articleCheck, Worker.try_catch in Hfetch.
  rewrite pipeline_run in Hfetch. cbv beta zeta in Hfetch.
  rewrite Hcontent, Hanalysis, Hcheck in Hfetch.
  subst outcome final ack mk. cbv beta. cbv beta in Hpost.
  rewrite Hpost in Hfetch. rewrite Hfetch. cbn [fst snd].
  split; [reflexivity|].
  unfold Worker.add_posted, Worker.log_call.
  match goal with
  | |- context [match Worker.github_post svc ?c with _ => _ end] =>
      destruct (Worker.github_post svc c)
  end;
    cbn [Worker.calls Worker.posted]; rewrite <- !app_assoc;
    split; reflexivity.
Qed.

Lemma completed_check_trace_witness :
  fst (Worker.fetch Scenarios.services_ack_refused
         (Fixtures.request "sha256=valid") Fixtures.env Worker.empty_world)
  = Ok {| Worker.status := 200; Worker.body := "Article check completed";
          Worker.headers := [("Content-Type", "application/json")] |}
  /\ Worker.posted
       (snd (Worker.fetch Scenarios.services_ack_refused
               (Fixtures.request "sha256=valid") Fixtures.env
               Worker.empty_world))
     = [{| Worker.c_owner := "owner"; Worker.c_repo := "repo";
           Worker.c_issue := 123;
           Worker.c_body :=
             Worker.report Scenarios.services_ack_refused "Test analysis"
               Fixtures.article_checked "2024-01-10T00:00:00.000Z" |}].
Proof.
  destruct (completed_check_trace Scenarios.services_ack_refused
              (Fixtures.request "sha256=valid") Fixtures.env
              Worker.empty_world
              (snd (Worker.validateRequest Scenarios.services_ack_refused
                      (Fixtures.request "sha256=valid") Fixtures.env
                      Worker.empty_world))
              (Fixtures.issue Fixtures.good_url) Fixtures.comment
              Fixtures.good_url Fixtures.details Fixtures.article
              "Test analysis" Fixtures.article_checked)
    as (Hanswer & _ & Hposted).
  - split; [vm_compute; reflexivity|].
    split; [reflexivity|].
    split; [eexists; split; reflexivity|].
    split; [vm_compute; reflexivity | discriminate].
  - vm_compute. reflexivity.
  - reflexivity.
  - reflexivity.
  - vm_compute. reflexivity.
  - vm_compute. reflexivity.
  - split; [exact Hanswer|]. rewrite Hposted. vm_compute. reflexivity.
Defined.

(** X11.  When the content fetch times out or rejects, neither the analysis
    nor the fact check is called: after the acknowledgment and the fetch the
    only call is the error comment, which carries the fetch's reason, and
    the answer is a 500. *)
Theorem failed_fetch_skips_analysis (svc : Worker.Services)
    (request : Worker.Request) (env : Worker.Env)
    (w validated : Worker.World) (issue : Worker.Issue)
    (comment : Worker.CommentInfo) (prUrl : string)
    (prDetails : GitHub.PRDetails) :
  let mk text := {| Worker.c_owner := GitHub.owner prDetails;
                    Worker.c_repo := GitHub.repo prDetails;
                    Worker.c_issue := Worker.issue_number issue;
                    Worker.c_body := text |} in
  let fetched :=
    Worker.getPRContent svc (GitHub.owner prDetails) (GitHub.repo prDetails)
      (GitHub.number prDetails) in
  let reason :=
    match fetched with
    | Worker.SettledInTime (Throw e) => Worker.errorMessage_of e
    | _ => "Timeout"
    end in
  let outcome := Worker.fetch svc request env w in
  Worker.triggers svc request env w validated issue comment prUrl ->
  GitHub.extractPRDetails prUrl = Ok prDetails ->
  (forall content, fetched <> Worker.SettledInTime (Ok content)) ->
  Worker.calls (snd outcome)
  = (Worker.calls validated ++
     [Worker.CallCreateComment (mk Worker.processing_text);
      Worker.CallGetPRContent (GitHub.owner prDetails)
        (GitHub.repo prDetails) (GitHub.number prDetails);
      Worker.CallCreateComment (mk (Worker.error_text reason))])%list
  /\ exists response,
       fst outcome = Ok response /\ Worker.status response = 500.
Proof.
  intros mk fetched reason outcome Htrig Hurl Hfailed.
  pose proof (fetch_triggered svc _ _ _ _ _ _ _ Htrig) as Hfetch.
  rewrite Hurl in Hfetch.
  unfold Worker.articleCheck, Worker.try_catch in Hfetch.
  rewrite pipeline_run in Hfetch. cbv beta zeta in Hfetch.
  subst outcome reason mk. cbv beta. subst fetched.
  destruct (Worker.getPRContent svc _ _ _) as [[content|e]|];
    [ exfalso; now apply (Hfailed content) | | ];
    rewrite on_failure_run in Hfetch; cbv beta zeta in Hfetch;
    rewrite Hfetch; unfold Worker.add_posted, Worker.log_call;
    repeat match goal with
           | |- context [match Worker.github_post svc ?c with _ => _ end] =>
               destruct (Worker.github_post svc c)
           end;
    cbn [fst snd Worker.calls]; rewrite <- !app_assoc;
    (split; [reflexivity | eexists; split; reflexivity]).
Qed.

Lemma failed_fetch_skips_analysis_witness :
  Worker.calls
    (snd (Worker.fetch (Fixtures.services_slow_fetch (fun _ => Ok tt))
            (Fixtures.request "sha256=valid") Fixtures.env
            Worker.empty_world))
  = [Worker.CallKvGet "ratelimit:1.2.3.4";
     Worker.CallKvPut "ratelimit:1.2.3.4" [Worker.JNum 1704844800] 3600;
     Worker.CallVerify "test-secret" "{}" "sha256=valid";
     Worker.CallCreateComment
       {| Worker.c_owner := "owner"; Worker.c_repo := "repo";
          Worker.c_issue := 123; Worker.c_body := Worker.processing_text |};
     Worker.CallGetPRContent "owner" "repo" 123;
     Worker.CallCreateComment
       {| Worker.c_owner := "owner"; Worker.c_repo := "repo";
          Worker.c_issue := 123;
          Worker.c_body := Worker.error_text "Timeout" |}].
Proof.
  destruct (failed_fetch_skips_analysis
              (Fixtures.services_slow_fetch (fun _ => Ok tt))
              (Fixtures.request "sha256=valid") Fixtures.env
              Worker.empty_world
              (snd (Worker.validateRequest
                      (Fixtures.services_slow_fetch (fun _ => Ok tt))
                      (Fixtures.request "sha256=valid") Fixtures.env
                      Worker.empty_world))
              (Fixtures.issue Fixtures.good_url) Fixtures.comment
              Fixtures.good_url Fixtures.details) as [Hcalls _].
  - split; [vm_compute; reflexivity|].
    split; [reflexivity|].
    split; [eexists; split; reflexivity|].
    split; [vm_compute; reflexivity | discriminate].
  - vm_compute. reflexivity.
  - intros content. discriminate.
  - rewrite Hcalls. vm_compute. reflexivity.
Defined.

(** X12.  The limiter runs before the signature is looked at, so with the
    configuration complete, the store writable and the client's stored
    array, if there is one, holding numbers, every request is recorded
    against its client, whatever the validator then answers: requests
    without a valid signature use up the client's allowance too. *)
Theorem every_configured_request_is_recorded (svc : Worker.Services)
    (request : Worker.Request) (env : Worker.Env) (w : Worker.World) :
  let key := "ratelimit:" +:+ Worker.clientIP request in
  let now := Worker.Date_now svc / 1000 in
  Forall (fun name => Worker.env_get env name <> EmptyString)
    Worker.requiredEnvVars ->
  Worker.kv_put_fails svc key = None ->
  (forall items, Worker.kv w !! key = Some (Worker.Array items) ->
                 exists times, items = map Worker.JNum times) ->
  exists kept,
    Worker.kv (snd (Worker.validateRequest svc request env w)) !! key
    = Some (Worker.Timestamps (kept ++ [now])%list).
Proof.
  intros key now Henv Hput Hnumbers.
  assert (Hkv : exists kept,
            Worker.kv (snd (Worker.checkRateLimit svc
                              (Worker.clientIP request) w)) !! key
            = Some (Worker.Timestamps (kept ++ [now])%list)).
  { destruct (stored_numbers svc (Worker.clientIP request) w Hnumbers)
      as (read & Hread & _).
    rewrite (checkRateLimit_run svc _ w read Hread). cbv zeta.
    fold key now. rewrite Hput.
    cbn [snd Worker.kv]. rewrite lookup_insert_eq. eauto. }
  destruct Hkv as [kept Hkv].
  subst key now. exists kept. rewrite <- Hkv. f_equal.
  rewrite validateRequest_configured by exact Henv.
  unfold Worker.bind, Worker.call_verify, Worker.bind, Worker.record,
    Worker.lift, Worker.ret, Worker.log_call.
  destruct (Worker.checkRateLimit svc (Worker.clientIP request) w)
    as [[[|]|e] w1]; try reflexivity.
  destruct (Worker.req_headers request !! _) as [sig|]; [|reflexivity].
  destruct (Worker.truthy sig); [|reflexivity].
  destruct (Worker.verify svc _ _ _) as [[|]|e]; reflexivity.
Qed.

Lemma every_configured_request_is_recorded_witness :
  fst (Worker.validateRequest (Fixtures.services Fixtures.good_url)
         (Fixtures.request "sha256=invalid") Fixtures.env Worker.empty_world)
  = Ok (Some {| Worker.status := 401; Worker.body := "Invalid signature";
                Worker.headers := [] |})
  /\ exists kept,
       Worker.kv
         (snd (Worker.validateRequest (Fixtures.services Fixtures.good_url)
                 (Fixtures.request "sha256=invalid") Fixtures.env
                 Worker.empty_world)) !! "ratelimit:1.2.3.4"
       = Some (Worker.Timestamps (kept ++ [1704844800])%list).
Proof.
  split; [vm_compute; reflexivity|].
  apply (every_configured_request_is_recorded
           (Fixtures.services Fixtures.good_url)
           (Fixtures.request "sha256=invalid") Fixtures.env
           Worker.empty_world).
  - repeat constructor; discriminate.
  - reflexivity.
  - intros items. discriminate.
Defined.

(** ** The fact-check engine, further *)

Section FactCheckMore.
Import BraveSearch.
Variable fetch : string -> Res HttpResponse.

Lemma promise_all_map {A B} (f : A -> Res B) (g : A -> B) xs :
  (forall x, x ∈ xs -> f x = Ok (g x)) -> promise_all f xs = Ok (map g xs).
Proof.
  induction xs as [|x xs IH]; intros Hf; simpl; [reflexivity|].
  rewrite (Hf x) by left. rewrite IH; [reflexivity|].
  intros y Hy. apply Hf. now right.
Qed.

Lemma string_length_append s t :
  String.length (s +:+ t) = (String.length s + String.length t)%nat.
Proof.
  induction s as [|c s IH]; [reflexivity|].
  rewrite append_String. simpl. now rewrite IH.
Qed.

(** Pieces of a split are parts of the text. *)
Lemma split_pieces_bounded sep c s :
  Forall (fun piece =>
            (String.length piece <= String.length s)%nat /\
            (JsString.count_char c piece <= JsString.count_char c s)%nat)
    (JsString.split sep s).
Proof.
  induction s as [|a s IH]; simpl.
  - repeat constructor.
  - destruct (Ascii.eqb a sep).
    + constructor.
      * simpl. split; lia.
      * eapply Forall_impl; [exact IH|]. cbv beta.
        intros piece [? ?]. destruct (Ascii.eqb a c); split; lia.
    + destruct (JsString.split sep s) as [|piece pieces].
      * constructor; [|constructor]. simpl.
        destruct (Ascii.eqb a c); split; lia.
      * apply Forall_cons in IH as [[Hlen Hcount] IH].
        constructor.
        -- simpl. destruct (Ascii.eqb a c); split; lia.
        -- eapply Forall_impl; [exact IH|]. cbv beta.
           intros q [? ?]. destruct (Ascii.eqb a c); split; lia.
Qed.

Lemma split_pieces_without_sep sep s :
  Forall (fun piece => JsString.count_char sep piece = O)
    (JsString.split sep s).
Proof.
  induction s as [|a s IH]; simpl.
  - repeat constructor.
  - destruct (Ascii.eqb a sep) eqn:Ha.
    + constructor; [reflexivity | exact IH].
    + destruct (JsString.split sep s) as [|piece pieces].
      * constructor; [|constructor]. simpl. now rewrite Ha.
      * apply Forall_cons in IH as [Hpiece IH].
        constructor; [|exact IH]. simpl. now rewrite Ha.
Qed.

Lemma trimStart_bounded c s :
  (String.length (JsString.trimStart s) <= String.length s)%nat /\
  (JsString.count_char c (JsString.trimStart s)
   <= JsString.count_char c s)%nat.
Proof.
  induction s as [|a s [IHl IHc]]; simpl; [split; lia|].
  destruct (JsString.is_whitespace a); simpl;
    destruct (Ascii.eqb a c); split; lia.
Qed.

Lemma trimEnd_bounded c s :
  (String.length (JsString.trimEnd s) <= String.length s)%nat /\
  (JsString.count_char c (JsString.trimEnd s)
   <= JsString.count_char c s)%nat.
Proof.
  induction s as [|a s [IHl IHc]]; simpl; [split; lia|].
  destruct (JsString.trimEnd s) as [|b t].
  - destruct (JsString.is_whitespace a); simpl;
      destruct (Ascii.eqb a c); simpl in *; split; lia.
  - simpl in *. destruct (Ascii.eqb a c); split; lia.
Qed.

Lemma trim_bounded c s :
  (String.length (JsString.trim s) <= String.length s)%nat /\
  (JsString.count_char c (JsString.trim s) <= JsString.count_char c s)%nat.
Proof.
  unfold JsString.trim.
  destruct (trimEnd_bounded c (JsString.trimStart s)),
    (trimStart_bounded c s). split; lia.
Qed.

Lemma trimEnd_idempotent s :
  JsString.trimEnd (JsString.trimEnd s) = JsString.trimEnd s.
Proof.
  induction s as [|a s IH]; simpl; [reflexivity|].
  destruct (JsString.trimEnd s) as [|b t] eqn:E.
  - destruct (JsString.is_whitespace a) eqn:Ha; simpl; [reflexivity|].
    now rewrite Ha.
  - simpl in IH. simpl. destruct (JsString.trimEnd t) as [|b' t'] eqn:E';
      destruct (JsString.is_whitespace b); try discriminate;
      now rewrite IH.
Qed.

Lemma trimStart_fixed s :
  (forall a rest, s = String a rest -> JsString.is_whitespace a = false) ->
  JsString.trimStart s = s.
Proof.
  intros H. destruct s as [|a rest]; [reflexivity|].
  simpl. now rewrite (H a rest eq_refl).
Qed.

Lemma trimStart_head s a rest :
  JsString.trimStart s = String a rest -> JsString.is_whitespace a = false.
Proof.
  induction s as [|b s IH]; simpl; [discriminate|].
  destruct (JsString.is_whitespace b) eqn:Hb; [exact IH|].
  intros [= <- _]. exact Hb.
Qed.

Lemma trimEnd_head s a rest :
  JsString.trimEnd s = String a rest -> exists rest', s = String a rest'.
Proof.
  destruct s as [|b s]; simpl; [discriminate|].
  destruct (JsString.trimEnd s);
    [destruct (JsString.is_whitespace b); [discriminate|]|];
    intros [= <- _]; eauto.
Qed.

Lemma trim_idempotent s : JsString.trim (JsString.trim s) = JsString.trim s.
Proof.
  unfold JsString.trim.
  rewrite (trimStart_fixed (JsString.trimEnd (JsString.trimStart s))).
  - apply trimEnd_idempotent.
  - intros a rest E. apply trimEnd_head in E as [rest' E].
    eapply trimStart_head, E.
Qed.

End FactCheckMore.

(** X13.  Every claim that [factCheck] extracts is a trimmed piece of the
    text: trimming it again changes nothing, it contains no period, it has
    at least 20 characters, and the claims come in the order of the pieces
    of the text. *)
Theorem extracted_claims_are_trimmed_pieces (content : string) :
  Forall (fun c => JsString.trim c = c
                   /\ JsString.count_char "." c = O
                   /\ (20 <= String.length c)%nat)
    (BraveSearch.extractClaims content)
  /\ sublist (BraveSearch.extractClaims content)
       (map JsString.trim (JsString.split "." content)).
Proof.
  unfold BraveSearch.extractClaims. split.
  - apply Forall_forall. intros c Hc.
    apply elem_of_take in Hc as (i & Hc & _).
    apply list_elem_of_lookup_2, list_elem_of_In, filter_In in Hc
      as [Hin Hsub].
    apply in_map_iff in Hin as (piece & <- & Hpiece).
    split; [apply trim_idempotent|]. split.
    + pose proof (split_pieces_without_sep "." content) as Hno.
      rewrite Forall_forall in Hno.
      specialize (Hno piece (proj2 (list_elem_of_In _ _) Hpiece)).
      destruct (trim_bounded "." piece). lia.
    + apply substantial_spec in Hsub. lia.
  - etransitivity; [apply sublist_take|].
    clear. induction (map JsString.trim (JsString.split "." content))
      as [|x l IH]; simpl; [constructor|].
    destruct (BraveSearch.substantial x); now constructor.
Qed.

(** X14.  A text shorter than 20 characters, or with fewer than 4 space
    characters, yields no claim; [factCheck] then resolves to the empty
    list whatever the search backend would do. *)
Theorem short_text_is_not_searched
    (fetch : string -> Res BraveSearch.HttpResponse) (content : string) :
  (String.length content < 20)%nat \/
  (JsString.count_char " " content < 4)%nat ->
  BraveSearch.extractClaims content = []
  /\ BraveSearch.factCheck fetch content = Ok [].
Proof.
  intros Hshort.
  assert (Hnone : BraveSearch.extractClaims content = []).
  { unfold BraveSearch.extractClaims.
    rewrite List_filter_none; [reflexivity|].
    apply Forall_forall. intros c Hc.
    apply list_elem_of_In, in_map_iff in Hc as (piece & <- & Hpiece).
    pose proof (split_pieces_bounded "." " " content) as Hb.
    rewrite Forall_forall in Hb.
    destruct (Hb piece (proj2 (list_elem_of_In _ _) Hpiece)) as [Hl Hc].
    destruct (trim_bounded " " piece) as [Hl' Hc'].
    destruct (BraveSearch.substantial (JsString.trim piece)) eqn:E;
      [|reflexivity].
    apply substantial_spec in E. lia. }
  split; [exact Hnone|].
  unfold BraveSearch.factCheck. rewrite Hnone. reflexivity.
Qed.

Lemma short_text_is_not_searched_witness :
  BraveSearch.factCheck (fun _ => Throw (JsError "network down"))
    "Fixed a typo." = Ok [].
Proof.
  apply (short_text_is_not_searched
           (fun _ => Throw (JsError "network down")) "Fixed a typo.").
  left. vm_compute. lia.
Defined.

(** X15.  The entries of a returned list are resolutions of extracted
    claims, in the order of extraction: the claims of the entries form a
    sublist of the extracted claims. *)
Theorem factCheck_keeps_claim_order
    (fetch : string -> Res BraveSearch.HttpResponse) (content : string)
    (rs : list BraveSearch.SearchResult) :
  BraveSearch.factCheck fetch content = Ok rs ->
  sublist (map BraveSearch.claim rs) (BraveSearch.extractClaims content).
Proof.
  intros H. apply factCheck_ok in H as (resolved & Hres & ->).
  induction Hres as [|c r claims resolved Hr _ IH]; simpl; [constructor|].
  apply resolveClaim_ok in Hr as [Hclaim _].
  destruct (0 <? length (BraveSearch.references r))%nat; simpl.
  - rewrite Hclaim. now constructor.
  - now constructor.
Qed.

Lemma factCheck_keeps_claim_order_witness :
  sublist
    ["Bitcoin fell sharply after the exchange was hacked today"]
    (BraveSearch.extractClaims Fixtures.two_claims).
Proof.
  apply (factCheck_keeps_claim_order Fixtures.search_selective
           Fixtures.two_claims
           [{| BraveSearch.claim :=
                 "Bitcoin fell sharply after the exchange was hacked today";
               BraveSearch.references := [Fixtures.test_reference] |}]).
  vm_compute. reflexivity.
Defined.

(** X16.  Results are taken only in the order the backend ranks them: an
    answer without a [mixed] ranking, or with an empty one, leaves no result
    however many web, news or FAQ results it carries; if every query is
    answered so, [factCheck] resolves to the empty list. *)
Theorem unranked_answers_give_no_references
    (fetch : string -> Res BraveSearch.HttpResponse) (content : string) :
  (forall query, exists response api,
      fetch query = Ok response /\ BraveSearch.ok response = true /\
      BraveSearch.json response = Ok api /\
      (BraveSearch.mixed api = None \/ BraveSearch.mixed api = Some [])) ->
  (forall query, BraveSearch.processSearchResults fetch query = Ok [])
  /\ BraveSearch.factCheck fetch content = Ok [].
Proof.
  intros Hall.
  assert (Hnone : forall query,
             BraveSearch.processSearchResults fetch query = Ok []).
  { intros query.
    destruct (Hall query) as (response & api & Hq & Hok & Hjson & Hmixed).
    unfold BraveSearch.processSearchResults, BraveSearch.searchBrave, res_bind.
    rewrite Hq, Hok. cbn [negb]. rewrite Hjson.
    destruct Hmixed as [-> | ->]; reflexivity. }
  split; [exact Hnone|].
  unfold BraveSearch.factCheck, res_bind.
  rewrite (promise_all_map (BraveSearch.resolveClaim fetch)
             (fun c => {| BraveSearch.claim := c;
                          BraveSearch.references := [] |})).
  - f_equal. apply List_filter_none, Forall_forall.
    intros r Hr. apply list_elem_of_In, in_map_iff in Hr as (c & <- & _).
    reflexivity.
  - intros c _. unfold BraveSearch.resolveClaim, res_bind.
    now rewrite Hnone.
Qed.

Lemma unranked_answers_give_no_references_witness :
  BraveSearch.factCheck
    (fun _ =>
       Ok {| BraveSearch.ok := true; BraveSearch.statusText := "OK";
             BraveSearch.json :=
               Ok {| BraveSearch.web :=
                       Some [{| BraveSearch.web_title := "Test Result";
                                BraveSearch.web_url := "https://test.com";
                                BraveSearch.web_description :=
                                  "Test Description" |}];
                     BraveSearch.news := None;
                     BraveSearch.faq := None;
                     BraveSearch.mixed := None |} |})
    Fixtures.two_claims = Ok [].
Proof.
  apply (unranked_answers_give_no_references _ Fixtures.two_claims).
  intros query. do 2 eexists.
  split; [reflexivity|]. split; [reflexivity|]. split; [reflexivity|].
  left. reflexivity.
Defined.

Section SearchResults.
Import BraveSearch.

Lemma visit_results web news faq item st :
  results (visit web news faq item st) = results st \/
  exists r, results (visit web news faq item st) = (results st ++ [r])%list
            /\ (url r ∈ map web_url web \/ url r ∈ map news_url news \/
                url r ∈ map faq_url faq).
Proof.
  unfold visit.
  destruct (String.eqb item "web");
    [|destruct (String.eqb item "news");
      [|destruct (String.eqb item "faq")]]; [| | |left; reflexivity].
  - destruct (web !! webIndex st) as [result|] eqn:E; [|left; reflexivity].
    right. eexists. split; [reflexivity|]. left. cbn [url].
    apply list_elem_of_fmap_2, (list_elem_of_lookup_2 _ _ _ E).
  - destruct (news !! newsIndex st) as [result|] eqn:E; [|left; reflexivity].
    cbn [results].
    destruct (5 <=? String.length (news_description result))%nat;
      [|left; reflexivity].
    right. eexists. split; [reflexivity|]. right. left. cbn [url].
    apply list_elem_of_fmap_2, (list_elem_of_lookup_2 _ _ _ E).
  - destruct (faq !! faqIndex st) as [result|] eqn:E; [|left; reflexivity].
    right. eexists. split; [reflexivity|]. right. right. cbn [url].
    apply list_elem_of_fmap_2, (list_elem_of_lookup_2 _ _ _ E).
Qed.

Lemma scan_results web news faq ordering st :
  let from_answer r :=
    url r ∈ map web_url web \/ url r ∈ map news_url news \/
    url r ∈ map faq_url faq in
  Forall from_answer (results st) ->
  Forall from_answer (results (scan web news faq ordering st))
  /\ (length (results (scan web news faq ordering st))
      <= length (results st) + length ordering)%nat.
Proof.
  intros from_answer. revert st.
  induction ordering as [|item rest IH]; intros st Hst; cbn [scan].
  - split; [exact Hst | lia].
  - destruct (5 <=? length (results st))%nat; [split; [exact Hst | lia]|].
    destruct (visit_results web news faq item st) as [E | (r & E & Hr)].
    + destruct (IH (visit web news faq item st)) as [Hall Hlen];
        [now rewrite E|].
      split; [exact Hall|]. rewrite E in Hlen. cbn [length]. lia.
    + destruct (IH (visit web news faq item st)) as [Hall Hlen].
      { rewrite E. apply Forall_app. split; [exact Hst|].
        constructor; [exact Hr | constructor]. }
      split; [exact Hall|]. rewrite E, length_app in Hlen.
      cbn [length] in *. lia.
Qed.

End SearchResults.

(** X17.  What [processSearchResults] returns for an answered query comes
    from the answer: each result carries the URL of one of the answer's web,
    news or FAQ results, and there are no more results than entries in the
    backend's ranking. *)
Theorem search_results_come_from_the_answer
    (fetch : string -> Res BraveSearch.HttpResponse) (query : string)
    (response : BraveSearch.HttpResponse) (api : BraveSearch.BraveAPIResponse) :
  fetch query = Ok response ->
  BraveSearch.ok response = true ->
  BraveSearch.json response = Ok api ->
  exists found,
    BraveSearch.processSearchResults fetch query = Ok found
    /\ Forall (fun r =>
                 BraveSearch.url r
                   ∈ map BraveSearch.web_url
                       (default [] (BraveSearch.web api)) \/
                 BraveSearch.url r
                   ∈ map BraveSearch.news_url
                       (default [] (BraveSearch.news api)) \/
                 BraveSearch.url r
                   ∈ map BraveSearch.faq_url
                       (default [] (BraveSearch.faq api)))
         found
    /\ (length found <= length (default [] (BraveSearch.mixed api)))%nat.
Proof.
  intros Hq Hok Hjson.
  unfold BraveSearch.processSearchResults, BraveSearch.searchBrave, res_bind.
  rewrite Hq, Hok. cbn [negb]. rewrite Hjson. cbv zeta.
  eexists. split; [reflexivity|].
  apply (scan_results _ _ _ _
           {| BraveSearch.webIndex := O; BraveSearch.newsIndex := O;
              BraveSearch.faqIndex := O; BraveSearch.results := [] |}).
  constructor.
Qed.

Lemma search_results_come_from_the_answer_witness :
  exists found,
    BraveSearch.processSearchResults (fun _ => Ok Fixtures.search_many)
      "test query" = Ok found
    /\ Forall (fun r => BraveSearch.url r = "https://test.com") found.
Proof.
  destruct (search_results_come_from_the_answer
              (fun _ => Ok Fixtures.search_many) "test query"
              Fixtures.search_many
              {| BraveSearch.web :=
                   Some (replicate 10
                           {| BraveSearch.web_title := "Web Result";
                              BraveSearch.web_url := "https://test.com";
                              BraveSearch.web_description := "A web result" |});
                 BraveSearch.news := None;
                 BraveSearch.faq := None;
                 BraveSearch.mixed := Some (replicate 10 "web") |}
              eq_refl eq_refl eq_refl) as (found & Hfound & Hfrom & _).
  exists found. split; [exact Hfound|].
  eapply Forall_impl; [exact Hfrom|]. cbv beta.
  intros r [Hr | [Hr | Hr]].
  - cbn in Hr. apply list_elem_of_In in Hr.
    repeat (destruct Hr as [<- | Hr]; [reflexivity|]). destruct Hr.
  - cbn in Hr. apply elem_of_nil in Hr. destruct Hr.
  - cbn in Hr. apply elem_of_nil in Hr. destruct Hr.
Defined.

(** ** removeStrong *)

Section RemoveStrong.
Import JsString.

Lemma startsWith_length p s :
  startsWith p s = true -> (String.length p <= String.length s)%nat.
Proof.
  revert s. induction p as [|a p IH]; intros s; simpl; [lia|].
  destruct s as [|b s]; [discriminate|].
  intros H. apply andb_true_iff in H as [_ H]. apply IH in H. simpl. lia.
Qed.

Lemma replaceAll_from_length skip pat rep s :
  (String.length rep < String.length pat)%nat ->
  (String.length (replaceAll_from skip pat rep s)
   + Nat.min skip (String.length s) <= String.length s)%nat.
Proof.
  intros Hrep. revert skip.
  induction s as [|c s IH]; intros skip; simpl; [lia|].
  destruct skip as [|k].
  - destruct (negb (String.eqb pat EmptyString) && startsWith pat (String c s))
      eqn:Hm.
    + apply andb_true_iff in Hm as [_ Hm]. apply startsWith_length in Hm.
      simpl in Hm. rewrite string_length_append.
      specialize (IH (Nat.pred (String.length pat))). lia.
    + simpl. specialize (IH O). lia.
  - specialize (IH k). lia.
Qed.

Lemma replaceAll_absent a pat rep s :
  count_char a s = O -> replaceAll (String a pat) rep s = s.
Proof.
  unfold replaceAll. induction s as [|c s IH]; simpl; [reflexivity|].
  destruct (Ascii.eqb c a) eqn:Hc; [discriminate|].
  intros Hs. rewrite Ascii.eqb_sym, Hc. cbn [andb].
  now rewrite IH.
Qed.

End RemoveStrong.

(** X18.  [removeStrong] never lengthens a text, and a text without [<] and
    without [&] is returned as it is. *)
Theorem removeStrong_only_removes (text : string) :
  (String.length (BraveSearch.removeStrong text) <= String.length text)%nat
  /\ (JsString.count_char "<" text = O ->
      JsString.count_char "&" text = O ->
      BraveSearch.removeStrong text = text).
Proof.
  unfold BraveSearch.removeStrong, JsString.replaceAll. split.
  - pose proof (replaceAll_from_length O "<strong>" "" text) as H1.
    pose proof (replaceAll_from_length O "</strong>" ""
                  (JsString.replaceAll_from O "<strong>" "" text)) as H2.
    pose proof (replaceAll_from_length O "&#x27;" "'"
                  (JsString.replaceAll_from O "</strong>" ""
                     (JsString.replaceAll_from O "<strong>" "" text))) as H3.
    cbn [String.length] in H1, H2, H3. lia.
  - intros Hlt Hamp.
    rewrite (replaceAll_absent "<" "strong>" "" text Hlt : 
               JsString.replaceAll_from O "<strong>" "" text = text).
    rewrite (replaceAll_absent "<" "/strong>" "" text Hlt :
               JsString.replaceAll_from O "</strong>" "" text = text).
    exact (replaceAll_absent "&" "#x27;" "'" text Hamp).
Qed.

Lemma removeStrong_only_removes_witness :
  BraveSearch.removeStrong "A plain description" = "A plain description".
Proof.
  apply (removeStrong_only_removes "A plain description"); reflexivity.
Defined.

(** ** extractPRDetails, further *)

Section PRDetails.
Import GitHub.

Lemma match_here_groups s g1 g2 g3 :
  match_here s = Some (g1, g2, g3) ->
  g1 <> EmptyString /\ g2 <> EmptyString /\ g3 <> EmptyString
  /\ all_chars not_slash g1 = true /\ all_chars not_slash g2 = true
  /\ all_chars is_digit g3 = true.
Proof.
  unfold match_here.
  destruct (JsString.startsWith "repos/" s); [|discriminate].
  destruct (span not_slash (drop_chars 6 s)) as [o s1] eqn:H1.
  destruct (String.eqb o EmptyString) eqn:Ho; [discriminate|].
  destruct s1 as [|c s2]; [discriminate|].
  destruct (Ascii.eqb c "/") eqn:Hc.
  2:{ intros H. exfalso. revert H. clear -Hc.
      destruct c as [[] [] [] [] [] [] [] []]; try discriminate Hc;
        discriminate. }
  apply Ascii.eqb_eq in Hc as ->.
  destruct (span not_slash s2) as [r s3] eqn:H2.
  destruct (String.eqb r EmptyString) eqn:Hr; [discriminate|].
  destruct (JsString.startsWith "/pulls/" s3); [|discriminate].
  destruct (span is_digit (drop_chars 7 s3)) as [n s4] eqn:H3.
  destruct (String.eqb n EmptyString) eqn:Hn; [discriminate|].
  intros [= <- <- <-].
  apply span_spec in H1 as [_ A1], H2 as [_ A2], H3 as [_ A3].
  apply String.eqb_neq in Ho, Hr, Hn. auto 10.
Qed.

Lemma regex_match_groups s g1 g2 g3 :
  regex_match s = Some (g1, g2, g3) ->
  g1 <> EmptyString /\ g2 <> EmptyString /\ g3 <> EmptyString
  /\ all_chars not_slash g1 = true /\ all_chars not_slash g2 = true
  /\ all_chars is_digit g3 = true.
Proof.
  induction s as [|c s IH]; cbn [regex_match].
  - intros H. vm_compute in H. discriminate.
  - destruct (match_here (String c s)) as [[[h1 h2] h3]|] eqn:Hhere.
    + intros [= <- <- <-]. eapply match_here_groups, Hhere.
    + exact IH.
Qed.

Lemma parse_digits_nonneg digits acc :
  all_chars is_digit digits = true -> 0 <= acc ->
  0 <= fold_left
         (fun acc c => 10 * acc + (Z.of_nat (nat_of_ascii c) - 48))
         (list_ascii_of_string digits) acc.
Proof.
  revert acc. induction digits as [|c digits IH]; intros acc Hd Hacc;
    simpl; [exact Hacc|].
  simpl in Hd. apply andb_true_iff in Hd as [Hc Hd].
  apply IH; [exact Hd|].
  unfold is_digit in Hc. apply andb_true_iff in Hc as [Hlo _].
  apply Nat.leb_le in Hlo. lia.
Qed.

Lemma no_slash_count s :
  all_chars not_slash s = true -> JsString.count_char "/" s = O.
Proof.
  induction s as [|c s IH]; simpl; [reflexivity|].
  intros H. apply andb_true_iff in H as [Hc Hs].
  unfold not_slash in Hc. apply negb_true_iff in Hc. rewrite Hc. auto.
Qed.

Lemma pretty_N_char_digit y : is_digit (pretty_N_char y) = true.
Proof. unfold pretty_N_char. repeat case_match; reflexivity. Qed.

Lemma pretty_N_char_value y :
  (y < 10)%N -> Z.of_nat (nat_of_ascii (pretty_N_char y)) - 48 = Z.of_N y.
Proof.
  intros Hy.
  assert (y = 0 \/ y = 1 \/ y = 2 \/ y = 3 \/ y = 4 \/ y = 5 \/ y = 6
          \/ y = 7 \/ y = 8 \/ y = 9)%N as Hcases by lia.
  repeat (destruct Hcases as [-> | Hcases]; [reflexivity|]).
  subst y. reflexivity.
Qed.

Lemma pretty_N_go_digits x s :
  all_chars is_digit s = true -> all_chars is_digit (pretty_N_go x s) = true.
Proof.
  revert s. induction (N.lt_wf_0 x) as [x _ IH]; intros s Hs.
  destruct (decide (x = 0)%N) as [-> | Hx]; [exact Hs|].
  rewrite pretty_N_go_step by lia.
  apply IH; [apply N.div_lt; lia|].
  simpl. now rewrite pretty_N_char_digit.
Qed.

Lemma pretty_N_go_value x s :
  fold_left (fun acc c => 10 * acc + (Z.of_nat (nat_of_ascii c) - 48))
    (list_ascii_of_string (pretty_N_go x s)) 0
  = fold_left (fun acc c => 10 * acc + (Z.of_nat (nat_of_ascii c) - 48))
      (list_ascii_of_string s) (Z.of_N x).
Proof.
  revert s. induction (N.lt_wf_0 x) as [x _ IH]; intros s.
  destruct (decide (x = 0)%N) as [-> | Hx]; [reflexivity|].
  rewrite pretty_N_go_step by lia.
  rewrite IH by (apply N.div_lt; lia).
  simpl. f_equal.
  rewrite pretty_N_char_value by (apply N.mod_lt; lia).
  rewrite (N.div_mod x 10) at 3 by lia. lia.
Qed.

Lemma pretty_N_go_nonempty x s :
  s <> EmptyString -> pretty_N_go x s <> EmptyString.
Proof.
  revert s. induction (N.lt_wf_0 x) as [x _ IH]; intros s Hs.
  destruct (decide (x = 0)%N) as [-> | Hx]; [exact Hs|].
  rewrite pretty_N_go_step by lia.
  apply IH; [apply N.div_lt; lia | discriminate].
Qed.

(** The decimal numeral of a natural number: digits, at least one, and
    [parseInt] reads the number back. *)
Lemma pretty_N_numeral (n : N) :
  all_chars is_digit (pretty n) = true
  /\ pretty n <> EmptyString
  /\ parseInt (pretty n) = Z.of_N n.
Proof.
  unfold pretty, pretty_N, parseInt.
  destruct (decide (n = 0)%N) as [-> | Hn].
  - repeat split. discriminate.
  - split; [apply pretty_N_go_digits; reflexivity|]. split.
    + rewrite pretty_N_go_step by lia.
      apply pretty_N_go_nonempty. discriminate.
    + apply pretty_N_go_value.
Qed.

Lemma span_all p run :
  all_chars p run = true -> span p run = (run, EmptyString).
Proof.
  induction run as [|a run IH]; simpl; [reflexivity|].
  intros H. apply andb_true_iff in H as [Ha Hrun]. now rewrite Ha, IH.
Qed.

Lemma span_exact p run tail :
  all_chars p run = true ->
  (forall c rest, tail = String c rest -> p c = false) ->
  span p (run +:+ tail) = (run, tail).
Proof.
  intros Hrun Htail. destruct tail as [|c rest].
  - replace (run +:+ EmptyString) with run; [now apply span_all|].
    clear. induction run as [|a run IH]; [reflexivity|].
    rewrite append_String. now rewrite <- IH.
  - apply span_stop; [exact Hrun | eapply Htail; reflexivity].
Qed.

Lemma match_here_exact o r n after :
  o <> EmptyString -> r <> EmptyString -> n <> EmptyString ->
  all_chars not_slash o = true -> all_chars not_slash r = true ->
  all_chars is_digit n = true ->
  (forall c rest, after = String c rest -> is_digit c = false) ->
  match_here ("repos/" +:+ o +:+ "/" +:+ r +:+ "/pulls/" +:+ n +:+ after)
  = Some (o, r, n).
Proof.
  intros Ho Hr Hn Ao Ar An Hafter. unfold match_here.
  rewrite startsWith_app.
  change (drop_chars 6 ("repos/" +:+ ?x)) with x.
  change ("/" +:+ ?x) with (String "/" x).
  rewrite (span_stop not_slash o "/") by (exact Ao || reflexivity).
  apply String.eqb_neq in Ho, Hr, Hn. rewrite Ho.
  change ("/pulls/" +:+ ?x) with (String "/" ("pulls/" +:+ x)).
  rewrite (span_stop not_slash r "/") by (exact Ar || reflexivity).
  rewrite Hr.
  change (String "/" ("pulls/" +:+ ?x)) with ("/pulls/" +:+ x).
  rewrite startsWith_app.
  change (drop_chars 7 ("/pulls/" +:+ ?x)) with x.
  rewrite (span_exact is_digit n after An Hafter). now rewrite Hn.
Qed.

End PRDetails.

(** X19.  What [extractPRDetails] returns is fit to address a repository:
    owner and repository name are not empty and contain no slash, the number
    is not negative, and the URL has the expected shape. *)
Theorem extractPRDetails_fields (prUrl : string) (details : GitHub.PRDetails) :
  GitHub.extractPRDetails prUrl = Ok details ->
  GitHub.owner details <> EmptyString
  /\ GitHub.repo details <> EmptyString
  /\ JsString.count_char "/" (GitHub.owner details) = O
  /\ JsString.count_char "/" (GitHub.repo details) = O
  /\ 0 <= GitHub.number details
  /\ GitHub.has_pr_shape prUrl.
Proof.
  unfold GitHub.extractPRDetails.
  destruct (GitHub.regex_match prUrl) as [[[g1 g2] g3]|] eqn:Hm;
    [|discriminate].
  intros [= <-]. cbn [GitHub.owner GitHub.repo GitHub.number].
  destruct (regex_match_groups _ _ _ _ Hm) as (H1 & H2 & _ & A1 & A2 & A3).
  repeat split; auto using no_slash_count.
  - apply parse_digits_nonneg; [exact A3 | lia].
  - eapply regex_match_sound, Hm.
Qed.

Lemma extractPRDetails_fields_witness :
  GitHub.owner Fixtures.details <> EmptyString
  /\ GitHub.repo Fixtures.details <> EmptyString
  /\ JsString.count_char "/" (GitHub.owner Fixtures.details) = O
  /\ JsString.count_char "/" (GitHub.repo Fixtures.details) = O
  /\ 0 <= GitHub.number Fixtures.details
  /\ GitHub.has_pr_shape Fixtures.good_url.
Proof.
  apply (extractPRDetails_fields Fixtures.good_url Fixtures.details).
  vm_compute. reflexivity.
Defined.

(** X20.  Round trip: the API URL of pull request [n] of [owner/repo],
    whatever follows the number as long as it is no digit, is read back as
    exactly that owner, repository and number ([n] in the range where a
    JavaScript number is exact). *)
Theorem extractPRDetails_reads_api_url (owner repo after : string) (n : N) :
  (n < 2 ^ 53)%N ->
  owner <> EmptyString -> repo <> EmptyString ->
  JsString.count_char "/" owner = O ->
  JsString.count_char "/" repo = O ->
  (forall c rest, after = String c rest -> GitHub.is_digit c = false) ->
  GitHub.extractPRDetails
    ("https://api.github.com/repos/" +:+ owner +:+ "/" +:+ repo +:+
     "/pulls/" +:+ pretty n +:+ after)
  = Ok {| GitHub.owner := owner; GitHub.repo := repo;
          GitHub.number := Z.of_N n |}.
Proof.
  intros _ Ho Hr So Sr Hafter.
  assert (Hall : forall s, JsString.count_char "/" s = O ->
                           GitHub.all_chars GitHub.not_slash s = true).
  { clear. induction s as [|c s IH]; simpl; [reflexivity|].
    unfold GitHub.not_slash. destruct (Ascii.eqb c "/"); [discriminate|].
    exact IH. }
  destruct (pretty_N_numeral n) as (Hd & Hne & Hval).
  pose proof (match_here_exact owner repo (pretty n) after Ho Hr Hne
                (Hall _ So) (Hall _ Sr) Hd Hafter) as Hhere.
  unfold GitHub.extractPRDetails.
  change ("https://api.github.com/repos/" +:+ ?x)
    with ("https://api.github.com/" +:+ "repos/" +:+ x).
  set (rest := "repos/" +:+ owner +:+ "/" +:+ repo +:+ "/pulls/" +:+
               pretty n +:+ after) in *.
  assert (Hmatch : GitHub.regex_match ("https://api.github.com/" +:+ rest)
                   = Some (owner, repo, pretty n)).
  { rewrite !append_String, append_Empty.
    repeat (cbn [GitHub.regex_match];
            match goal with
            | |- context [GitHub.match_here (String ?c ?t)] =>
                change (GitHub.match_here (String c t)) with (@None (string * string * string))
            end; cbv iota).
    destruct rest as [|c rest'] eqn:E.
    - subst rest. discriminate.
    - cbn [GitHub.regex_match]. rewrite Hhere. reflexivity. }
  rewrite Hmatch, Hval. reflexivity.
Qed.

Lemma extractPRDetails_reads_api_url_witness :
  GitHub.extractPRDetails
    "https://api.github.com/repos/owner/repo/pulls/123/files"
  = Ok Fixtures.details.
Proof.
  apply (extractPRDetails_reads_api_url "owner" "repo" "/files" 123).
  - reflexivity.
  - discriminate.
  - discriminate.
  - reflexivity.
  - reflexivity.
  - intros c rest [= <- _]. reflexivity.
Defined.

(** ** getPRContent *)

Lemma no_markdown_filter (files : list GitHubPR.PullFile) :
  Forall (fun file =>
            (GitHubPR.file_status file <> "added" /\
             GitHubPR.file_status file <> "modified") \/
            GitHubPR.endsWith ".md" (GitHubPR.filename file) = false)
    files ->
  List.filter GitHubPR.isMarkdownChange files = [].
Proof.
  intros Hnone. apply List_filter_none.
  eapply Forall_impl; [exact Hnone|]. cbv beta.
  intros file [[Ha Hm] | Hmd]; unfold GitHubPR.isMarkdownChange.
  - apply String.eqb_neq in Ha, Hm. now rewrite Ha, Hm.
  - rewrite Hmd. apply andb_false_r.
Qed.

(** X21.  A pull request none of whose files is an added or modified file
    with a name ending in [.md] (removed or renamed markdown, other
    extensions, upper-case [.MD]) has no content to check: [getPRContent]
    rejects with "No markdown files found in the PR", and asks for no file's
    content. *)
Theorem getPRContent_needs_markdown
    (listFiles : string -> string -> Z -> Res (list GitHubPR.PullFile))
    (getContent : string -> string -> string -> string -> Res (option string))
    (base64_to_utf8 : string -> string)
    (owner repo : string) (pullNumber : Z) (files : list GitHubPR.PullFile) :
  listFiles owner repo pullNumber = Ok files ->
  Forall (fun file =>
            (GitHubPR.file_status file <> "added" /\
             GitHubPR.file_status file <> "modified") \/
            GitHubPR.endsWith ".md" (GitHubPR.filename file) = false)
    files ->
  GitHubPR.getPRContent listFiles getContent base64_to_utf8
    owner repo pullNumber
  = Throw (JsError "No markdown files found in the PR").
Proof.
  intros Hfiles Hnone. unfold GitHubPR.getPRContent, res_bind.
  rewrite Hfiles. cbv zeta.
  now rewrite (no_markdown_filter files Hnone).
Qed.

Lemma getPRContent_needs_markdown_witness :
  GitHubPR.getPRContent (fun _ _ _ => Ok Scenarios.no_markdown_changes)
    (fun _ _ _ _ => Throw (JsError "must not be asked"))
    Scenarios.decode "owner" "repo" 123
  = Throw (JsError "No markdown files found in the PR").
Proof.
  apply (getPRContent_needs_markdown _ _ _ "owner" "repo" 123
           Scenarios.no_markdown_changes eq_refl).
  constructor; [left; split; discriminate|].
  constructor; [right; vm_compute; reflexivity|].
  constructor.
Defined.

(** X22.  Only added or modified [.md] files are read.  When each of them
    can be read, the content is their decoded texts in the order of the
    listing, set apart by a blank line; a file whose answer carries no text
    contributes the empty text; what the contents endpoint would answer for
    any other file does not matter. *)
Theorem getPRContent_reads_markdown_only
    (listFiles : string -> string -> Z -> Res (list GitHubPR.PullFile))
    (getContent : string -> string -> string -> string -> Res (option string))
    (base64_to_utf8 : string -> string)
    (owner repo : string) (pullNumber : Z) (files : list GitHubPR.PullFile) :
  let markdown :=
    List.filter (GitHubPR.isMarkdownChange) files in
  listFiles owner repo pullNumber = Ok files ->
  markdown <> [] ->
  Forall (fun file =>
            exists data,
              getContent owner repo (GitHubPR.filename file)
                (GitHubPR.sha file) = Ok data)
    markdown ->
  GitHubPR.getPRContent listFiles getContent base64_to_utf8
    owner repo pullNumber
  = Ok (JsString.join GitHubPR.nl2
          (map (fun file =>
                  match getContent owner repo (GitHubPR.filename file)
                          (GitHubPR.sha file) with
                  | Ok (Some text) => base64_to_utf8 text
                  | _ => EmptyString
                  end)
             markdown)).
Proof.
  intros markdown Hfiles Hsome Hread.
  unfold GitHubPR.getPRContent, res_bind. rewrite Hfiles. cbv zeta.
  fold markdown.
  destruct (length markdown =? 0)%nat eqn:Hlen.
  { apply Nat.eqb_eq, length_zero_iff_nil in Hlen. contradiction. }
  rewrite (promise_all_map _
             (fun file =>
                match getContent owner repo (GitHubPR.filename file)
                        (GitHubPR.sha file) with
                | Ok (Some text) => base64_to_utf8 text
                | _ => EmptyString
                end)); [reflexivity|].
  intros file Hin. rewrite Forall_forall in Hread.
  destruct (Hread file Hin) as [data Hdata].
  unfold GitHubPR.fileContent, res_bind. rewrite Hdata.
  destruct data; reflexivity.
Qed.

Lemma getPRContent_reads_markdown_only_witness :
  GitHubPR.getPRContent (fun _ _ _ => Ok Scenarios.changed_files)
    (fun owner repo path ref =>
       if String.eqb path "attacks/2024-01-bridge.md"
       then Ok (Some "QXJ0aWNsZQ==")
       else Throw (JsError "must not be asked"))
    Scenarios.decode "owner" "repo" 123
  = Ok "Article".
Proof.
  apply (getPRContent_reads_markdown_only
           (fun _ _ _ => Ok Scenarios.changed_files)
           (fun owner repo path ref =>
              if String.eqb path "attacks/2024-01-bridge.md"
              then Ok (Some "QXJ0aWNsZQ==")
              else Throw (JsError "must not be asked"))
           Scenarios.decode "owner" "repo" 123 Scenarios.changed_files
           eq_refl).
  - vm_compute. discriminate.
  - vm_compute. repeat constructor. eexists. reflexivity.
Defined.

(** X23.  If the content of one added or modified [.md] file cannot be
    read, [getPRContent] rejects: the texts of the other files are not
    returned. *)
Theorem getPRContent_fails_with_one_file
    (listFiles : string -> string -> Z -> Res (list GitHubPR.PullFile))
    (getContent : string -> string -> string -> string -> Res (option string))
    (base64_to_utf8 : string -> string)
    (owner repo : string) (pullNumber : Z) (files : list GitHubPR.PullFile)
    (file : GitHubPR.PullFile) (e : JsExn) :
  listFiles owner repo pullNumber = Ok files ->
  file ∈ files ->
  GitHubPR.isMarkdownChange file = true ->
  getContent owner repo (GitHubPR.filename file) (GitHubPR.sha file)
    = Throw e ->
  exists e',
    GitHubPR.getPRContent listFiles getContent base64_to_utf8
      owner repo pullNumber = Throw e'.
Proof.
  intros Hfiles Hin Hmd Hfail.
  unfold GitHubPR.getPRContent, res_bind. rewrite Hfiles. cbv zeta.
  destruct (length _ =? 0)%nat; [eauto|].
  destruct (promise_all_throw (GitHubPR.fileContent getContent
                                 base64_to_utf8 owner repo)
              (List.filter GitHubPR.isMarkdownChange files) file e)
    as [e' He'].
  - apply list_elem_of_In, filter_In. split; [|exact Hmd].
    now apply list_elem_of_In.
  - unfold GitHubPR.fileContent, res_bind. now rewrite Hfail.
  - rewrite He'. eauto.
Qed.

Lemma getPRContent_fails_with_one_file_witness :
  exists e',
    GitHubPR.getPRContent (fun _ _ _ => Ok Scenarios.changed_files)
      (fun _ _ _ _ => Throw (JsError "Not Found"))
      Scenarios.decode "owner" "repo" 123 = Throw e'.
Proof.
  apply (getPRContent_fails_with_one_file
           (fun _ _ _ => Ok Scenarios.changed_files)
           (fun _ _ _ _ => Throw (JsError "Not Found"))
           Scenarios.decode "owner" "repo" 123 Scenarios.changed_files
           {| GitHubPR.filename := "attacks/2024-01-bridge.md";
              GitHubPR.file_status := "added"; GitHubPR.sha := "a1" |}
           (JsError "Not Found") eq_refl).
  - left.
  - vm_compute. reflexivity.
  - reflexivity.
Defined.

(** ** The worker with the repository's GitHub and Claude services *)

Section Wired.
Import Worker.
Variable svc : Services.

Lemma startsWith_longer p s t :
  JsString.startsWith p s = true -> JsString.startsWith p (s +:+ t) = true.
Proof.
  revert s. induction p as [|a p IH]; intros s; simpl; [reflexivity|].
  destruct s as [|b s]; [discriminate|].
  rewrite append_String. intros H. apply andb_true_iff in H as [Hab Hp].
  now rewrite Hab, IH.
Qed.

Lemma includes_longer p s t :
  JsString.includes p s = true -> JsString.includes p (s +:+ t) = true.
Proof.
  induction s as [|c s IH].
  - simpl. rewrite orb_false_r. intros H.
    destruct p; [|discriminate]. destruct t; reflexivity.
  - rewrite append_String. simpl. intros H.
    apply orb_true_iff in H as [H | H].
    + change (String c (s +:+ t)) with (String c s +:+ t).
      now rewrite (startsWith_longer p (String c s) t H).
    + rewrite (IH H). apply orb_true_r.
Qed.

(** A triggered check whose content or analysis step fails with [error],
    GitHub accepting the error comment. *)
Lemma early_failure_answer request env w validated issue comment prUrl
    prDetails error :
  let c := {| c_owner := GitHub.owner prDetails;
              c_repo := GitHub.repo prDetails;
              c_issue := issue_number issue;
              c_body := error_text (errorMessage_of error) |} in
  triggers svc request env w validated issue comment prUrl ->
  GitHub.extractPRDetails prUrl = Ok prDetails ->
  (getPRContent svc (GitHub.owner prDetails) (GitHub.repo prDetails)
     (GitHub.number prDetails) = SettledInTime (Throw error)
   \/ exists content,
        getPRContent svc (GitHub.owner prDetails) (GitHub.repo prDetails)
          (GitHub.number prDetails) = SettledInTime (Ok content)
        /\ analyzeArticle svc content = Throw error) ->
  github_post svc c = Ok tt ->
  fst (fetch svc request env w)
  = Ok {| status := 500;
          body := JSON_stringify_error (errorMessage_of error);
          headers := [("Content-Type", "application/json")] |}
  /\ c ∈ posted (snd (fetch svc request env w)).
Proof.
  intros c Htrig Hurl Hfail Hpost.
  pose proof (fetch_triggered svc _ _ _ _ _ _ _ Htrig) as Hfetch.
  rewrite Hurl in Hfetch.
  unfold articleCheck, try_catch in Hfetch.
  rewrite pipeline_run in Hfetch. cbv beta zeta in Hfetch.
  destruct Hfail as [Hcontent | (content & Hcontent & Hanalysis)];
    rewrite Hcontent in Hfetch; try rewrite Hanalysis in Hfetch;
    rewrite on_failure_run in Hfetch; cbv beta zeta in Hfetch;
    fold c in Hfetch; rewrite Hpost in Hfetch; rewrite Hfetch;
    cbn [fst snd]; (split; [reflexivity|]);
    unfold add_posted; cbn [posted];
    apply elem_of_app; right; apply list_elem_of_singleton; reflexivity.
Qed.

End Wired.

(** X24.  With the content taken from [getPRContent]: a triggered check on
    a pull request without an added or modified [.md] file ends as a
    failure whose reason is "No markdown files found in the PR" - that text
    is posted in the error comment on the pull request and returned in the
    500 answer. *)
Theorem check_without_markdown_fails (svc : Worker.Services)
    (listFiles : string -> string -> Z -> Res (list GitHubPR.PullFile))
    (getContent : string -> string -> string -> string -> Res (option string))
    (base64_to_utf8 : string -> string)
    (request : Worker.Request) (env : Worker.Env)
    (w validated : Worker.World) (issue : Worker.Issue)
    (comment : Worker.CommentInfo) (prUrl : string)
    (prDetails : GitHub.PRDetails) (files : list GitHubPR.PullFile) :
  let c := {| Worker.c_owner := GitHub.owner prDetails;
              Worker.c_repo := GitHub.repo prDetails;
              Worker.c_issue := Worker.issue_number issue;
              Worker.c_body :=
                Worker.error_text "No markdown files found in the PR" |} in
  Worker.triggers svc request env w validated issue comment prUrl ->
  GitHub.extractPRDetails prUrl = Ok prDetails ->
  Worker.getPRContent svc (GitHub.owner prDetails) (GitHub.repo prDetails)
    (GitHub.number prDetails)
  = Worker.SettledInTime
      (GitHubPR.getPRContent listFiles getContent base64_to_utf8
         (GitHub.owner prDetails) (GitHub.repo prDetails)
         (GitHub.number prDetails)) ->
  listFiles (GitHub.owner prDetails) (GitHub.repo prDetails)
    (GitHub.number prDetails) = Ok files ->
  Forall (fun file =>
            (GitHubPR.file_status file <> "added" /\
             GitHubPR.file_status file <> "modified") \/
            GitHubPR.endsWith ".md" (GitHubPR.filename file) = false)
    files ->
  Worker.github_post svc c = Ok tt ->
  fst (Worker.fetch svc request env w)
  = Ok {| Worker.status := 500;
          Worker.body :=
            Worker.JSON_stringify_error "No markdown files found in the PR";
          Worker.headers := [("Content-Type", "application/json")] |}
  /\ c ∈ Worker.posted (snd (Worker.fetch svc request env w)).
Proof.
  intros c Htrig Hurl Hwired Hfiles Hnone Hpost.
  apply (early_failure_answer svc request env w validated issue comment
           prUrl prDetails (JsError "No markdown files found in the PR")
           Htrig Hurl); [|exact Hpost].
  left. rewrite Hwired. f_equal.
  unfold GitHubPR.getPRContent, res_bind. rewrite Hfiles. cbv zeta.
  now rewrite (no_markdown_filter files Hnone).
Qed.

Lemma check_without_markdown_fails_witness :
  fst (Worker.fetch
         (Runs.wired (Fixtures.services Fixtures.good_url)
            (fun _ _ _ => Ok Scenarios.no_markdown_changes)
            Scenarios.content_of Scenarios.decode Scenarios.claude_answers)
         (Fixtures.request "sha256=valid") Fixtures.env Worker.empty_world)
  = Ok {| Worker.status := 500;
          Worker.body :=
            Worker.JSON_stringify_error "No markdown files found in the PR";
          Worker.headers := [("Content-Type", "application/json")] |}.
Proof.
  apply (check_without_markdown_fails
           (Runs.wired (Fixtures.services Fixtures.good_url)
              (fun _ _ _ => Ok Scenarios.no_markdown_changes)
              Scenarios.content_of Scenarios.decode Scenarios.claude_answers)
           (fun _ _ _ => Ok Scenarios.no_markdown_changes)
           Scenarios.content_of Scenarios.decode
           (Fixtures.request "sha256=valid") Fixtures.env Worker.empty_world
           (snd (Worker.validateRequest
                   (Runs.wired (Fixtures.services Fixtures.good_url)
                      (fun _ _ _ => Ok Scenarios.no_markdown_changes)
                      Scenarios.content_of Scenarios.decode
                      Scenarios.claude_answers)
                   (Fixtures.request "sha256=valid") Fixtures.env
                   Worker.empty_world))
           (Fixtures.issue Fixtures.good_url) Fixtures.comment
           Fixtures.good_url Fixtures.details Scenarios.no_markdown_changes).
  - split; [vm_compute; reflexivity|].
    split; [reflexivity|].
    split; [eexists; split; reflexivity|].
    split; [vm_compute; reflexivity | discriminate].
  - vm_compute. reflexivity.
  - reflexivity.
  - reflexivity.
  - constructor; [left; split; discriminate|].
    constructor; [right; vm_compute; reflexivity|].
    constructor.
  - reflexivity.
Defined.

(** X25.  With the analysis taken from [analyzeArticle]: when the messages
    endpoint answers with a non-success status, the check fails with the
    reason "Claude API error: <status text> - <body of the answer>"; the
    body of the upstream answer is thereby part of the error comment posted
    on the pull request and of the 500 answer. *)
Theorem claude_error_is_published (svc : Worker.Services)
    (post : string -> Res Claude.HttpReply)
    (request : Worker.Request) (env : Worker.Env)
    (w validated : Worker.World) (issue : Worker.Issue)
    (comment : Worker.CommentInfo) (prUrl : string)
    (prDetails : GitHub.PRDetails) (content errorText : string)
    (reply : Claude.HttpReply) :
  let reason := "Claude API error: " +:+ Claude.statusText reply +:+
                " - " +:+ errorText in
  let c := {| Worker.c_owner := GitHub.owner prDetails;
              Worker.c_repo := GitHub.repo prDetails;
              Worker.c_issue := Worker.issue_number issue;
              Worker.c_body := Worker.error_text reason |} in
  Worker.triggers svc request env w validated issue comment prUrl ->
  GitHub.extractPRDetails prUrl = Ok prDetails ->
  Worker.getPRContent svc (GitHub.owner prDetails) (GitHub.repo prDetails)
    (GitHub.number prDetails) = Worker.SettledInTime (Ok content) ->
  Worker.analyzeArticle svc content = Claude.analyzeArticle post content ->
  post (Claude.prompt content) = Ok reply ->
  Claude.ok reply = false ->
  Claude.text reply = Ok errorText ->
  Worker.github_post svc c = Ok tt ->
  fst (Worker.fetch svc request env w)
  = Ok {| Worker.status := 500;
          Worker.body := Worker.JSON_stringify_error reason;
          Worker.headers := [("Content-Type", "application/json")] |}
  /\ c ∈ Worker.posted (snd (Worker.fetch svc request env w))
  /\ JsString.includes errorText (Worker.c_body c) = true.
Proof.
  intros reason c Htrig Hurl Hcontent Hwired Hpost Hok Htext Hgithub.
  assert (Hanalysis : Worker.analyzeArticle svc content
                      = Throw (JsError reason)).
  { rewrite Hwired. unfold Claude.analyzeArticle, res_bind.
    now rewrite Hpost, Hok, Htext. }
  destruct (early_failure_answer svc request env w validated issue comment
              prUrl prDetails (JsError reason) Htrig Hurl) as [Hanswer Hin].
  - right. exists content. split; [exact Hcontent | exact Hanalysis].
  - exact Hgithub.
  - split; [exact Hanswer|]. split; [exact Hin|].
    subst c. cbn [Worker.c_body]. unfold Worker.error_text.
    do 4 apply includes_later.
    apply includes_longer. subst reason.
    do 3 apply includes_later.
    rewrite <- (includes_here errorText EmptyString) at 1.
    f_equal. clear. induction errorText as [|a t IH]; [reflexivity|].
    rewrite append_String. now rewrite <- IH.
Qed.

Lemma claude_error_is_published_witness :
  let svc := Runs.wired (Fixtures.services Fixtures.good_url)
               (fun _ _ _ => Ok Scenarios.changed_files)
               Scenarios.content_of Scenarios.decode
               Scenarios.claude_overloaded in
  fst (Worker.fetch svc (Fixtures.request "sha256=valid") Fixtures.env
         Worker.empty_world)
  = Ok {| Worker.status := 500;
          Worker.body :=
            Worker.JSON_stringify_error
              "Claude API error: Service Unavailable - upstream overloaded";
          Worker.headers := [("Content-Type", "application/json")] |}
  /\ JsString.includes "upstream overloaded"
       (Worker.error_text
          "Claude API error: Service Unavailable - upstream overloaded")
     = true.
Proof.
  intros svc.
  destruct (claude_error_is_published svc Scenarios.claude_overloaded
              (Fixtures.request "sha256=valid") Fixtures.env
              Worker.empty_world
              (snd (Worker.validateRequest svc
                      (Fixtures.request "sha256=valid") Fixtures.env
                      Worker.empty_world))
              (Fixtures.issue Fixtures.good_url) Fixtures.comment
              Fixtures.good_url Fixtures.details "Article"
              "upstream overloaded"
              {| Claude.ok := false;
                 Claude.statusText := "Service Unavailable";
                 Claude.text := Ok "upstream overloaded";
                 Claude.json := Throw JsOther |})
    as (Hanswer & _ & Hbody).
  - split; [vm_compute; reflexivity|].
    split; [reflexivity|].
    split; [eexists; split; reflexivity|].
    split; [vm_compute; reflexivity | discriminate].
  - vm_compute. reflexivity.
  - vm_compute. reflexivity.
  - reflexivity.
  - reflexivity.
  - reflexivity.
  - reflexivity.
  - reflexivity.
  - split; [exact Hanswer | exact Hbody].
Defined.

(** X26.  With the analysis taken from [analyzeArticle]: only the first
    content block of the answer is used.  When it is empty the report shows
    the placeholder "*Error: Could not generate analysis*" whatever the
    later blocks hold, and the check still completes with 200. *)
Theorem first_block_decides_the_analysis (svc : Worker.Services)
    (post : string -> Res Claude.HttpReply)
    (request : Worker.Request) (env : Worker.Env)
    (w validated : Worker.World) (issue : Worker.Issue)
    (comment : Worker.CommentInfo) (prUrl : string)
    (prDetails : GitHub.PRDetails) (content : string)
    (reply : Claude.HttpReply) (later : list string)
    (factChecking : list BraveSearch.SearchResult) :
  let text := Worker.report svc EmptyString factChecking
                (Worker.created_at comment) in
  let c := {| Worker.c_owner := GitHub.owner prDetails;
              Worker.c_repo := GitHub.repo prDetails;
              Worker.c_issue := Worker.issue_number issue;
              Worker.c_body := text |} in
  Worker.triggers svc request env w validated issue comment prUrl ->
  GitHub.extractPRDetails prUrl = Ok prDetails ->
  Worker.getPRContent svc (GitHub.owner prDetails) (GitHub.repo prDetails)
    (GitHub.number prDetails) = Worker.SettledInTime (Ok content) ->
  Worker.analyzeArticle svc content = Claude.analyzeArticle post content ->
  post (Claude.prompt content) = Ok reply ->
  Claude.ok reply = true ->
  Claude.json reply = Ok (EmptyString :: later) ->
  BraveSearch.factCheck (Worker.brave_fetch svc) content = Ok factChecking ->
  Worker.github_post svc c = Ok tt ->
  fst (Worker.fetch svc request env w)
  = Ok {| Worker.status := 200; Worker.body := "Article check completed";
          Worker.headers := [("Content-Type", "application/json")] |}
  /\ c ∈ Worker.posted (snd (Worker.fetch svc request env w))
  /\ JsString.includes Worker.analysis_placeholder text = true.
Proof.
  intros text c Htrig Hurl Hcontent Hwired Hpost Hok Hjson Hcheck Hgithub.
  assert (Hanalysis : Worker.analyzeArticle svc content = Ok EmptyString).
  { rewrite Hwired. unfold Claude.analyzeArticle, res_bind.
    now rewrite Hpost, Hok, Hjson. }
  pose proof (fetch_triggered svc _ _ _ _ _ _ _ Htrig) as Hfetch.
  rewrite Hurl in Hfetch.
  unfold Worker.articleCheck, Worker.try_catch in Hfetch.
  rewrite pipeline_run in Hfetch. cbv beta zeta in Hfetch.
  rewrite Hcontent, Hanalysis, Hcheck in Hfetch.
  fold text in Hfetch. fold c in Hfetch. rewrite Hgithub in Hfetch.
  rewrite Hfetch. cbn [fst snd]. split; [reflexivity|]. split.
  - unfold Worker.add_posted. cbn [Worker.posted].
    apply elem_of_app. right. apply list_elem_of_singleton. reflexivity.
  - subst text. unfold Worker.report. cbn [Worker.truthy String.eqb negb].
    do 5 apply includes_later. apply includes_here.
Qed.

Lemma first_block_decides_the_analysis_witness :
  let svc := Runs.wired (Fixtures.services Fixtures.good_url)
               (fun _ _ _ => Ok Scenarios.changed_files)
               Scenarios.content_of Scenarios.decode
               (fun _ =>
                  Ok {| Claude.ok := true; Claude.statusText := "OK";
                        Claude.text := Ok EmptyString;
                        Claude.json := Ok [EmptyString; "Later text"] |}) in
  fst (Worker.fetch svc (Fixtures.request "sha256=valid") Fixtures.env
         Worker.empty_world)
  = Ok {| Worker.status := 200; Worker.body := "Article check completed";
          Worker.headers := [("Content-Type", "application/json")] |}
  /\ JsString.includes Worker.analysis_placeholder
       (Worker.report svc EmptyString [] "2024-01-10T00:00:00.000Z") = true.
Proof.
  intros svc.
  destruct (first_block_decides_the_analysis svc
              (fun _ =>
                 Ok {| Claude.ok := true; Claude.statusText := "OK";
                       Claude.text := Ok EmptyString;
                       Claude.json := Ok [EmptyString; "Later text"] |})
              (Fixtures.request "sha256=valid") Fixtures.env
              Worker.empty_world
              (snd (Worker.validateRequest svc
                      (Fixtures.request "sha256=valid") Fixtures.env
                      Worker.empty_world))
              (Fixtures.issue Fixtures.good_url) Fixtures.comment
              Fixtures.good_url Fixtures.details "Article"
              {| Claude.ok := true; Claude.statusText := "OK";
                 Claude.text := Ok EmptyString;
                 Claude.json := Ok [EmptyString; "Later text"] |}
              ["Later text"] [])
    as (Hanswer & _ & Hplaceholder).
  - split; [vm_compute; reflexivity|].
    split; [reflexivity|].
    split; [eexists; split; reflexivity|].
    split; [vm_compute; reflexivity | discriminate].
  - vm_compute. reflexivity.
  - vm_compute. reflexivity.
  - reflexivity.
  - reflexivity.
  - reflexivity.
  - reflexivity.
  - vm_compute. reflexivity.
  - reflexivity.
  - split; [exact Hanswer | exact Hplaceholder].
Defined.
